(** * MikroTik credential manager: RouterOS API client and lifecycle manager

    A shallow embedding of [mikrotik_api.py] (the RouterOS API client:
    length-prefixed word framing, sentence reading, login) and of
    [mikrotik_manager.py] (the manager that provisions and revokes
    temporary accounts), followed by the properties of the specification
    that are checked against them. *)

From Stdlib Require Import ZArith Lia List String Ascii Bool.
From stdpp Require Import base option list gmap strings pretty.
Import ListNotations.

Local Open Scope string_scope.
Local Open Scope Z_scope.

(* ===================================================================== *)
(** * Wire codec: [_send_length] and [_read_length]                       *)
(* ===================================================================== *)

Module Wire.

(** The byte view of a socket: [rx] is what the peer has still to
    deliver, [tx] what has been written so far.  Bytes are integers, as
    in a Python [bytes] object. *)
Record sock := Sock { rx : list Z; tx : list Z }.

(** [bytes([...])]: raises [ValueError] unless every item is in
    [range(256)]. *)
Definition py_bytes (l : list Z) : option (list Z) :=
  if forallb (fun b => (0 <=? b) && (b <? 256)) l then Some l else None.

(** [self.socket.send(bytes([...]))] *)
Definition send (l : list Z) (s : sock) : option sock :=
  bs ← py_bytes l; Some (Sock (rx s) (tx s ++ bs)).

(** [self.socket.recv(1)[0]]: at the end of the stream [recv] returns
    [b''] and the index raises. *)
Definition recv1 (s : sock) : option (Z * sock) :=
  match rx s with
  | [] => None
  | b :: r => Some (b, Sock r (tx s))
  end.

(** [MikroTikAPI._send_length] *)
Definition _send_length (length : Z) (s : sock) : option sock :=
  if length <? 0x80 then
    send [length] s
  else if length <? 0x4000 then
    let length := Z.lor length 0x8000 in
    send [Z.land (Z.shiftr length 8) 0xFF; Z.land length 0xFF] s
  else if length <? 0x200000 then
    let length := Z.lor length 0xC00000 in
    send [Z.land (Z.shiftr length 16) 0xFF; Z.land (Z.shiftr length 8) 0xFF;
          Z.land length 0xFF] s
  else if length <? 0x10000000 then
    let length := Z.lor length 0xE0000000 in
    send [Z.land (Z.shiftr length 24) 0xFF; Z.land (Z.shiftr length 16) 0xFF;
          Z.land (Z.shiftr length 8) 0xFF; Z.land length 0xFF] s
  else
    send [0xF0; Z.land (Z.shiftr length 24) 0xFF; Z.land (Z.shiftr length 16) 0xFF;
          Z.land (Z.shiftr length 8) 0xFF; Z.land length 0xFF] s.

(** [MikroTikAPI._read_length]; the operands of [+] are evaluated from
    left to right, so the bytes are taken in stream order. *)
Definition _read_length (s : sock) : option (Z * sock) :=
  '(first_byte, s) ← recv1 s;
  if first_byte <? 0x80 then
    Some (first_byte, s)
  else if first_byte <? 0xC0 then
    '(b0, s) ← recv1 s;
    Some (Z.shiftl (Z.land first_byte 0x7F) 8 + b0, s)
  else if first_byte <? 0xE0 then
    '(b1, s) ← recv1 s;
    '(b0, s) ← recv1 s;
    Some (Z.shiftl (Z.land first_byte 0x1F) 16 + Z.shiftl b1 8 + b0, s)
  else if first_byte <? 0xF0 then
    '(b2, s) ← recv1 s;
    '(b1, s) ← recv1 s;
    '(b0, s) ← recv1 s;
    Some (Z.shiftl (Z.land first_byte 0x0F) 24 + Z.shiftl b2 16 + Z.shiftl b1 8 + b0, s)
  else
    '(b3, s) ← recv1 s;
    '(b2, s) ← recv1 s;
    '(b1, s) ← recv1 s;
    '(b0, s) ← recv1 s;
    Some (Z.shiftl b3 24 + Z.shiftl b2 16 + Z.shiftl b1 8 + b0, s).

(** A [str] is the list of its code points, [0] to [0x10FFFF].
    [word.encode('utf-8')] raises [UnicodeEncodeError] on a surrogate,
    which a [str] may hold; a number outside the range is no code point
    and is refused as well. *)
Definition encode_char (c : Z) : option (list Z) :=
  if c <? 0 then None
  else if c <? 0x80 then Some [c]
  else if c <? 0x800 then Some [0xC0 + c / 64; 0x80 + c mod 64]
  else if c <? 0x10000 then
    if (0xD800 <=? c) && (c <? 0xE000) then None
    else Some [0xE0 + c / 4096; 0x80 + (c / 64) mod 64; 0x80 + c mod 64]
  else if c <? 0x110000 then
    Some [0xF0 + c / 262144; 0x80 + (c / 4096) mod 64; 0x80 + (c / 64) mod 64;
          0x80 + c mod 64]
  else None.

Fixpoint encode_utf8 (word : list Z) : option (list Z) :=
  match word with
  | [] => Some []
  | c :: rest => bs ← encode_char c; more ← encode_utf8 rest; Some (bs ++ more)%list
  end.

(** [data.decode('utf-8')]: raises [UnicodeDecodeError] on a byte that
    cannot start a character, on a character that is cut short or
    continued by a byte outside [0x80..0xBF], on an encoding longer than
    the character needs, on a surrogate and on a value above
    [0x10FFFF]. *)
Definition continuation (b : Z) : bool := (0x80 <=? b) && (b <? 0xC0).

Fixpoint decode_utf8 (bs : list Z) : option (list Z) :=
  match bs with
  | [] => Some []
  | b0 :: r0 =>
      if (0 <=? b0) && (b0 <? 0x80) then cons b0 <$> decode_utf8 r0
      else
        match r0 with
        | [] => None
        | b1 :: r1 =>
            if (0xC2 <=? b0) && (b0 <? 0xE0) then
              if continuation b1
              then cons ((b0 - 0xC0) * 64 + (b1 - 0x80)) <$> decode_utf8 r1
              else None
            else
              match r1 with
              | [] => None
              | b2 :: r2 =>
                  if (0xE0 <=? b0) && (b0 <? 0xF0) then
                    let c := (b0 - 0xE0) * 4096 + (b1 - 0x80) * 64 + (b2 - 0x80) in
                    if continuation b1 && continuation b2 && (0x800 <=? c)
                       && negb ((0xD800 <=? c) && (c <? 0xE000))
                    then cons c <$> decode_utf8 r2
                    else None
                  else
                    match r2 with
                    | [] => None
                    | b3 :: r3 =>
                        if (0xF0 <=? b0) && (b0 <? 0xF5) then
                          let c := (b0 - 0xF0) * 262144 + (b1 - 0x80) * 4096
                                   + (b2 - 0x80) * 64 + (b3 - 0x80) in
                          if continuation b1 && continuation b2 && continuation b3
                             && (0x10000 <=? c) && (c <? 0x110000)
                          then cons c <$> decode_utf8 r3
                          else None
                        else None
                    end
              end
        end
  end.

(** [self.socket.send(word_bytes)]: the system takes the first
    [accepted] bytes of the buffer, all of it or less; the count that
    [send] returns is not looked at, so what was not taken is never
    written. *)
Definition send_bytes (accepted : nat) (bs : list Z) (s : sock) : sock :=
  Sock (rx s) (tx s ++ take accepted bs).

(** [self.socket.recv(n)]: [ValueError] for a negative [n]; otherwise
    the call returns what has [arrived] when it is made, at most [n]
    bytes and at least one while the stream lasts, and nothing at its
    end. *)
Definition recv (arrived : nat) (n : Z) (s : sock) : option (list Z * sock) :=
  if n <? 0 then None
  else
    let k := Nat.min (Z.to_nat n) (Nat.max 1 arrived) in
    Some (take k (rx s), Sock (drop k (rx s)) (tx s)).

(** [MikroTikAPI._send_word] and [MikroTikAPI._read_word]: a single
    [send] of the encoded word after its prefix, a single [recv] of
    the length announced, then the decoding.  [accepted] and [arrived]
    are what the system does at that one call. *)
Definition _send_word (accepted : nat) (word : list Z) (s : sock) : option sock :=
  word_bytes ← encode_utf8 word;
  s ← _send_length (Z.of_nat (length word_bytes)) s;
  Some (send_bytes accepted word_bytes s).

Definition _read_word (arrived : nat) (s : sock) : option (list Z * sock) :=
  '(length, s) ← _read_length s;
  if length =? 0 then Some ([], s)
  else
    '(data, s) ← recv arrived length s;
    word ← decode_utf8 data;
    Some (word, s).

(** The prefix written for [n] on a fresh socket, and the length read
    from a given byte string: the codec as the specification names it. *)
Definition encode_length (n : Z) : option (list Z) :=
  tx <$> _send_length n (Sock [] []).

Definition decode_length (bs : list Z) : option Z :=
  fst <$> _read_length (Sock bs []).

End Wire.

(* ===================================================================== *)
(** * Python values used by the client                                    *)
(* ===================================================================== *)

Module Py.

(** The result of a call that may raise; [Raise msg] carries [str(e)]. *)
Inductive outcome (A : Type) : Type :=
| Ok (a : A)
| Raise (msg : string).
Arguments Ok {A} a.
Arguments Raise {A} msg.

(** A reply record, [Dict[str, str]]. *)
Abbreviation dict := (gmap string string).

(** [s.startswith(p)] *)
Definition startswith (p s : string) : bool := String.prefix p s.

(** Truth value of a string: [not word] is [negb (truthy word)]. *)
Definition truthy (s : string) : bool :=
  match s with EmptyString => false | String _ _ => true end.

(** [s[n:]] *)
Fixpoint slice_from (n : nat) (s : string) : string :=
  match n, s with
  | O, _ => s
  | S _, EmptyString => EmptyString
  | S n, String _ r => slice_from n r
  end.

(** [key, _, value = s.partition("=")]: split at the first ["="]; without
    one the value is empty. *)
Fixpoint partition_eq (s : string) : string * string :=
  match s with
  | EmptyString => (EmptyString, EmptyString)
  | String c r =>
      if Ascii.eqb c "="%char then (EmptyString, r)
      else let '(k, v) := partition_eq r in (String c k, v)
  end.

(** [a or b] on values that are [None] or a string. *)
Definition or_else (a b : option string) : option string :=
  match a with
  | Some s => if truthy s then a else b
  | None => b
  end.

(** Truth value of [None] or a string. *)
Definition truthy_opt (a : option string) : bool :=
  match a with Some s => truthy s | None => false end.

(** [str(n)] for an [int]. *)
Definition str_int (n : Z) : string := pretty n.

(** [f"{n:02d}"]: the sign counts in the width. *)
Definition fmt_02d (n : Z) : string :=
  if (0 <=? n) && (n <? 10) then "0" +:+ pretty n else pretty n.

(** [s.lower()] lowers every cased character of Unicode; its tables are
    not part of the program.  The definitions that call it take the
    function as the parameter [lower], and what is proved of them holds
    for every function, so for that one.  [ascii_lower] is [s.lower()]
    for a string [s] of ASCII characters, where it changes the letters
    [A] to [Z] and nothing else. *)
Definition ascii_lower_char (c : ascii) : ascii :=
  let n := nat_of_ascii c in
  if (65 <=? n)%nat && (n <=? 90)%nat then ascii_of_nat (n + 32) else c.

Fixpoint ascii_lower (s : string) : string :=
  match s with
  | EmptyString => EmptyString
  | String c r => String (ascii_lower_char c) (ascii_lower r)
  end.

(** [needle in hay] *)
Fixpoint contains (needle hay : string) : bool :=
  if String.prefix needle hay then true
  else match hay with
       | EmptyString => false
       | String _ r => contains needle r
       end.

End Py.

(* ===================================================================== *)
(** * The RouterOS API client, [mikrotik_api.MikroTikAPI]                  *)
(* ===================================================================== *)

Module Api.
Import Py.

(** The environment of a run.  [net] scripts the TCP connections that
    are opened, in order: [None] for one that fails (refused, timed
    out, TLS failure), [Some ws] for one that is established and on
    which the device will deliver the words [ws] (each word as
    [_read_word] returns it, the framing being that of [Wire]); past
    the end of [ws] a read raises.  [wire] collects every word written
    to a socket, in order. *)
Record World := mkWorld {
  net : list (option (list string));
  wire : list string;
  clock : Z;                   (* int(datetime.now().timestamp()) *)
  entropy : nat -> nat;        (* the draws of the secrets generator *)
  drawn : nat;                 (* how many have been taken *)
  marker_env : option string;  (* TEMP_USER_COMMENT_MARKER in the process environment *)
  db_active : outcome Z        (* the count of active requests, or the failure of the query *)
}.

Definition take_connection (w : World) : option (list string) * World :=
  match net w with
  | [] => (None, w)
  | c :: rest =>
      (c, mkWorld rest (wire w) (clock w) (entropy w) (drawn w) (marker_env w) (db_active w))
  end.

Definition put_word (word : string) (w : World) : World :=
  mkWorld (net w) (wire w ++ [word]) (clock w) (entropy w) (drawn w) (marker_env w)
          (db_active w).

(** The object: [socket] holds the words still to be read. *)
Record MikroTikAPI := mkAPI {
  host : string;
  username : string;
  password : string;
  port : Z;
  use_tls : bool;
  socket : option (list string);
  connected : bool
}.

(** [MikroTikAPI.__init__] *)
Definition new (host username password : string) (port : Z) (use_tls : bool)
  : MikroTikAPI :=
  mkAPI host username password port use_tls None false.

Definition with_socket (self : MikroTikAPI) (s : option (list string))
    (c : bool) : MikroTikAPI :=
  mkAPI (host self) (username self) (password self) (port self) (use_tls self) s c.

(** [MikroTikAPI.disconnect] *)
Definition disconnect (self : MikroTikAPI) : MikroTikAPI :=
  with_socket self None false.

(** [MikroTikAPI._send_word]: on a missing socket the attribute access
    raises; on an open one the word is written. *)
Definition _send_word (word : string) (self : MikroTikAPI) (w : World)
  : outcome unit * World :=
  match socket self with
  | None => (Raise "'NoneType' object has no attribute 'send'", w)
  | Some _ => (Ok tt, put_word word w)
  end.

(** [MikroTikAPI._read_word] on the pending words. *)
Definition _read_word (ws : list string) : outcome string * list string :=
  match ws with
  | [] => (Raise "index out of range", [])
  | word :: rest => (Ok word, rest)
  end.

(** The inner loop of the [!re] branch of [_send_command]: it returns
    the record, the control word to push back if one ended the
    sentence, and the words left. *)
Fixpoint read_reply (ws : list string) (data : dict)
  : outcome (dict * option string) * list string :=
  match ws with
  | [] => (Raise "index out of range", [])
  | attr :: rest =>
      if negb (truthy attr) then (Ok (data, None), rest)
      else if startswith "=" attr then
        let '(key, value) := partition_eq (slice_from 1 attr) in
        read_reply rest (<[key := value]> data)
      else if startswith "!" attr then (Ok (data, Some attr), rest)
      else read_reply rest data
  end.

(** The inner loop of the [!trap]/[!fatal] branch. *)
Fixpoint read_error (ws : list string) (error_msg : string)
  : outcome string * list string :=
  match ws with
  | [] => (Raise "index out of range", [])
  | attr :: rest =>
      if negb (truthy attr) || startswith "!" attr then (Ok error_msg, rest)
      else if startswith "=message=" attr then read_error rest (slice_from 9 attr)
      else read_error rest error_msg
  end.

(** The [while True] loop that reads the response.  Each turn either
    takes the pushed-back control word or reads one word; [fuel] bounds
    the number of turns ([None] when it is used up). *)
Fixpoint read_response (fuel : nat) (next_control : option string)
    (ws : list string) (response : list dict)
  : option (outcome (list dict) * list string) :=
  match fuel with
  | O => None
  | S fuel =>
      let '(got, ws) :=
        match next_control with
        | Some word => (Ok word, ws)
        | None => _read_word ws
        end in
      match got with
      | Raise e => Some (Raise e, ws)
      | Ok word =>
          if negb (truthy word) then Some (Ok response, ws)
          else if String.eqb word "!re" || startswith "!re" word then
            match read_reply ws ∅ with
            | (Raise e, ws) => Some (Raise e, ws)
            | (Ok (data, next_control), ws) =>
                read_response fuel next_control ws (response ++ [data])
            end
          else if startswith "!done" word then Some (Ok response, ws)
          else if startswith "!trap" word || startswith "!fatal" word then
            match read_error ws "Unknown error" with
            | (Raise e, ws) => Some (Raise e, ws)
            | (Ok error_msg, ws) => Some (Raise ("Command failed: " +:+ error_msg), ws)
            end
          else read_response fuel None ws response
      end
  end.

(** Turns that are enough for the loop on [ws]: a turn without a read
    (one that takes the pushed-back word) follows a turn with one. *)
Definition pending (next_control : option string) : nat :=
  match next_control with Some _ => 1%nat | None => 0%nat end.

Definition turns (ws : list string) : nat := (2 * length ws + 2)%nat.

(** The loop run to its end from a given state.  [turns ws] is always
    enough (lemma [read_response_enough] below), so the default is
    never taken. *)
Definition read_from (next_control : option string) (ws : list string)
    (response : list dict) : outcome (list dict) * list string :=
  default (Raise "unreachable", ws) (read_response (turns ws) next_control ws response).

(** The loop as [_send_command] starts it: an empty response and no
    pushed-back word. *)
Definition read_sentences (ws : list string) : outcome (list dict) * list string :=
  read_from None ws [].

(** The words of a command: the command, one [=key=value] per argument
    in the order of the dictionary, and the empty word. *)
Definition command_words (command : string) (arguments : list (string * string))
  : list string :=
  command :: map (fun '(key, value) => "=" +:+ key +:+ "=" +:+ value) arguments ++ [EmptyString].

Fixpoint send_words (words : list string) (self : MikroTikAPI) (w : World)
  : outcome unit * World :=
  match words with
  | [] => (Ok tt, w)
  | word :: rest =>
      match _send_word word self w with
      | (Raise e, w) => (Raise e, w)
      | (Ok _, w) => send_words rest self w
      end
  end.

(** [MikroTikAPI._send_command]; every exception of the body is raised
    again as [MikroTikAPIError("Command execution failed: ...")]. *)
Definition _send_command (command : string) (arguments : list (string * string))
    (self : MikroTikAPI) (w : World)
  : outcome (list dict) * MikroTikAPI * World :=
  if negb (connected self) then
     (Raise "Not connected to MikroTik device", self, w)
  else
    match send_words (command_words command arguments) self w with
    | (Raise e, w) => (Raise ("Command execution failed: " +:+ e), self, w)
    | (Ok _, w) =>
        match socket self with
        | None => (Raise "Command execution failed: 'NoneType' object has no attribute 'recv'", self, w)
        | Some ws =>
            match read_sentences ws with
            | (Raise e, ws) =>
                (Raise ("Command execution failed: " +:+ e),
                 with_socket self (Some ws) (connected self), w)
            | (Ok response, ws) =>
                (Ok response, with_socket self (Some ws) (connected self), w)
            end
        end
    end.

(** The loop of [_login] that reads the rest of a [!trap] sentence. *)
Fixpoint skip_sentence (ws : list string) : outcome unit * list string :=
  match ws with
  | [] => (Raise "index out of range", [])
  | word :: rest => if negb (truthy word) then (Ok tt, rest) else skip_sentence rest
  end.

(** [MikroTikAPI._login]: any exception gives [False]. *)
Definition _login (self : MikroTikAPI) (w : World) : bool * MikroTikAPI * World :=
  match send_words ["/login"; "=name=" +:+ username self;
                    "=password=" +:+ password self; EmptyString] self w with
  | (Raise _, w) => (false, self, w)
  | (Ok _, w) =>
      match socket self with
      | None => (false, self, w)
      | Some ws =>
          match _read_word ws with
          | (Raise _, ws) => (false, with_socket self (Some ws) (connected self), w)
          | (Ok response, ws) =>
              if String.eqb response "!done" then
                (true, with_socket self (Some ws) (connected self), w)
              else if String.eqb response "!trap" then
                (false, with_socket self (Some (snd (skip_sentence ws))) (connected self), w)
              else (false, with_socket self (Some ws) (connected self), w)
          end
      end
  end.

(** [MikroTikAPI.connect] *)
Definition connect (self : MikroTikAPI) (w : World) : bool * MikroTikAPI * World :=
  match take_connection w with
  | (None, w) => (false, disconnect self, w)
  | (Some ws, w) =>
      let self := with_socket self (Some ws) (connected self) in
      match _login self w with
      | (true, self, w) => (true, with_socket self (socket self) true, w)
      | (false, self, w) => (false, disconnect self, w)
      end
  end.

End Api.

(* ===================================================================== *)
(** * The lifecycle manager, [mikrotik_manager.MikroTikManager]           *)
(* ===================================================================== *)

Module Manager.
Import Py Api.

Record MikroTikManager := mkManager {
  service_user : string;
  service_pass : string;
  api_port : Z;
  mgr_use_tls : bool
}.

(** The result dictionaries of the public methods. *)
Inductive connection_result :=
| ConnFailed (error : string)
| ConnOk (ident : option string) (message : string).

Inductive create_result :=
| CreateFailed (error : string)
| Created (username password : string) (duration_minutes : Z)
          (device_identity : option string).

Inductive revoke_result :=
| RevokeFailed (error : string)
| Revoked (message : string).

Inductive info_result :=
| InfoFailed (error : string)
| Info (device_name : option string) (total_users temporary_users : Z).

(** [connect_to_device]: a TCP connection to the API port is opened and
    closed; the result is truthy when it could be opened. *)
Definition connect_to_device (self : MikroTikManager) (ip_address : string)
    (w : World) : bool * World :=
  match take_connection w with
  | (Some _, w) => (true, w)
  | (None, w) => (false, w)
  end.

(** The condition under which the identity is asked for again:
    [not (ident_resp and (ident_resp[0].get("name") or
    ident_resp[0].get("identity")))]. *)
Definition has_identity (ident_resp : list dict) : bool :=
  match ident_resp with
  | [] => false
  | first :: _ => truthy_opt (or_else (first !! "name") (first !! "identity"))
  end.

(** [ident_resp[0].get("name") or ident_resp[0].get("identity")] when the
    list is not empty, [None] otherwise. *)
Definition identity_of (ident_resp : list dict) : option string :=
  match ident_resp with
  | [] => None
  | first :: _ => or_else (first !! "name") (first !! "identity")
  end.

(** The identity lookup that [test_connection], [get_device_info] and
    [create_temporary_user] each carry out on a connected client:
    the print restricted to [name], the full print when that gave no
    identity, and the value read from the first record. *)
Definition read_identity (api : MikroTikAPI) (w : World)
  : outcome (option string) * MikroTikAPI * World :=
  match _send_command "/system/identity/print" [(".proplist", "name")] api w with
  | (Raise e, api, w) => (Raise e, api, w)
  | (Ok ident_resp, api, w) =>
      if negb (has_identity ident_resp) then
        match _send_command "/system/identity/print" [] api w with
        | (Raise e, api, w) => (Raise e, api, w)
        | (Ok ident_resp, api, w) => (Ok (identity_of ident_resp), api, w)
        end
      else (Ok (identity_of ident_resp), api, w)
  end.

(** [MikroTikManager.test_connection] *)
Definition test_connection (self : MikroTikManager) (ip_address : string)
    (w : World) : connection_result * World :=
  match connect_to_device self ip_address w with
  | (false, w) => (ConnFailed ("Cannot reach port " +:+ str_int (api_port self)), w)
  | (true, w) =>
      let api := new ip_address (service_user self) (service_pass self)
                     (api_port self) (mgr_use_tls self) in
      let '(ident, w) :=
        match connect api w with
        | (true, api, w) =>
            match read_identity api w with
            | (Ok ident, _, w) => (ident, w)
            | (Raise _, _, w) => (None, w)
            end
        | (false, _, w) => (None, w)
        end in
      if negb (truthy_opt ident) then
        (ConnOk None "Connected, identity not readable", w)
      else (ConnOk ident "Connection successful", w)
  end.

(** [secrets.choice(alphabet)] *)
Definition choice (alphabet : string) (w : World) : ascii * World :=
  let r := entropy w (drawn w) in
  (default "000"%char (String.get (r mod String.length alphabet)%nat alphabet),
   mkWorld (net w) (wire w) (clock w) (entropy w) (S (drawn w)) (marker_env w)
           (db_active w)).

(** [''.join(secrets.choice(alphabet) for _ in range(n))] *)
Fixpoint choices (n : nat) (alphabet : string) (w : World) : string * World :=
  match n with
  | O => (EmptyString, w)
  | S n =>
      let '(c, w) := choice alphabet w in
      let '(r, w) := choices n alphabet w in
      (String c r, w)
  end.

Definition ascii_lowercase : string := "abcdefghijklmnopqrstuvwxyz".
Definition ascii_uppercase : string := "ABCDEFGHIJKLMNOPQRSTUVWXYZ".
Definition ascii_letters : string := ascii_lowercase +:+ ascii_uppercase.
Definition digits : string := "0123456789".

(** [MikroTikManager.generate_temp_credentials] *)
Definition generate_temp_credentials (prefix : string) (w : World)
  : (string * string) * World :=
  let timestamp := str_int (clock w) in
  let '(rand_suffix, w) := choices 4 (ascii_lowercase +:+ digits) w in
  let username := prefix +:+ timestamp +:+ "-" +:+ rand_suffix in
  let alphabet := ascii_letters +:+ digits +:+ "!@#$%^&*" in
  let '(password, w) := choices 12 alphabet w in
  ((username, password), w).

(** The helpers of the same names in [mikrotik_api.py], which the
    manager never calls: [generate_temp_credentials] there keeps the
    last six digits of the timestamp and adds no suffix, and
    [MikroTikAPI.create_temporary_user] puts the minutes in the seconds
    field of its interval, [f"00:00:{duration_minutes:02d}"]. *)
Definition api_generate_temp_credentials (prefix : string) (w : World)
  : (string * string) * World :=
  let full := str_int (clock w) in
  let timestamp := slice_from (String.length full - 6) full in
  let username := prefix +:+ timestamp in
  let '(password, w) := choices 12 (ascii_letters +:+ digits) w in
  ((username, password), w).

Definition api_cleanup_time (duration_minutes : Z) : string :=
  "00:00:" +:+ fmt_02d duration_minutes.

(** [MikroTikManager.map_role_to_group] *)
Definition map_role_to_group (role : string) : string :=
  default "read"
    (({[ "admin" := "full"; "full_access" := "full"; "write_access" := "write";
         "read_only" := "read" ]} : dict) !! role).

(** [f"{hh:02d}:{mm:02d}:00"] with [hh = duration_minutes // 60] and
    [mm = duration_minutes % 60]. *)
Definition interval_str (duration_minutes : Z) : string :=
  let hh := duration_minutes / 60 in
  let mm := duration_minutes mod 60 in
  fmt_02d hh +:+ ":" +:+ fmt_02d mm +:+ ":00".

Definition dquote : string := String (ascii_of_nat 34) EmptyString.

Definition cleanup_script (temp_username scheduler_name : string) : string :=
  ":log info " +:+ dquote +:+ "Cleaning up temporary user: " +:+ temp_username
    +:+ dquote +:+ "; " +:+
  "/user remove [find name=" +:+ dquote +:+ temp_username +:+ dquote +:+ "]; " +:+
  ":log info " +:+ dquote +:+ "Temporary user " +:+ temp_username +:+ " removed"
    +:+ dquote +:+ "; " +:+
  "/system scheduler remove [find name=" +:+ dquote +:+ scheduler_name +:+ dquote
    +:+ "]; " +:+
  ":log info " +:+ dquote +:+ "Cleanup scheduler " +:+ scheduler_name +:+ " removed"
    +:+ dquote.

Definition user_add_args (temp_username temp_password group : string)
    (duration_minutes : Z) : list (string * string) :=
  [("name", temp_username); ("password", temp_password); ("group", group);
   ("comment", "Temporary user - expires in " +:+ str_int duration_minutes
                 +:+ " minutes")].

Definition scheduler_add_args (temp_username : string) (duration_minutes : Z)
  : list (string * string) :=
  let scheduler_name := "cleanup-" +:+ temp_username in
  [("name", scheduler_name); ("interval", interval_str duration_minutes);
   ("on-event", cleanup_script temp_username scheduler_name);
   ("comment", "Auto cleanup for " +:+ temp_username)].

(** Step 3 of [create_temporary_user]: the identity read with the new
    credentials when the connection test had none. *)
Definition identity_with_temp_user (self : MikroTikManager) (ip_address : string)
    (known : option string) (temp_username temp_password : string) (w : World)
  : option string * World :=
  if negb (truthy_opt known) then
    let api_temp := new ip_address temp_username temp_password (api_port self)
                        (mgr_use_tls self) in
    match connect api_temp w with
    | (true, api_temp, w) =>
        match read_identity api_temp w with
        | (Ok device_identity, _, w) => (device_identity, w)
        | (Raise _, _, w) => (None, w)
        end
    | (false, _, w) => (None, w)
    end
  else (known, w).

(** The body of [create_temporary_user] from [# 1) Create user] on, on
    the connected client [api]. *)
Definition provision (self : MikroTikManager) (ip_address : string)
    (known : option string) (temp_username temp_password group : string)
    (duration_minutes : Z) (api : MikroTikAPI) (w : World)
  : create_result * World :=
  match _send_command "/user/add"
          (user_add_args temp_username temp_password group duration_minutes) api w with
  | (Raise e, _, w) => (CreateFailed ("Failed to create user: " +:+ e), w)
  | (Ok _, api, w) =>
      match _send_command "/system/scheduler/add"
              (scheduler_add_args temp_username duration_minutes) api w with
      | (Raise e, api, w) =>
          let '(_, _, w) :=
            _send_command "/user/remove" [("numbers", temp_username)] api w in
          (CreateFailed ("Failed to create cleanup scheduler: " +:+ e), w)
      | (Ok _, api, w) =>
          let '(device_identity, w) :=
            identity_with_temp_user self ip_address known temp_username
                                    temp_password w in
          (Created temp_username temp_password duration_minutes device_identity, w)
      end
  end.

(** [MikroTikManager.create_temporary_user]; [group] is [None] or a
    string. *)
Definition create_temporary_user (self : MikroTikManager) (ip_address : string)
    (duration_minutes : Z) (username_prefix : string) (group : option string)
    (w : World) : create_result * World :=
  match test_connection self ip_address w with
  | (ConnFailed error, w) => (CreateFailed ("Cannot connect to device: " +:+ error), w)
  | (ConnOk ident _, w) =>
      let '((temp_username, temp_password), w) :=
        generate_temp_credentials username_prefix w in
      let group := if truthy_opt group then default "read" group else "read" in
      let api := new ip_address (service_user self) (service_pass self)
                     (api_port self) (mgr_use_tls self) in
      match connect api w with
      | (false, _, w) => (CreateFailed "API login failed", w)
      | (true, api, w) =>
          provision self ip_address ident temp_username temp_password group
                    duration_minutes api w
      end
  end.

(** The two removals of [revoke_temporary_user], each in its own
    [try]. *)
Definition remove_user_and_scheduler (username : string) (api : MikroTikAPI)
    (w : World) : MikroTikAPI * World :=
  let '(_, api, w) := _send_command "/user/remove" [("numbers", username)] api w in
  let scheduler_name := "cleanup-" +:+ username in
  let '(_, api, w) :=
    _send_command "/system/scheduler/remove" [("numbers", scheduler_name)] api w in
  (api, w).

(** [MikroTikManager.revoke_temporary_user]; the client is built
    without [use_tls]. *)
Definition revoke_temporary_user (self : MikroTikManager) (ip_address username : string)
    (w : World) : revoke_result * World :=
  match test_connection self ip_address w with
  | (ConnFailed error, w) => (RevokeFailed ("Cannot connect to device: " +:+ error), w)
  | (ConnOk _ _, w) =>
      let api := new ip_address (service_user self) (service_pass self)
                     (api_port self) false in
      match connect api w with
      | (false, _, w) => (RevokeFailed "API login failed", w)
      | (true, api, w) =>
          let '(_, w) := remove_user_and_scheduler username api w in
          (Revoked ("User " +:+ username +:+ " revoked successfully"), w)
      end
  end.

(** The loop that counts the users that are not disabled. *)
Definition is_disabled (u : dict) : bool :=
  match u !! "disabled" with
  | Some v => String.eqb v "true" || String.eqb v "yes"
  | None => false
  end.

Definition count_enabled (users : list dict) : Z :=
  fold_left (fun total_users u => if is_disabled u then total_users else total_users + 1)
            users 0.

(** The loop that counts the users whose comment holds the marker,
    [temp_marker.lower() in comment.lower()]; [lower] is [str.lower]. *)
Definition count_temporary (lower : string -> string) (temp_marker : string)
    (users : list dict) : Z :=
  fold_left (fun temp_users u =>
               let comment := default EmptyString (u !! "comment") in
               if contains (lower temp_marker) (lower comment)
               then temp_users + 1 else temp_users)
            users 0.

(** The fallback to the requests known to the database: it runs when
    [total_users <= 1 or temp_users == 0], replaces [temp_users] only
    when that is zero and the count is not, and a failure of the
    database leaves [temp_users] as it is. *)
Definition backfill_from_db (total_users temp_users : Z) (w : World) : Z :=
  if (total_users <=? 1) || (temp_users =? 0) then
    match db_active w with
    | Ok db_count =>
        if (temp_users =? 0) && negb (db_count =? 0) then db_count else temp_users
    | Raise _ => temp_users
    end
  else temp_users.

(** The final sanity step on [total_users]. *)
Definition sanity_total (total_users temp_users : Z) : Z :=
  if (total_users =? 0) && (0 <? temp_users) then temp_users + 1
  else if total_users <? temp_users then temp_users + 1
  else total_users.

(** [MikroTikManager.get_device_info]; [lower] is [str.lower]. *)
Definition get_device_info (lower : string -> string) (self : MikroTikManager)
    (ip_address : string) (w : World) : info_result * World :=
  match test_connection self ip_address w with
  | (ConnFailed error, w) => (InfoFailed error, w)
  | (ConnOk _ _, w) =>
      let api := new ip_address (service_user self) (service_pass self)
                     (api_port self) (mgr_use_tls self) in
      match connect api w with
      | (false, _, w) => (InfoFailed "API login failed", w)
      | (true, api, w) =>
          let '(device_name, api, w) :=
            match read_identity api w with
            | (Ok name, api, w) => (if truthy_opt name then name else None, api, w)
            | (Raise _, api, w) => (None, api, w)
            end in
          match _send_command "/user/print" [] api w with
          | (Raise e, _, w) => (InfoFailed e, w)
          | (Ok users, _, w) =>
              let total_users := count_enabled users in
              let temp_marker := default "Temporary user" (marker_env w) in
              let temp_users := count_temporary lower temp_marker users in
              let temp_users := backfill_from_db total_users temp_users w in
              let total_users := sanity_total total_users temp_users in
              (Info device_name total_users temp_users, w)
          end
      end
  end.

End Manager.

(* ===================================================================== *)
(** * Notions in which the properties are stated                          *)
(* ===================================================================== *)

Module Spec.
Import Py Api.

(** A word that can stand inside a sentence without ending it: it is
    not empty and is not a control word. *)
Definition inner_word (attr : string) : Prop :=
  truthy attr = true /\ startswith "!" attr = false.

(** What one word adds to a reply record: [=key=value] sets [key], any
    other inner word is passed over. *)
Definition add_attribute (data : dict) (attr : string) : dict :=
  if startswith "=" attr then
    let '(key, value) := partition_eq (slice_from 1 attr) in <[key := value]> data
  else data.

(** The record accumulated from the words of a sentence. *)
Definition record_of (attrs : list string) : dict :=
  fold_left add_attribute attrs ∅.

(** The message of an error sentence as the specification words it:
    that of the first [=message=] attribute, [Unknown error] without
    one. *)
Fixpoint first_message (attrs : list string) : string :=
  match attrs with
  | [] => "Unknown error"
  | attr :: rest =>
      if startswith "=message=" attr then slice_from 9 attr else first_message rest
  end.

(** The message as the loop leaves it: each [=message=] attribute
    replaces the one before. *)
Definition keep_message (error_msg attr : string) : string :=
  if startswith "=message=" attr then slice_from 9 attr else error_msg.

Definition last_message (attrs : list string) : string :=
  fold_left keep_message attrs "Unknown error".

Definition message_count (attrs : list string) : nat :=
  length (List.filter (startswith "=message=") attrs).

(** The text of the exception that [_send_command] raises for an error
    sentence with message [m]. *)
Definition command_failure (m : string) : string :=
  "Command execution failed: " +:+ ("Command failed: " +:+ m).

(** The decimal digit [d] and the two-digit field for [0 <= n < 100]. *)
Definition digit (d : Z) : ascii := ascii_of_nat (48 + Z.to_nat d).

Definition two_digits (n : Z) : string :=
  String (digit (n / 10)) (String (digit (n mod 10)) EmptyString).

(** The value of an argument of a command. *)
Fixpoint argument (key : string) (arguments : list (string * string)) : option string :=
  match arguments with
  | [] => None
  | (k, v) :: rest => if String.eqb k key then Some v else argument key rest
  end.

(** Every character of [s] is one of [alphabet]. *)
Definition drawn_from (alphabet s : string) : Prop :=
  Forall (fun c => In c (list_ascii_of_string alphabet)) (list_ascii_of_string s).

(** A control word other than the four tokens. *)
Definition unrecognized (word : string) : Prop :=
  startswith "!" word = true /\
  word <> "!re" /\ word <> "!done" /\ word <> "!trap" /\ word <> "!fatal".

(** The loop passes over [word]: with it at the head of the stream it
    does what it does without it. *)
Definition skipped (word : string) : Prop :=
  forall ws response,
    read_from None (word :: ws) response = read_from None ws response.

(** The world after the words [words] have been written. *)
Definition written (words : list string) (w : World) : World :=
  fold_left (fun w word => put_word word w) words w.

(** A connected client whose socket still has the words [ws] to
    deliver. *)
Definition session (ws : list string) : MikroTikAPI :=
  mkAPI "192.0.2.1" "svc" "secret" 8728 false (Some ws) true.

Definition manager : Manager.MikroTikManager :=
  Manager.mkManager "svc" "secret" 8728 false.

(** The words a device sends when the connection test finds it and
    its identity is [R1]: the probe, then a login and one reply. *)
Definition reachable : list (option (list string)) :=
  [Some []; Some ["!done"; "!re"; "=name=R1"; EmptyString; "!done"]].

Definition world (script : list (option (list string))) : World :=
  mkWorld script [] 1762214400 (fun n => (7 * n + 3)%nat) O None (Ok 0).

End Spec.

(* ===================================================================== *)
(** * The operations of the client class itself, [mikrotik_api.MikroTikAPI] *)
(* ===================================================================== *)

Module Client.
Import Py Api.

(** The result dictionaries of the four methods. *)
Inductive test_result :=
| TestFailed (error : string)
| Tested (device_name : string) (total_users temporary_users : Z).

Inductive create_result :=
| CreateFailed (error : string)
| Created (username password : string) (duration_minutes : Z) (scheduler_name : string).

Inductive revoke_result :=
| RevokeFailed (error : string)
| Revoked (message : string).

Record temp_user := mkTempUser {
  tu_username : string;
  tu_group : string;
  tu_comment : string;
  tu_last_logged_in : string
}.

Inductive list_result :=
| ListFailed (error : string)
| Listed (temporary_users : list temp_user) (count : Z).

(** [user.get("name", "").startswith("temp_")] *)
Definition is_temp (user : dict) : bool :=
  startswith "temp_" (default EmptyString (user !! "name")).

(** [sum(1 for user in users_response if ...)] *)
Definition count_temp (users_response : list dict) : Z :=
  fold_left (fun n user => if is_temp user then n + 1 else n) users_response 0.

(** [MikroTikAPI.test_connection] *)
Definition test_connection (self : MikroTikAPI) (w : World)
  : test_result * MikroTikAPI * World :=
  match connect self w with
  | (false, self, w) => (TestFailed "Connection failed", self, w)
  | (true, self, w) =>
      let '(device_name, self, w) :=
        match _send_command "/system/identity/print" [] self w with
        | (Ok identity_response, self, w) =>
            (match identity_response with
             | [] => "Unknown"
             | first :: _ => default "Unknown" (first !! "name")
             end, self, w)
        | (Raise _, self, w) => ("Unknown", self, w)
        end in
      let '(total_users, temp_users, self, w) :=
        match _send_command "/user/print" [] self w with
        | (Ok users_response, self, w) =>
            (Z.of_nat (length users_response), count_temp users_response, self, w)
        | (Raise _, self, w) => (0, 0, self, w)
        end in
      (Tested device_name total_users temp_users, disconnect self, w)
  end.

Definition dquote : string := String (ascii_of_nat 34) EmptyString.

Definition user_args (username password : string) (duration_minutes : Z)
  : list (string * string) :=
  [("name", username); ("password", password); ("group", "read");
   ("comment", "Temporary user - expires in " +:+ str_int duration_minutes
                 +:+ " minutes")].

Definition scheduler_args (username : string) (duration_minutes : Z)
  : list (string * string) :=
  let scheduler_name := "cleanup_" +:+ username in
  let cleanup_time := "00:00:" +:+ fmt_02d duration_minutes in
  [("name", scheduler_name); ("start-time", "startup"); ("interval", cleanup_time);
   ("on-event",
    "/user/remove [find name=" +:+ dquote +:+ username +:+ dquote
      +:+ "] ; /system/scheduler/remove [find name=" +:+ dquote +:+ scheduler_name
      +:+ dquote +:+ "]");
   ("comment", "Auto-cleanup for temporary user " +:+ username)].

(** [MikroTikAPI.create_temporary_user] *)
Definition create_temporary_user (username password : string) (duration_minutes : Z)
    (self : MikroTikAPI) (w : World) : create_result * MikroTikAPI * World :=
  match connect self w with
  | (false, self, w) => (CreateFailed "Connection failed", self, w)
  | (true, self, w) =>
      match _send_command "/user/add" (user_args username password duration_minutes)
                          self w with
      | (Raise e, self, w) =>
          (CreateFailed ("Failed to create user: " +:+ e), disconnect self, w)
      | (Ok _, self, w) =>
          let scheduler_name := "cleanup_" +:+ username in
          match _send_command "/system/scheduler/add"
                  (scheduler_args username duration_minutes) self w with
          | (Raise e, self, w) =>
              let '(_, self, w) :=
                _send_command "/user/remove" [("numbers", username)] self w in
              (CreateFailed ("Failed to create cleanup scheduler: " +:+ e),
               disconnect self, w)
          | (Ok _, self, w) =>
              (Created username password duration_minutes scheduler_name,
               disconnect self, w)
          end
      end
  end.

(** The removal of the scheduler in [revoke_temporary_user]: it is
    looked up first, and no failure of the two commands counts. *)
Definition remove_scheduler (scheduler_name : string) (self : MikroTikAPI) (w : World)
  : MikroTikAPI * World :=
  match _send_command "/system/scheduler/print" [("name", scheduler_name)] self w with
  | (Ok schedulers_response, self, w) =>
      match schedulers_response with
      | [] => (self, w)
      | _ :: _ =>
          let '(_, self, w) :=
            _send_command "/system/scheduler/remove" [("numbers", scheduler_name)]
                          self w in
          (self, w)
      end
  | (Raise _, self, w) => (self, w)
  end.

(** [MikroTikAPI.revoke_temporary_user] *)
Definition revoke_temporary_user (username : string) (self : MikroTikAPI) (w : World)
  : revoke_result * MikroTikAPI * World :=
  match connect self w with
  | (false, self, w) => (RevokeFailed "Connection failed", self, w)
  | (true, self, w) =>
      match _send_command "/user/print" [("name", username)] self w with
      | (Raise e, self, w) =>
          (RevokeFailed ("Failed to remove user: " +:+ e), disconnect self, w)
      | (Ok [], self, w) => (RevokeFailed "User not found", disconnect self, w)
      | (Ok (_ :: _), self, w) =>
          match _send_command "/user/remove" [("numbers", username)] self w with
          | (Raise e, self, w) =>
              (RevokeFailed ("Failed to remove user: " +:+ e), disconnect self, w)
          | (Ok _, self, w) =>
              let '(self, w) := remove_scheduler ("cleanup_" +:+ username) self w in
              (Revoked ("User " +:+ username +:+ " revoked successfully"),
               disconnect self, w)
          end
      end
  end.

(** The entry of [list_temporary_users] for a user. *)
Definition temp_entry (user : dict) : temp_user :=
  mkTempUser (default EmptyString (user !! "name"))
             (default EmptyString (user !! "group"))
             (default EmptyString (user !! "comment"))
             (default "never" (user !! "last-logged-in")).

(** The loop of [list_temporary_users]. *)
Fixpoint temp_entries (users_response : list dict) : list temp_user :=
  match users_response with
  | [] => []
  | user :: rest =>
      if is_temp user then temp_entry user :: temp_entries rest else temp_entries rest
  end.

(** [MikroTikAPI.list_temporary_users] *)
Definition list_temporary_users (self : MikroTikAPI) (w : World)
  : list_result * MikroTikAPI * World :=
  match connect self w with
  | (false, self, w) => (ListFailed "Connection failed", self, w)
  | (true, self, w) =>
      match _send_command "/user/print" [] self w with
      | (Raise e, self, w) => (ListFailed e, disconnect self, w)
      | (Ok users_response, self, w) =>
          let temp_users := temp_entries users_response in
          (Listed temp_users (Z.of_nat (length temp_users)), disconnect self, w)
      end
  end.

End Client.

(* ===================================================================== *)
(** * [MikroTikManager.fetch_identity_debug]                              *)
(* ===================================================================== *)

Module Debug.
Import Py Api Manager.

(** The fields of the result that the method fills in ([ip], [port] and
    [use_tls] repeat the configuration).  A response is the list
    returned, or the text of the exception kept under [error]. *)
Record debug_result := mkDebug {
  connect_ok : bool;
  login_ok : bool;
  identity_proplist : option (outcome (list dict));
  identity_full : option (outcome (list dict));
  parsed : option string;
  error : option string
}.

(** The name parsed from the two responses: the restricted one when it
    is a non-empty list, else the full one when that is. *)
Definition parse_name (proplist_resp full_resp : outcome (list dict)) : option string :=
  match proplist_resp with
  | Ok (first :: _) => or_else (first !! "name") (first !! "identity")
  | _ =>
      match full_resp with
      | Ok (first :: _) => or_else (first !! "name") (first !! "identity")
      | _ => None
      end
  end.

(** [MikroTikManager.fetch_identity_debug]; [username] and [password]
    are [None] or strings. *)
Definition fetch_identity_debug (self : MikroTikManager) (ip_address : string)
    (username password : option string) (w : World) : debug_result * World :=
  let user := if truthy_opt username then default EmptyString username
              else service_user self in
  let pwd := if truthy_opt password then default EmptyString password
             else service_pass self in
  let api := new ip_address user pwd (api_port self) (mgr_use_tls self) in
  match connect api w with
  | (false, _, w) => (mkDebug false false None None None (Some "API login failed"), w)
  | (true, api, w) =>
      let '(proplist_resp, api, w) :=
        _send_command "/system/identity/print" [(".proplist", "name")] api w in
      let '(full_resp, api, w) := _send_command "/system/identity/print" [] api w in
      (mkDebug true true (Some proplist_resp) (Some full_resp)
               (parse_name proplist_resp full_resp) None, w)
  end.

End Debug.

(* ===================================================================== *)
(** * Further notions                                                     *)
(* ===================================================================== *)

Module Notions.
Import Py Api Manager Spec.

(** The words of a reply sentence with the inner words [attrs], ended by
    the empty word. *)
Definition reply_words (attrs : list string) : list string :=
  ("!re" :: attrs) ++ [EmptyString].

(** The words of a response made of complete reply sentences. *)
Definition replies (sentences : list (list string)) : list string :=
  concat (map reply_words sentences).

(** The word that carries one argument, [f"={key}={value}"]. *)
Definition argument_word (kv : string * string) : string :=
  "=" +:+ fst kv +:+ "=" +:+ snd kv.

(** The dictionary with the pairs of [arguments] assigned in order. *)
Definition assigned (arguments : list (string * string)) : dict :=
  fold_left (fun data kv => <[fst kv := snd kv]> data) arguments ∅.

(** [c in s] for a character. *)
Fixpoint has_char (c : ascii) (s : string) : bool :=
  match s with
  | EmptyString => false
  | String a r => Ascii.eqb a c || has_char c r
  end.

(** The four words of the login. *)
Definition login_words (self : MikroTikAPI) : list string :=
  ["/login"; "=name=" +:+ username self; "=password=" +:+ password self; EmptyString].

(** The next connection that is opened will be established. *)
Definition next_established (w : World) : bool :=
  match net w with
  | Some _ :: _ => true
  | _ => false
  end.

(** The character that the [k]-th value of the generator selects in
    [alphabet]. *)
Definition draw (alphabet : string) (w : World) (k : nat) : ascii :=
  default "000"%char (String.get (entropy w k mod String.length alphabet)%nat alphabet).

(** The username as the specification words it: the prefix, a
    timestamp of ten decimal digits, a hyphen and four lowercase
    letters or digits. *)
Definition claimed_username (prefix username : string) : Prop :=
  exists timestamp suffix,
    username = prefix +:+ timestamp +:+ "-" +:+ suffix /\
    String.length timestamp = 10%nat /\ drawn_from "0123456789" timestamp /\
    String.length suffix = 4%nat /\
    drawn_from "abcdefghijklmnopqrstuvwxyz0123456789" suffix.

(** The wire of [w'] is that of [w] with more words after it. *)
Definition grown (w w' : World) : Prop :=
  exists more, wire w' = (wire w ++ more)%list.




End Notions.

(** Deciding the comparisons of the codec from the ranges at hand. *)
Ltac pick_branch :=
  repeat match goal with
  | |- context [?a <? ?b] =>
      first [ rewrite (proj2 (Z.ltb_lt a b)) by lia
            | rewrite (proj2 (Z.ltb_ge a b)) by lia ]
  end.

(** Deciding the range tests of the UTF-8 decoder. *)
Ltac decide_tests :=
  repeat match goal with
  | |- context [Z.leb ?a ?b] => destruct (Z.leb_spec a b); try lia
  | |- context [Z.ltb ?a ?b] => destruct (Z.ltb_spec a b); try lia
  end.

(* ===================================================================== *)
(** * Properties                                                          *)
(* ===================================================================== *)

Section WireFacts.
Import Wire.

(** Setting bits above the range of [a] is an addition. *)
Lemma lor_above (a m n : Z) :
  0 <= n -> 0 <= a < 2 ^ n -> Z.lor a (Z.shiftl m n) = a + m * 2 ^ n.
Proof.
  intros Hn Ha.
  assert (Hdisj : Z.land a (Z.shiftl m n) = 0).
  { apply Z.bits_inj'. intros i Hi.
    rewrite Z.land_spec, Z.bits_0.
    destruct (Z.lt_ge_cases i n) as [Hlt | Hge].
    - rewrite (Z.shiftl_spec_low m n i Hlt). apply andb_false_r.
    - replace (Z.testbit a i) with false; [reflexivity |].
      symmetry. rewrite <- (Z.mod_small a (2 ^ n)) by lia.
      apply Z.mod_pow2_bits_high. lia. }
  rewrite <- Z.lxor_lor by exact Hdisj.
  rewrite <- Z.add_nocarry_lxor by exact Hdisj.
  rewrite Z.shiftl_mul_pow2 by exact Hn. reflexivity.
Qed.

Lemma land_byte (a : Z) : Z.land a 0xFF = a mod 256.
Proof. change 0xFF with (Z.ones 8). rewrite Z.land_ones by lia. reflexivity. Qed.

Lemma py_bytes_in_range (l : list Z) :
  Forall (fun b => 0 <= b < 256) l -> py_bytes l = Some l.
Proof.
  intros H. unfold py_bytes.
  replace (forallb _ l) with true; [reflexivity |].
  symmetry. apply forallb_forall. intros b Hb.
  rewrite Forall_forall in H. apply list_elem_of_In, H in Hb. lia.
Qed.

Lemma send_fresh (l : list Z) :
  Forall (fun b => 0 <= b < 256) l -> tx <$> send l (Sock [] []) = Some l.
Proof. intros H. unfold send. rewrite (py_bytes_in_range l H). reflexivity. Qed.

Lemma roundtrip_1 (L : Z) (rest out : list Z) :
  0 <= L < 0x80 ->
  encode_length L = Some [L] /\
  _read_length (Sock ([L] ++ rest) out) = Some (L, Sock rest out).
Proof.
  intros HL. split.
  - unfold encode_length, _send_length. pick_branch.
    apply send_fresh. repeat constructor; lia.
  - unfold _read_length, recv1. simpl. pick_branch. reflexivity.
Qed.

Lemma roundtrip_2 (L : Z) (rest out : list Z) :
  0x80 <= L < 0x4000 ->
  let bs := [L / 2 ^ 8 + 0x80; L mod 256] in
  encode_length L = Some bs /\
  _read_length (Sock (bs ++ rest) out) = Some (L, Sock rest out).
Proof.
  intros HL bs. subst bs.
  assert (Hh : 0 <= L / 2 ^ 8 < 0x40) by (Z.div_mod_to_equations; lia).
  assert (Hl : 0 <= L mod 256 < 256) by (Z.div_mod_to_equations; lia).
  split.
  - unfold encode_length, _send_length. pick_branch. cbv zeta.
    change 0x8000 with (Z.shiftl 1 15). rewrite lor_above by lia. rewrite ?land_byte, ?Z.shiftr_div_pow2, ?Z.shiftl_mul_pow2 by lia.
    replace ((L + 1 * 2 ^ 15) / 2 ^ 8 mod 256) with (L / 2 ^ 8 + 0x80)
      by (Z.div_mod_to_equations; lia).
    replace ((L + 1 * 2 ^ 15) mod 256) with (L mod 256)
      by (Z.div_mod_to_equations; lia).
    apply send_fresh. repeat constructor; lia.
  - unfold _read_length, recv1. simpl. pick_branch. simpl.
    change 0x7F with (Z.ones 7). rewrite Z.land_ones by lia. rewrite ?land_byte, ?Z.shiftr_div_pow2, ?Z.shiftl_mul_pow2 by lia.
    do 2 f_equal. Z.div_mod_to_equations; lia.
Qed.

Lemma roundtrip_3 (L : Z) (rest out : list Z) :
  0x4000 <= L < 0x200000 ->
  let bs := [L / 2 ^ 16 + 0xC0; L / 2 ^ 8 mod 256; L mod 256] in
  encode_length L = Some bs /\
  _read_length (Sock (bs ++ rest) out) = Some (L, Sock rest out).
Proof.
  intros HL bs. subst bs.
  assert (Hh : 0 <= L / 2 ^ 16 < 0x20) by (Z.div_mod_to_equations; lia).
  assert (Hm : 0 <= L / 2 ^ 8 mod 256 < 256) by (Z.div_mod_to_equations; lia).
  assert (Hl : 0 <= L mod 256 < 256) by (Z.div_mod_to_equations; lia).
  split.
  - unfold encode_length, _send_length. pick_branch. cbv zeta.
    change 0xC00000 with (Z.shiftl 3 22). rewrite lor_above by lia. rewrite ?land_byte, ?Z.shiftr_div_pow2, ?Z.shiftl_mul_pow2 by lia.
    replace ((L + 3 * 2 ^ 22) / 2 ^ 16 mod 256) with (L / 2 ^ 16 + 0xC0)
      by (Z.div_mod_to_equations; lia).
    replace ((L + 3 * 2 ^ 22) / 2 ^ 8 mod 256) with (L / 2 ^ 8 mod 256)
      by (Z.div_mod_to_equations; lia).
    replace ((L + 3 * 2 ^ 22) mod 256) with (L mod 256)
      by (Z.div_mod_to_equations; lia).
    apply send_fresh. repeat constructor; lia.
  - unfold _read_length, recv1. simpl. pick_branch. simpl.
    change 0x1F with (Z.ones 5). rewrite Z.land_ones by lia. rewrite ?land_byte, ?Z.shiftr_div_pow2, ?Z.shiftl_mul_pow2 by lia.
    do 2 f_equal. Z.div_mod_to_equations; lia.
Qed.

Lemma roundtrip_4 (L : Z) (rest out : list Z) :
  0x200000 <= L < 0x10000000 ->
  let bs := [L / 2 ^ 24 + 0xE0; L / 2 ^ 16 mod 256; L / 2 ^ 8 mod 256; L mod 256] in
  encode_length L = Some bs /\
  _read_length (Sock (bs ++ rest) out) = Some (L, Sock rest out).
Proof.
  intros HL bs. subst bs.
  assert (Hh : 0 <= L / 2 ^ 24 < 0x10) by (Z.div_mod_to_equations; lia).
  assert (Hm2 : 0 <= L / 2 ^ 16 mod 256 < 256) by (Z.div_mod_to_equations; lia).
  assert (Hm1 : 0 <= L / 2 ^ 8 mod 256 < 256) by (Z.div_mod_to_equations; lia).
  assert (Hl : 0 <= L mod 256 < 256) by (Z.div_mod_to_equations; lia).
  split.
  - unfold encode_length, _send_length. pick_branch. cbv zeta.
    change 0xE0000000 with (Z.shiftl 7 29). rewrite lor_above by lia. rewrite ?land_byte, ?Z.shiftr_div_pow2, ?Z.shiftl_mul_pow2 by lia.
    replace ((L + 7 * 2 ^ 29) / 2 ^ 24 mod 256) with (L / 2 ^ 24 + 0xE0)
      by (Z.div_mod_to_equations; lia).
    replace ((L + 7 * 2 ^ 29) / 2 ^ 16 mod 256) with (L / 2 ^ 16 mod 256)
      by (Z.div_mod_to_equations; lia).
    replace ((L + 7 * 2 ^ 29) / 2 ^ 8 mod 256) with (L / 2 ^ 8 mod 256)
      by (Z.div_mod_to_equations; lia).
    replace ((L + 7 * 2 ^ 29) mod 256) with (L mod 256)
      by (Z.div_mod_to_equations; lia).
    apply send_fresh. repeat constructor; lia.
  - unfold _read_length, recv1. simpl. pick_branch. simpl.
    change 0x0F with (Z.ones 4). rewrite Z.land_ones by lia. rewrite ?land_byte, ?Z.shiftr_div_pow2, ?Z.shiftl_mul_pow2 by lia.
    do 2 f_equal. Z.div_mod_to_equations; lia.
Qed.

Lemma roundtrip_5 (L : Z) (rest out : list Z) :
  0x10000000 <= L < 2 ^ 32 ->
  let bs := [0xF0; L / 2 ^ 24 mod 256; L / 2 ^ 16 mod 256; L / 2 ^ 8 mod 256;
             L mod 256] in
  encode_length L = Some bs /\
  _read_length (Sock (bs ++ rest) out) = Some (L, Sock rest out).
Proof.
  intros HL bs. subst bs.
  assert (Hm3 : 0 <= L / 2 ^ 24 mod 256 < 256) by (Z.div_mod_to_equations; lia).
  assert (Hm2 : 0 <= L / 2 ^ 16 mod 256 < 256) by (Z.div_mod_to_equations; lia).
  assert (Hm1 : 0 <= L / 2 ^ 8 mod 256 < 256) by (Z.div_mod_to_equations; lia).
  assert (Hl : 0 <= L mod 256 < 256) by (Z.div_mod_to_equations; lia).
  split.
  - unfold encode_length, _send_length. pick_branch. rewrite ?land_byte, ?Z.shiftr_div_pow2, ?Z.shiftl_mul_pow2 by lia.
    apply send_fresh. repeat constructor; lia.
  - unfold _read_length, recv1. simpl. rewrite ?land_byte, ?Z.shiftr_div_pow2, ?Z.shiftl_mul_pow2 by lia.
    do 2 f_equal. Z.div_mod_to_equations; lia.
Qed.

(** Every length of 32 bits is written, and read back from what was
    written. *)
Lemma prefix_roundtrip (L : Z) :
  0 <= L < 2 ^ 32 ->
  exists bs : list Z,
    encode_length L = Some bs /\
    forall rest out, _read_length (Sock (bs ++ rest) out) = Some (L, Sock rest out).
Proof.
  intros HL.
  assert (Hcases : 0 <= L < 0x80 \/ 0x80 <= L < 0x4000 \/ 0x4000 <= L < 0x200000 \/
                   0x200000 <= L < 0x10000000 \/ 0x10000000 <= L < 2 ^ 32) by lia.
  destruct Hcases as [H | [H | [H | [H | H]]]].
  - eexists; split; [apply (roundtrip_1 L [] [] H) |].
    intros rest out. apply (roundtrip_1 L rest out H).
  - eexists; split; [apply (roundtrip_2 L [] [] H) |].
    intros rest out. apply (roundtrip_2 L rest out H).
  - eexists; split; [apply (roundtrip_3 L [] [] H) |].
    intros rest out. apply (roundtrip_3 L rest out H).
  - eexists; split; [apply (roundtrip_4 L [] [] H) |].
    intros rest out. apply (roundtrip_4 L rest out H).
  - eexists; split; [apply (roundtrip_5 L [] [] H) |].
    intros rest out. apply (roundtrip_5 L rest out H).
Qed.

(** [_send_length] on any socket appends the prefix of a fresh one. *)
Lemma send_length_appends (n : Z) (s : sock) :
  _send_length n s = (fun bs => Sock (rx s) (tx s ++ bs)) <$> encode_length n.
Proof.
  unfold encode_length, _send_length.
  repeat match goal with |- context [if ?c then _ else _] => destruct c end;
    unfold send; cbv zeta;
    match goal with |- context [py_bytes ?l] => destruct (py_bytes l) end;
    reflexivity.
Qed.

(** Decoding undoes encoding, character by character. *)
Lemma decode_encode_char (c : Z) (bs : list Z) :
  encode_char c = Some bs ->
  forall rest, decode_utf8 (bs ++ rest)%list = cons c <$> decode_utf8 rest.
Proof.
  unfold encode_char. intros H rest.
  destruct (Z.ltb_spec c 0); [discriminate |].
  destruct (Z.ltb_spec c 0x80).
  { injection H as <-. cbn [app decode_utf8]. decide_tests. reflexivity. }
  destruct (Z.ltb_spec c 0x800).
  { injection H as <-. cbn [app decode_utf8]. unfold continuation.
    pose proof (Z.div_mod c 64 ltac:(lia)). pose proof (Z.mod_pos_bound c 64 ltac:(lia)).
    decide_tests. cbn [andb]. do 2 f_equal. lia. }
  destruct (Z.ltb_spec c 0x10000).
  { destruct ((0xD800 <=? c) && (c <? 0xE000)) eqn:Hsur; [discriminate |].
    injection H as <-. cbn [app decode_utf8]. unfold continuation. cbv zeta.
    pose proof (Z.div_mod c 64 ltac:(lia)). pose proof (Z.mod_pos_bound c 64 ltac:(lia)).
    pose proof (Z.div_mod (c / 64) 64 ltac:(lia)).
    pose proof (Z.mod_pos_bound (c / 64) 64 ltac:(lia)).
    assert (c / 4096 = c / 64 / 64) by (rewrite Z.div_div by lia; reflexivity).
    replace (0xE0 + c / 4096 - 0xE0) with (c / 4096) by lia.
    replace ((c / 4096) * 4096 + (0x80 + (c / 64) mod 64 - 0x80) * 64
             + (0x80 + c mod 64 - 0x80)) with c by lia.
    rewrite Hsur.
    decide_tests. reflexivity. }
  destruct (Z.ltb_spec c 0x110000); [| discriminate].
  injection H as <-. cbn [app decode_utf8]. unfold continuation. cbv zeta.
  pose proof (Z.div_mod c 64 ltac:(lia)). pose proof (Z.mod_pos_bound c 64 ltac:(lia)).
  pose proof (Z.div_mod (c / 64) 64 ltac:(lia)).
  pose proof (Z.mod_pos_bound (c / 64) 64 ltac:(lia)).
  pose proof (Z.div_mod (c / 4096) 64 ltac:(lia)).
  pose proof (Z.mod_pos_bound (c / 4096) 64 ltac:(lia)).
  assert (c / 4096 = c / 64 / 64) by (rewrite Z.div_div by lia; reflexivity).
  assert (c / 262144 = c / 4096 / 64) by (rewrite Z.div_div by lia; reflexivity).
  replace ((0xF0 + c / 262144 - 0xF0) * 262144 + (0x80 + (c / 4096) mod 64 - 0x80) * 4096
           + (0x80 + (c / 64) mod 64 - 0x80) * 64 + (0x80 + c mod 64 - 0x80)) with c by lia.
  decide_tests. reflexivity.
Qed.

Lemma decode_encode (word : list Z) :
  forall bs, encode_utf8 word = Some bs -> decode_utf8 bs = Some word.
Proof.
  induction word as [| c word IH]; intros bs H; cbn in H.
  - injection H as <-. reflexivity.
  - destruct (encode_char c) as [b |] eqn:Hc; [| discriminate]. cbn in H.
    destruct (encode_utf8 word) as [more |] eqn:Hw; [| discriminate]. cbn in H.
    injection H as <-. rewrite (decode_encode_char c b Hc), (IH more eq_refl). reflexivity.
Qed.

(** Only the empty word has no bytes. *)
Lemma encode_empty (word : list Z) :
  encode_utf8 word = Some [] -> word = [].
Proof.
  destruct word as [| c word]; [reflexivity |]. cbn.
  destruct (encode_char c) as [b |] eqn:Hc; [| discriminate]. cbn.
  destruct (encode_utf8 word) as [more |]; [| discriminate]. cbn.
  intros H. injection H as H. apply app_eq_nil in H. destruct H as [-> _].
  unfold encode_char in Hc.
  repeat match type of Hc with
         | (if ?t then _ else _) = _ => destruct t
         end; discriminate.
Qed.

(** What [_send_word] writes: the prefix of the length of the encoded
    word, then as much of the word as the system takes. *)
Lemma send_word_writes (accepted : nat) (word word_bytes prefix : list Z) :
  encode_utf8 word = Some word_bytes ->
  encode_length (Z.of_nat (length word_bytes)) = Some prefix ->
  _send_word accepted word (Sock [] [])
  = Some (Sock [] (prefix ++ take accepted word_bytes)).
Proof.
  intros Hw Hp. unfold _send_word. rewrite Hw. cbn.
  rewrite send_length_appends, Hp. reflexivity.
Qed.

(** What [_read_word] returns for a word of which [arrived] bytes are
    there at the call. *)
Lemma read_word_reads (arrived : nat) (word_bytes prefix rest out : list Z) :
  (forall rest out,
     _read_length (Sock (prefix ++ rest) out)
     = Some (Z.of_nat (length word_bytes), Sock rest out)) ->
  word_bytes <> [] ->
  let k := Nat.min (length word_bytes) (Nat.max 1 arrived) in
  _read_word arrived (Sock ((prefix ++ word_bytes) ++ rest) out)
  = (fun word => (word, Sock (drop k word_bytes ++ rest) out))
      <$> decode_utf8 (take k word_bytes).
Proof.
  intros Hp Hne k. unfold _read_word. rewrite <- app_assoc, Hp. cbn.
  replace (Z.of_nat (length word_bytes) =? 0) with false
    by (symmetry; apply Z.eqb_neq; destruct word_bytes; [congruence | simpl length; lia]).
  unfold recv. replace (Z.of_nat (length word_bytes) <? 0) with false
    by (symmetry; apply Z.ltb_ge; lia).
  cbn [rx tx]. rewrite Nat2Z.id. fold k. cbn.
  assert (Hk : (k <= length word_bytes)%nat) by (subst k; lia).
  rewrite take_app_le, drop_app_le by exact Hk.
  destruct (decode_utf8 (take k word_bytes)); reflexivity.
Qed.

End WireFacts.

(** C1. For every non-negative length [L] that fits in 32 bits,
    [_send_length] writes a prefix (it does not raise), and
    [_read_length] applied to that prefix, whatever follows it on the
    stream, returns [L] and leaves the stream just after the prefix:
    [decode_length (encode_length L) = L].  From [0x10000000] on, the
    prefix is the byte [0xF0] followed by the four bytes of [L], most
    significant first. *)
Theorem length_prefix_roundtrip (L : Z) :
  0 <= L < 2 ^ 32 ->
  exists bs : list Z,
    Wire.encode_length L = Some bs /\
    Wire.decode_length bs = Some L /\
    (forall rest out : list Z,
        Wire._read_length (Wire.Sock (bs ++ rest) out) = Some (L, Wire.Sock rest out)) /\
    (0x10000000 <= L ->
       bs = [0xF0; L / 2 ^ 24 mod 256; L / 2 ^ 16 mod 256; L / 2 ^ 8 mod 256; L mod 256] /\
       L = (L / 2 ^ 24 mod 256) * 2 ^ 24 + (L / 2 ^ 16 mod 256) * 2 ^ 16 +
           (L / 2 ^ 8 mod 256) * 2 ^ 8 + L mod 256).
Proof.
  intros HL.
  destruct (prefix_roundtrip L HL) as (bs & Henc & Hdec).
  exists bs. split; [exact Henc |]. split; [| split; [exact Hdec |]].
  - unfold Wire.decode_length. specialize (Hdec [] []).
    rewrite app_nil_r in Hdec. rewrite Hdec. reflexivity.
  - intros Hbig. split; [| Z.div_mod_to_equations; lia].
    destruct (roundtrip_5 L [] [] (conj Hbig (proj2 HL))) as [Henc5 _].
    congruence.
Qed.

Lemma length_prefix_roundtrip_witness :
  0 <= 0x10000000 < 2 ^ 32 /\
  exists bs : list Z,
    Wire.encode_length 0x10000000 = Some bs /\ Wire.decode_length bs = Some 0x10000000.
Proof.
  split; [lia |].
  destruct (length_prefix_roundtrip 0x10000000) as (bs & He & Hd & _); [lia |].
  exists bs. split; assumption.
Defined.

(** The boundary edges of the five encodings. *)
Example length_prefix_edges :
  map Wire.encode_length [0x7F; 0x80; 0x3FFF; 0x4000; 0x1FFFFF; 0x200000; 0xFFFFFFF; 0x10000000]
  = [Some [0x7F]; Some [0x80; 0x80]; Some [0xBF; 0xFF]; Some [0xC0; 0x40; 0x00];
     Some [0xDF; 0xFF; 0xFF]; Some [0xE0; 0x20; 0x00; 0x00];
     Some [0xEF; 0xFF; 0xFF; 0xFF]; Some [0xF0; 0x10; 0x00; 0x00; 0x00]] /\
  map (fun L => Wire.encode_length L ≫= Wire.decode_length)
      [0x7F; 0x80; 0x3FFF; 0x4000; 0x1FFFFF; 0x200000; 0xFFFFFFF; 0x10000000]
  = map Some [0x7F; 0x80; 0x3FFF; 0x4000; 0x1FFFFF; 0x200000; 0xFFFFFFF; 0x10000000].
Proof. split; vm_compute; reflexivity. Qed.


(* ===================================================================== *)
(** ** The response loop: fuel and its unfolding                          *)
(* ===================================================================== *)

Section ReaderFacts.
Import Py Api.

Lemma startswith_inv (p s : string) :
  startswith p s = true -> exists r, s = p +:+ r.
Proof.
  unfold startswith. revert s.
  induction p as [| c p IH]; intros s H.
  - exists s. reflexivity.
  - destruct s as [| c' s]; simpl in H; [discriminate |].
    destruct (Ascii.ascii_dec c c') as [-> | Hne]; [| discriminate].
    destruct (IH s H) as [r ->]. exists r. reflexivity.
Qed.

(** The inner loop of a reply consumes at least the word that ends it. *)
Lemma read_reply_shorter (ws : list string) :
  forall data x ws',
    read_reply ws data = (Ok x, ws') -> (length ws' < length ws)%nat.
Proof.
  induction ws as [| attr rest IH]; intros data x ws' H; simpl in H.
  - discriminate.
  - destruct (negb (truthy attr)).
    { inversion H; subst. simpl. lia. }
    destruct (startswith "=" attr).
    { destruct (partition_eq _) as [key value].
      apply IH in H. simpl. lia. }
    destruct (startswith "!" attr).
    { inversion H; subst. simpl. lia. }
    apply IH in H. simpl. lia.
Qed.

(** With more turns than twice the words left (and one more for a
    pushed-back word), the loop ends. *)
Lemma read_response_enough (fuel : nat) :
  forall next_control ws response,
    (2 * length ws + pending next_control < fuel)%nat ->
    exists r, read_response fuel next_control ws response = Some r.
Proof.
  induction fuel as [| fuel IH]; intros nc ws response Hfuel; [lia |].
  assert (Hbody : forall word ws0 resp0,
             (2 * length ws0 + 1 < S fuel)%nat ->
             exists r,
               (if negb (truthy word) then Some (Ok resp0, ws0)
                else if String.eqb word "!re" || startswith "!re" word then
                  match read_reply ws0 ∅ with
                  | (Raise e, ws1) => Some (Raise e, ws1)
                  | (Ok (data, nc1), ws1) =>
                      read_response fuel nc1 ws1 (resp0 ++ [data])
                  end
                else if startswith "!done" word then Some (Ok resp0, ws0)
                else if startswith "!trap" word || startswith "!fatal" word then
                  match read_error ws0 "Unknown error" with
                  | (Raise e, ws1) => Some (Raise e, ws1)
                  | (Ok error_msg, ws1) =>
                      Some (Raise ("Command failed: " +:+ error_msg), ws1)
                  end
                else read_response fuel None ws0 resp0) = Some r).
  { intros word ws0 resp0 H0.
    destruct (negb (truthy word)); [eauto |].
    destruct (String.eqb word "!re" || startswith "!re" word).
    { destruct (read_reply ws0 ∅) as [[[data nc1] | e] ws1] eqn:Hrr; [| eauto].
      apply read_reply_shorter in Hrr.
      apply IH. destruct nc1; simpl; lia. }
    destruct (startswith "!done" word); [eauto |].
    destruct (startswith "!trap" word || startswith "!fatal" word).
    { destruct (read_error ws0 "Unknown error") as [[msg | e] ws1]; eauto. }
    apply IH. simpl. lia. }
  destruct nc as [word |]; simpl in Hfuel.
  - cbn [read_response]. apply Hbody. lia.
  - destruct ws as [| word rest].
    + cbn. eauto.
    + cbn [read_response _read_word]. apply Hbody. simpl in Hfuel. lia.
Qed.

(** More turns do not change a result. *)
Lemma read_response_mono (fuel : nat) :
  forall fuel' next_control ws response r,
    read_response fuel next_control ws response = Some r ->
    (fuel <= fuel')%nat ->
    read_response fuel' next_control ws response = Some r.
Proof.
  induction fuel as [| fuel IH]; intros fuel' nc ws response r H Hle; [discriminate |].
  destruct fuel' as [| fuel']; [lia |].
  cbn [read_response] in *.
  destruct (match nc with Some word => (Ok word, ws) | None => _read_word ws end)
    as [[word | e] ws0]; [| exact H].
  destruct (negb (truthy word)); [exact H |].
  destruct (String.eqb word "!re" || startswith "!re" word).
  { destruct (read_reply ws0 ∅) as [[[data nc1] | e] ws1]; [| exact H].
    apply (IH fuel'); [exact H | lia]. }
  destruct (startswith "!done" word); [exact H |].
  destruct (startswith "!trap" word || startswith "!fatal" word); [exact H |].
  apply (IH fuel'); [exact H | lia].
Qed.

(** The loop run with enough turns is [read_from]. *)
Lemma read_response_total (fuel : nat) next_control ws response :
  (2 * length ws + pending next_control < fuel)%nat ->
  read_response fuel next_control ws response
  = Some (read_from next_control ws response).
Proof.
  intros Hfuel.
  destruct (read_response_enough fuel next_control ws response Hfuel) as [r Hr].
  rewrite Hr. f_equal. unfold read_from.
  assert (Ht : (2 * length ws + pending next_control < turns ws)%nat)
    by (unfold turns; destruct next_control; simpl; lia).
  destruct (read_response_enough (turns ws) next_control ws response Ht) as [r' Hr'].
  rewrite Hr'. simpl.
  pose proof (read_response_mono _ (max fuel (turns ws)) _ _ _ _ Hr (Nat.le_max_l _ _)) as H1.
  pose proof (read_response_mono _ (max fuel (turns ws)) _ _ _ _ Hr' (Nat.le_max_r _ _)) as H2.
  congruence.
Qed.

(** One turn of the loop, without the turn counter. *)
Lemma read_from_unfold next_control ws response :
  read_from next_control ws response =
  match (match next_control with
         | Some word => (Ok word, ws)
         | None => _read_word ws
         end) with
  | (Raise e, ws) => (Raise e, ws)
  | (Ok word, ws) =>
      if negb (truthy word) then (Ok response, ws)
      else if String.eqb word "!re" || startswith "!re" word then
        match read_reply ws ∅ with
        | (Raise e, ws) => (Raise e, ws)
        | (Ok (data, next_control), ws) =>
            read_from next_control ws (response ++ [data])
        end
      else if startswith "!done" word then (Ok response, ws)
      else if startswith "!trap" word || startswith "!fatal" word then
        match read_error ws "Unknown error" with
        | (Raise e, ws) => (Raise e, ws)
        | (Ok error_msg, ws) => (Raise ("Command failed: " +:+ error_msg), ws)
        end
      else read_from None ws response
  end.
Proof.
  assert (Hs : Some (read_from next_control ws response)
               = read_response (S (turns ws)) next_control ws response).
  { symmetry. apply read_response_total.
    unfold turns. destruct next_control; simpl; lia. }
  apply (inj Some). rewrite Hs. cbn [read_response].
  assert (Hlen : forall ws0, (length ws0 <= length ws)%nat ->
             forall resp0, read_response (turns ws) None ws0 resp0
                           = Some (read_from None ws0 resp0)).
  { intros ws0 H0 resp0. apply read_response_total. unfold turns. simpl. lia. }
  assert (Hlt : forall ws0, (length ws0 < length ws)%nat ->
             forall nc resp0, read_response (turns ws) nc ws0 resp0
                              = Some (read_from nc ws0 resp0)).
  { intros ws0 H0 nc resp0. apply read_response_total.
    unfold turns. destruct nc; simpl; lia. }
  assert (Hw : forall ws0 : list string,
             (length ws0 <= length ws)%nat ->
             forall word : string,
             (if negb (truthy word) then Some (Ok response, ws0)
              else if String.eqb word "!re" || startswith "!re" word then
                match read_reply ws0 ∅ with
                | (Raise e, ws1) => Some (Raise e, ws1)
                | (Ok (data, nc1), ws1) =>
                    read_response (turns ws) nc1 ws1 (response ++ [data])
                end
              else if startswith "!done" word then Some (Ok response, ws0)
              else if startswith "!trap" word || startswith "!fatal" word then
                match read_error ws0 "Unknown error" with
                | (Raise e, ws1) => Some (Raise e, ws1)
                | (Ok error_msg, ws1) =>
                    Some (Raise ("Command failed: " +:+ error_msg), ws1)
                end
              else read_response (turns ws) None ws0 response)
             = Some
                 (if negb (truthy word) then (Ok response, ws0)
                  else if String.eqb word "!re" || startswith "!re" word then
                    match read_reply ws0 ∅ with
                    | (Raise e, ws1) => (Raise e, ws1)
                    | (Ok (data, nc1), ws1) => read_from nc1 ws1 (response ++ [data])
                    end
                  else if startswith "!done" word then (Ok response, ws0)
                  else if startswith "!trap" word || startswith "!fatal" word then
                    match read_error ws0 "Unknown error" with
                    | (Raise e, ws1) => (Raise e, ws1)
                    | (Ok error_msg, ws1) =>
                        (Raise ("Command failed: " +:+ error_msg), ws1)
                    end
                  else read_from None ws0 response)).
  { intros ws0 H0 word.
    destruct (negb (truthy word)); [reflexivity |].
    destruct (String.eqb word "!re" || startswith "!re" word).
    { destruct (read_reply ws0 ∅) as [[[data nc1] | e] ws1] eqn:Hrr; [| reflexivity].
      apply read_reply_shorter in Hrr. apply Hlt. lia. }
    destruct (startswith "!done" word); [reflexivity |].
    destruct (startswith "!trap" word || startswith "!fatal" word).
    { destruct (read_error ws0 "Unknown error") as [[msg | e] ws1]; reflexivity. }
    apply Hlen. exact H0. }
  destruct next_control as [word |].
  - apply Hw. lia.
  - destruct ws as [| word rest]; [reflexivity |].
    cbn [_read_word]. apply Hw. simpl. lia.
Qed.

(** A pushed-back word is handled as a word that has just been read. *)
Lemma read_from_pushed_back (word : string) ws response :
  read_from (Some word) ws response = read_from None (word :: ws) response.
Proof.
  rewrite (read_from_unfold (Some word)), (read_from_unfold None (word :: ws)).
  reflexivity.
Qed.

End ReaderFacts.

(* ===================================================================== *)
(** ** Sentences of a response                                            *)
(* ===================================================================== *)

Section SentenceFacts.
Import Py Api Spec.

Lemma control_not_attribute (c : string) :
  startswith "!" c = true -> truthy c = true /\ startswith "=" c = false.
Proof.
  intros H. destruct (startswith_inv _ _ H) as [r ->]. split; reflexivity.
Qed.

(** The inner loop of a reply over inner words, then a control word. *)
Lemma read_reply_until_control (attrs : list string) (c : string) (rest : list string) :
  Forall inner_word attrs -> startswith "!" c = true ->
  forall data,
    read_reply (attrs ++ c :: rest) data
    = (Ok (fold_left add_attribute attrs data, Some c), rest).
Proof.
  intros Hattrs Hc. induction Hattrs as [| attr attrs [Ht Hn] _ IH]; intros data.
  - destruct (control_not_attribute c Hc) as [Ht He].
    cbn [app read_reply fold_left]. rewrite Ht, He, Hc. reflexivity.
  - cbn [app read_reply fold_left]. rewrite Ht, Hn. cbn [negb].
    unfold add_attribute at 2.
    destruct (startswith "=" attr).
    + destruct (partition_eq _) as [key value]. apply IH.
    + apply IH.
Qed.

(** The same, ended by the empty word. *)
Lemma read_reply_until_empty (attrs : list string) (rest : list string) :
  Forall inner_word attrs ->
  forall data,
    read_reply (attrs ++ EmptyString :: rest) data
    = (Ok (fold_left add_attribute attrs data, None), rest).
Proof.
  intros Hattrs. induction Hattrs as [| attr attrs [Ht Hn] _ IH]; intros data.
  - reflexivity.
  - cbn [app read_reply fold_left]. rewrite Ht, Hn. cbn [negb].
    unfold add_attribute at 2.
    destruct (startswith "=" attr).
    + destruct (partition_eq _) as [key value]. apply IH.
    + apply IH.
Qed.

(** The inner loop of an error sentence. *)
Lemma read_error_until_end (attrs : list string) (term : string) (rest : list string) :
  Forall inner_word attrs -> term = EmptyString \/ startswith "!" term = true ->
  forall error_msg,
    read_error (attrs ++ term :: rest) error_msg
    = (Ok (fold_left keep_message attrs error_msg), rest).
Proof.
  intros Hattrs Hterm. induction Hattrs as [| attr attrs [Ht Hn] _ IH]; intros error_msg.
  - cbn [app read_error fold_left].
    destruct Hterm as [-> | Hc]; [reflexivity |].
    rewrite Hc, orb_true_r. reflexivity.
  - cbn [app read_error fold_left]. rewrite Ht, Hn. cbn [negb orb].
    unfold keep_message at 2.
    destruct (startswith "=message=" attr); apply IH.
Qed.

Lemma re_word (word : string) :
  startswith "!re" word = true ->
  truthy word = true /\ (String.eqb word "!re" || startswith "!re" word) = true.
Proof.
  intros H. split; [| rewrite H; apply orb_true_r].
  destruct (startswith_inv _ _ H) as [r ->]. reflexivity.
Qed.

Lemma done_word (word : string) :
  startswith "!done" word = true ->
  truthy word = true /\ (String.eqb word "!re" || startswith "!re" word) = false.
Proof.
  intros H. destruct (startswith_inv _ _ H) as [r ->]. split; reflexivity.
Qed.

Lemma error_word (word : string) :
  startswith "!trap" word = true \/ startswith "!fatal" word = true ->
  truthy word = true /\ (String.eqb word "!re" || startswith "!re" word) = false /\
  startswith "!done" word = false /\
  (startswith "!trap" word || startswith "!fatal" word) = true.
Proof.
  intros H.
  assert (Hor : (startswith "!trap" word || startswith "!fatal" word) = true)
    by (destruct H as [-> | ->]; [reflexivity | apply orb_true_r]).
  destruct H as [H | H]; destruct (startswith_inv _ _ H) as [r ->];
    repeat split; try reflexivity; exact Hor.
Qed.

Lemma not_re_word (word : string) :
  startswith "!re" word = false ->
  (String.eqb word "!re" || startswith "!re" word) = false.
Proof.
  intros H. rewrite H, orb_false_r.
  destruct (String.eqb_spec word "!re") as [-> | _]; [discriminate | reflexivity].
Qed.

End SentenceFacts.

(** C5. A reply sentence that is ended by a control word [c] instead of
    the empty word: the inner loop stops with the record of the words
    read so far and [c] in the one-slot lookahead; the record is
    appended to the response as a complete reply and the loop goes on
    with [c] pushed back; and a pushed-back [c] is handled on the next
    turn exactly as if it had just been read, so it is not lost. *)
Theorem reply_ended_by_control_word
    (word : string) (attrs : list string) (c : string) (rest : list string)
    (response : list Py.dict) :
  Py.startswith "!re" word = true ->
  Forall Spec.inner_word attrs ->
  Py.startswith "!" c = true ->
  Api.read_reply (attrs ++ c :: rest) ∅ = (Py.Ok (Spec.record_of attrs, Some c), rest) /\
  Api.read_from None (word :: attrs ++ c :: rest) response
  = Api.read_from (Some c) rest (response ++ [Spec.record_of attrs]) /\
  Api.read_from (Some c) rest (response ++ [Spec.record_of attrs])
  = Api.read_from None (c :: rest) (response ++ [Spec.record_of attrs]).
Proof.
  intros Hword Hattrs Hc.
  pose proof (read_reply_until_control attrs c rest Hattrs Hc ∅) as Hrr.
  split; [exact Hrr |]. split.
  - rewrite (read_from_unfold None). cbn [Api._read_word].
    destruct (re_word word Hword) as [Ht Hre]. rewrite Ht, Hre. cbn [negb].
    rewrite Hrr. reflexivity.
  - apply read_from_pushed_back.
Qed.

Lemma reply_ended_by_control_word_witness :
  Api.read_sentences ["!re"; "=a=1"; "!re"; "=b=2"; EmptyString; "!done"; "!re"]
  = Api.read_from (Some "!re") ["=b=2"; EmptyString; "!done"; "!re"]
                  [({[ "a" := "1" ]} : Py.dict)] /\
  Api.read_sentences ["!re"; "=a=1"; "!re"; "=b=2"; EmptyString; "!done"; "!re"]
  = (Py.Ok [({[ "a" := "1" ]} : Py.dict); {[ "b" := "2" ]}], ["!re"]).
Proof.
  assert (H1 : Py.startswith "!re" "!re" = true) by reflexivity.
  assert (H2 : Forall Spec.inner_word ["=a=1"])
    by (repeat constructor).
  assert (H3 : Py.startswith "!" "!re" = true) by reflexivity.
  pose proof (reply_ended_by_control_word "!re" ["=a=1"] "!re"
                ["=b=2"; EmptyString; "!done"; "!re"] [] H1 H2 H3) as (_ & Hpush & _).
  split; [exact Hpush | vm_compute; reflexivity].
Defined.

(** A reply sentence ended by the empty word, then [!done]: the response
    gains the record and the loop stops after [!done], leaving what
    follows unread. *)
Lemma reply_then_done (attrs rest : list string) (response : list Py.dict) :
  Forall Spec.inner_word attrs ->
  Api.read_from None ("!re" :: attrs ++ EmptyString :: "!done" :: rest) response
  = (Py.Ok (response ++ [Spec.record_of attrs])%list, rest).
Proof.
  intros Hattrs.
  rewrite (read_from_unfold None). cbn [Api._read_word]. cbn [Py.truthy negb].
  change (String.eqb "!re" "!re" || Py.startswith "!re" "!re") with true. cbv iota.
  rewrite (read_reply_until_empty attrs _ Hattrs ∅).
  rewrite (read_from_unfold None). reflexivity.
Qed.

Example reply_then_done_example :
  Api.read_sentences ["!re"; "=a=1"; "=b=2"; EmptyString; "!done"; "!re"]
  = (Py.Ok [({[ "a" := "1"; "b" := "2" ]} : Py.dict)], ["!re"]).
Proof. vm_compute. reflexivity. Qed.

Example map_role_to_group_table :
  map Manager.map_role_to_group ["admin"; "full_access"; "write_access"; "read_only"; "guest"]
  = ["full"; "full"; "write"; "read"; "read"].
Proof. vm_compute. reflexivity. Qed.

(* ===================================================================== *)
(** ** Commands on a connected client                                     *)
(* ===================================================================== *)

Section CommandFacts.
Import Py Api Spec.

Lemma wire_written (words : list string) :
  forall w, wire (written words w) = (wire w ++ words)%list.
Proof.
  unfold written. induction words as [| word words IH]; intros w; simpl.
  - rewrite app_nil_r. reflexivity.
  - rewrite IH. simpl. rewrite <- app_assoc. reflexivity.
Qed.

Lemma send_words_open (words : list string) (self : MikroTikAPI) (ws : list string) :
  socket self = Some ws ->
  forall w, send_words words self w = (Ok tt, written words w).
Proof.
  intros Hs. induction words as [| word words IH]; intros w; simpl.
  - reflexivity.
  - unfold _send_word. rewrite Hs. apply IH.
Qed.

(** [_send_command] on a connected client: the words of the command
    are written, then the response is read. *)
Lemma send_command_connected command arguments (self : MikroTikAPI) (w : World)
    (ws : list string) :
  connected self = true -> socket self = Some ws ->
  _send_command command arguments self w =
  (match fst (read_sentences ws) with
   | Ok response => Ok response
   | Raise e => Raise ("Command execution failed: " +:+ e)
   end,
   with_socket self (Some (snd (read_sentences ws))) true,
   written (command_words command arguments) w).
Proof.
  intros Hc Hs. unfold _send_command. rewrite Hc. cbn [negb].
  rewrite (send_words_open _ self ws Hs), Hs.
  destruct (read_sentences ws) as [[response | e] ws']; reflexivity.
Qed.

(** A command leaves the client connected, with a socket. *)
Lemma send_command_keeps command arguments (self : MikroTikAPI) (w : World)
    (ws : list string) :
  connected self = true -> socket self = Some ws ->
  connected (snd (fst (_send_command command arguments self w))) = true /\
  (exists ws', socket (snd (fst (_send_command command arguments self w))) = Some ws') /\
  wire (snd (_send_command command arguments self w))
  = (wire w ++ command_words command arguments)%list.
Proof.
  intros Hc Hs. rewrite (send_command_connected _ _ _ _ ws Hc Hs). cbn [fst snd].
  split; [reflexivity |]. split; [eexists; reflexivity |]. apply wire_written.
Qed.

Lemma no_message_kept (attrs : list string) :
  message_count attrs = 0%nat ->
  forall m, fold_left keep_message attrs m = m.
Proof.
  unfold message_count.
  induction attrs as [| attr attrs IH]; intros H m; simpl in *; [reflexivity |].
  unfold keep_message at 2.
  destruct (startswith "=message=" attr); [discriminate |]. apply IH, H.
Qed.

Lemma single_message_kept (attrs : list string) :
  (message_count attrs <= 1)%nat ->
  fold_left keep_message attrs "Unknown error" = first_message attrs.
Proof.
  unfold message_count, last_message.
  induction attrs as [| attr attrs IH]; intros H; simpl in *; [reflexivity |].
  unfold keep_message at 2.
  destruct (startswith "=message=" attr); simpl in H.
  - apply no_message_kept. unfold message_count. lia.
  - apply IH, H.
Qed.

End CommandFacts.

(** C6, as the loop behaves.  An error sentence ([!trap...] or
    [!fatal...]) whose inner words are followed by the empty word or by
    a control word makes [_send_command] raise, and the text of the
    exception is [Command execution failed: Command failed: ] followed by
    the payload of the last [=message=] attribute of the sentence,
    [Unknown error] when there is none; the last is the first when the
    sentence has at most one. *)
Theorem error_sentence_message
    (command : string) (arguments : list (string * string))
    (self : Api.MikroTikAPI) (w : Api.World)
    (word : string) (attrs : list string) (term : string) (rest : list string) :
  Api.connected self = true ->
  Api.socket self = Some (word :: attrs ++ term :: rest) ->
  Py.startswith "!trap" word = true \/ Py.startswith "!fatal" word = true ->
  Forall Spec.inner_word attrs ->
  term = EmptyString \/ Py.startswith "!" term = true ->
  fst (fst (Api._send_command command arguments self w))
  = Py.Raise (Spec.command_failure (Spec.last_message attrs)) /\
  (Spec.message_count attrs = 0%nat -> Spec.last_message attrs = "Unknown error") /\
  ((Spec.message_count attrs <= 1)%nat ->
   Spec.last_message attrs = Spec.first_message attrs).
Proof.
  intros Hc Hs Hword Hattrs Hterm.
  split; [| split; [intros H0; apply (no_message_kept attrs H0) | apply single_message_kept]].
  rewrite (send_command_connected _ _ _ _ _ Hc Hs).
  unfold Api.read_sentences. rewrite (read_from_unfold None). cbn [Api._read_word fst].
  destruct (error_word word Hword) as (Ht & Hre & Hdone & Herr).
  rewrite Ht, Hre, Hdone, Herr. cbn [negb].
  rewrite (read_error_until_end attrs term rest Hattrs Hterm). reflexivity.
Qed.

Lemma error_sentence_message_witness :
  fst (fst (Api._send_command "/user/add" [("group", "nosuch")]
              (Spec.session ["!trap"; "=message=Invalid group"; EmptyString])
              (Spec.world [])))
  = Py.Raise "Command execution failed: Command failed: Invalid group" /\
  fst (fst (Api._send_command "/user/add" [("group", "nosuch")]
              (Spec.session ["!trap"; "=category=1"; EmptyString])
              (Spec.world [])))
  = Py.Raise "Command execution failed: Command failed: Unknown error".
Proof.
  split.
  - apply (error_sentence_message "/user/add" [("group", "nosuch")]
             (Spec.session ["!trap"; "=message=Invalid group"; EmptyString])
             (Spec.world []) "!trap" ["=message=Invalid group"] EmptyString []);
      [reflexivity | reflexivity | left; reflexivity | repeat constructor
      | left; reflexivity].
  - apply (error_sentence_message "/user/add" [("group", "nosuch")]
             (Spec.session ["!trap"; "=category=1"; EmptyString])
             (Spec.world []) "!trap" ["=category=1"] EmptyString []);
      [reflexivity | reflexivity | left; reflexivity | repeat constructor
      | left; reflexivity].
Defined.

(** C6, as it is worded, fails: with two [=message=] attributes in the
    sentence the exception carries the second, not the first. *)
Lemma error_message_is_not_the_first :
  let attrs := ["=message=first"; "=message=second"] in
  let raised :=
    fst (fst (Api._send_command "/user/add" []
                (Spec.session ("!trap" :: attrs ++ [EmptyString])) (Spec.world []))) in
  Spec.first_message attrs = "first" /\
  raised = Py.Raise (Spec.command_failure "second") /\
  raised <> Py.Raise (Spec.command_failure (Spec.first_message attrs)).
Proof.
  cbv zeta. split; [reflexivity |].
  split; [vm_compute; reflexivity | vm_compute; discriminate].
Qed.

(** C9, as the loop behaves.  The word in hand is classified by its
    prefix: a word that begins with [!re] opens a reply sentence, one
    that begins with [!done] ends the command with the response so
    far, one that begins with [!trap] or [!fatal] makes the command
    raise; every other non-empty word is passed over, read from the
    stream or pushed back alike. *)
Theorem control_words_by_prefix
    (word : string) (ws : list string) (response : list Py.dict) :
  Py.truthy word = true ->
  (Py.startswith "!re" word = true ->
   Api.read_from None (word :: ws) response =
   match Api.read_reply ws ∅ with
   | (Py.Raise e, ws') => (Py.Raise e, ws')
   | (Py.Ok (data, next_control), ws') =>
       Api.read_from next_control ws' (response ++ [data])
   end) /\
  (Py.startswith "!done" word = true ->
   Api.read_from None (word :: ws) response = (Py.Ok response, ws)) /\
  (Py.startswith "!trap" word = true \/ Py.startswith "!fatal" word = true ->
   exists e, fst (Api.read_from None (word :: ws) response) = Py.Raise e) /\
  (Py.startswith "!re" word = false -> Py.startswith "!done" word = false ->
   Py.startswith "!trap" word = false -> Py.startswith "!fatal" word = false ->
   Api.read_from None (word :: ws) response = Api.read_from None ws response /\
   Api.read_from (Some word) ws response = Api.read_from None ws response).
Proof.
  intros Ht.
  assert (Hskip : Py.startswith "!re" word = false -> Py.startswith "!done" word = false ->
                  Py.startswith "!trap" word = false -> Py.startswith "!fatal" word = false ->
                  Api.read_from None (word :: ws) response
                  = Api.read_from None ws response).
  { intros Hre Hdone Htrap Hfatal.
    rewrite (read_from_unfold None (word :: ws)). cbn [Api._read_word].
    rewrite Ht, (not_re_word word Hre), Hdone, Htrap, Hfatal. reflexivity. }
  repeat split.
  - intros Hre. rewrite (read_from_unfold None). cbn [Api._read_word].
    destruct (re_word word Hre) as [_ Hc]. rewrite Ht, Hc. reflexivity.
  - intros Hdone. rewrite (read_from_unfold None). cbn [Api._read_word].
    destruct (done_word word Hdone) as [_ Hc]. rewrite Ht, Hc, Hdone. reflexivity.
  - intros Herr. rewrite (read_from_unfold None). cbn [Api._read_word].
    destruct (error_word word Herr) as (_ & Hre & Hdone & He).
    rewrite Ht, Hre, Hdone, He. cbn [negb].
    destruct (Api.read_error ws "Unknown error") as [[msg | e] ws']; eexists; reflexivity.
  - auto.
  - rewrite read_from_pushed_back. auto.
Qed.

Lemma control_words_by_prefix_witness :
  Api.read_sentences ["!empty"; "!re"; "=a=1"; EmptyString; "!done"]
  = Api.read_sentences ["!re"; "=a=1"; EmptyString; "!done"] /\
  Api.read_sentences ["!done.tag"; "!re"] = (Py.Ok [], ["!re"]).
Proof.
  pose proof (control_words_by_prefix "!empty" ["!re"; "=a=1"; EmptyString; "!done"] []
                eq_refl) as (_ & _ & _ & Hskip).
  pose proof (control_words_by_prefix "!done.tag" ["!re"] [] eq_refl) as (_ & Hdone & _).
  split.
  - apply Hskip; reflexivity.
  - apply Hdone. reflexivity.
Defined.

(** C9, as it is worded, fails: a control word that is none of the four
    tokens but has one of them as a prefix is not passed over.  [!rex]
    opens a reply sentence, [!donex] ends the command, [!trapx] makes it
    raise. *)
Lemma prefixed_control_words_are_not_skipped :
  (Spec.unrecognized "!rex" /\ ~ Spec.skipped "!rex") /\
  (Spec.unrecognized "!donex" /\ ~ Spec.skipped "!donex") /\
  (Spec.unrecognized "!trapx" /\ ~ Spec.skipped "!trapx") /\
  ~ (forall word, Spec.unrecognized word -> Spec.skipped word).
Proof.
  assert (Hu : forall word,
             Py.startswith "!" word = true ->
             (String.eqb word "!re" || String.eqb word "!done" ||
              String.eqb word "!trap" || String.eqb word "!fatal") = false ->
             Spec.unrecognized word).
  { intros word H1 H2. split; [exact H1 |].
    repeat split; intros ->; discriminate H2. }
  assert (Hre : ~ Spec.skipped "!rex").
  { intros H. specialize (H ["=a=1"; EmptyString; "!done"] []).
    vm_compute in H. discriminate H. }
  assert (Hdone : ~ Spec.skipped "!donex").
  { intros H. specialize (H ["!re"; "=a=1"; EmptyString; "!done"] []).
    vm_compute in H. discriminate H. }
  assert (Htrap : ~ Spec.skipped "!trapx").
  { intros H. specialize (H [EmptyString] []).
    vm_compute in H. discriminate H. }
  repeat split; try (apply Hu; reflexivity); try assumption; try discriminate.
  intros H. apply Hdone, H, Hu; reflexivity.
Qed.

(* ===================================================================== *)
(** ** The manager                                                        *)
(* ===================================================================== *)

Section ManagerFacts.
Import Py Api Manager Spec.

(** A successful [connect] leaves a connected client with a socket. *)
Lemma connect_true (api api' : MikroTikAPI) (w w' : World) :
  connect api w = (true, api', w') ->
  connected api' = true /\ exists ws, socket api' = Some ws.
Proof.
  unfold connect. destruct (take_connection w) as [[ws |] w0]; [| discriminate].
  destruct (_login _ w0) as [[[|] api0] w1] eqn:Hl; [| discriminate].
  intros H. injection H as <- _. cbn [connected socket with_socket].
  split; [reflexivity |].
  unfold _login in Hl.
  destruct (send_words _ _ w0) as [[[] | e] w2]; [| discriminate].
  cbn [socket with_socket] in Hl.
  destruct (_read_word ws) as [[response | e] ws'];
    [| discriminate].
  destruct (String.eqb response "!done").
  - injection Hl as <- _. cbn. eauto.
  - destruct (String.eqb response "!trap"); discriminate.
Qed.

Lemma send_command_result command arguments (self : MikroTikAPI) (w : World)
    r (self' : MikroTikAPI) (w' : World) :
  connected self = true -> (exists ws, socket self = Some ws) ->
  _send_command command arguments self w = (r, self', w') ->
  connected self' = true /\ (exists ws', socket self' = Some ws') /\
  wire w' = (wire w ++ command_words command arguments)%list.
Proof.
  intros Hc [ws Hs] H.
  pose proof (send_command_keeps command arguments self w ws Hc Hs) as Hk.
  rewrite H in Hk. exact Hk.
Qed.

End ManagerFacts.

(** C2. In [create_temporary_user], when the connection test passes, the
    client logs in, [/user/add] succeeds and [/system/scheduler/add]
    then raises [e]: [/user/remove] with [numbers] set to the generated
    username is sent on the same client before the method returns (its
    words are the last written), and whatever that rollback returns or
    raises, the result is the failure that carries [e]. *)
Theorem create_rolls_back_on_scheduler_failure
    (self : Manager.MikroTikManager) (ip_address : string) (duration_minutes : Z)
    (username_prefix : string) (group : option string) (w : Api.World)
    (ident : option string) (message : string) (w1 : Api.World)
    (temp_username temp_password : string) (w2 : Api.World)
    (api : Api.MikroTikAPI) (w3 : Api.World)
    (added : list Py.dict) (api1 : Api.MikroTikAPI) (w4 : Api.World)
    (e : string) (api2 : Api.MikroTikAPI) (w5 : Api.World) :
  Manager.test_connection self ip_address w = (Manager.ConnOk ident message, w1) ->
  Manager.generate_temp_credentials username_prefix w1
  = ((temp_username, temp_password), w2) ->
  Api.connect (Api.new ip_address (Manager.service_user self) (Manager.service_pass self)
                       (Manager.api_port self) (Manager.mgr_use_tls self)) w2
  = (true, api, w3) ->
  Api._send_command "/user/add"
    (Manager.user_add_args temp_username temp_password
       (if Py.truthy_opt group then default "read" group else "read") duration_minutes)
    api w3 = (Py.Ok added, api1, w4) ->
  Api._send_command "/system/scheduler/add"
    (Manager.scheduler_add_args temp_username duration_minutes) api1 w4
  = (Py.Raise e, api2, w5) ->
  exists rollback api3 w6,
    Api._send_command "/user/remove" [("numbers", temp_username)] api2 w5
    = (rollback, api3, w6) /\
    Manager.create_temporary_user self ip_address duration_minutes username_prefix group w
    = (Manager.CreateFailed ("Failed to create cleanup scheduler: " +:+ e), w6) /\
    Api.wire w6
    = (Api.wire w5 ++ ["/user/remove"; "=numbers=" +:+ temp_username; EmptyString])%list /\
    Api.wire w5
    = (Api.wire w4 ++ Api.command_words "/system/scheduler/add"
                        (Manager.scheduler_add_args temp_username duration_minutes))%list.
Proof.
  intros Htest Hgen Hconn Hadd Hsched.
  destruct (connect_true _ _ _ _ Hconn) as [Hc Hs].
  destruct (send_command_result _ _ _ _ _ _ _ Hc Hs Hadd) as (Hc1 & Hs1 & _).
  destruct (send_command_result _ _ _ _ _ _ _ Hc1 Hs1 Hsched) as (Hc2 & Hs2 & Hw5).
  destruct (Api._send_command "/user/remove" [("numbers", temp_username)] api2 w5)
    as [[rollback api3] w6] eqn:Hrb.
  destruct (send_command_result _ _ _ _ _ _ _ Hc2 Hs2 Hrb) as (_ & _ & Hw6).
  exists rollback, api3, w6. split; [reflexivity |]. split; [| split; assumption].
  unfold Manager.create_temporary_user. rewrite Htest, Hgen, Hconn.
  unfold Manager.provision. rewrite Hadd, Hsched, Hrb. reflexivity.
Qed.

Lemma create_rolls_back_on_scheduler_failure_witness :
  let w := Spec.world (Spec.reachable ++
             [Some ["!done"; "!done";
                    "!trap"; "=message=failure: bad interval"; EmptyString;
                    "!trap"; "=message=no such item"; EmptyString]]) in
  let r := Manager.create_temporary_user Spec.manager "192.0.2.1" 90 "temp-" None w in
  fst r = Manager.CreateFailed
            "Failed to create cleanup scheduler: Command execution failed: Command failed: failure: bad interval" /\
  exists before,
    Api.wire (snd r)
    = (before ++ ["/user/remove"; "=numbers=temp-1762214400-dkry"; EmptyString])%list.
Proof.
  cbv zeta.
  edestruct (create_rolls_back_on_scheduler_failure Spec.manager "192.0.2.1" 90 "temp-" None
               (Spec.world (Spec.reachable ++
                  [Some ["!done"; "!done";
                         "!trap"; "=message=failure: bad interval"; EmptyString;
                         "!trap"; "=message=no such item"; EmptyString]])))
    as (rollback & api3 & w6 & Hrb & Hres & Hwire & _).
  - vm_compute. reflexivity.
  - vm_compute. reflexivity.
  - vm_compute. reflexivity.
  - vm_compute. reflexivity.
  - vm_compute. reflexivity.
  - rewrite Hres. split; [reflexivity |]. eexists. exact Hwire.
Defined.

(** C4. In [revoke_temporary_user], once the connection test passes and
    the client has connected and logged in, the result is the success
    record whatever [/user/remove] returned or raised; and
    [/system/scheduler/remove] for [cleanup-<username>] is sent after it
    in every case, a failed removal of the user included. *)
Theorem revoke_is_tolerant
    (self : Manager.MikroTikManager) (ip_address username : string) (w : Api.World)
    (ident : option string) (message : string) (w1 : Api.World)
    (api : Api.MikroTikAPI) (w2 : Api.World) :
  Manager.test_connection self ip_address w = (Manager.ConnOk ident message, w1) ->
  Api.connect (Api.new ip_address (Manager.service_user self) (Manager.service_pass self)
                       (Manager.api_port self) false) w1
  = (true, api, w2) ->
  exists removal api1 w3 cleanup api2 w4,
    Api._send_command "/user/remove" [("numbers", username)] api w2
    = (removal, api1, w3) /\
    Api._send_command "/system/scheduler/remove" [("numbers", "cleanup-" +:+ username)]
                      api1 w3
    = (cleanup, api2, w4) /\
    Manager.revoke_temporary_user self ip_address username w
    = (Manager.Revoked ("User " +:+ username +:+ " revoked successfully"), w4) /\
    Api.wire w4
    = (Api.wire w2 ++ ["/user/remove"; "=numbers=" +:+ username; EmptyString]
                   ++ ["/system/scheduler/remove"; "=numbers=cleanup-" +:+ username;
                       EmptyString])%list.
Proof.
  intros Htest Hconn.
  destruct (connect_true _ _ _ _ Hconn) as [Hc Hs].
  destruct (Api._send_command "/user/remove" [("numbers", username)] api w2)
    as [[removal api1] w3] eqn:H1.
  destruct (send_command_result _ _ _ _ _ _ _ Hc Hs H1) as (Hc1 & Hs1 & Hw3).
  destruct (Api._send_command "/system/scheduler/remove"
              [("numbers", "cleanup-" +:+ username)] api1 w3)
    as [[cleanup api2] w4] eqn:H2.
  destruct (send_command_result _ _ _ _ _ _ _ Hc1 Hs1 H2) as (_ & _ & Hw4).
  exists removal, api1, w3, cleanup, api2, w4.
  split; [reflexivity |]. split; [exact H2 |]. split.
  - unfold Manager.revoke_temporary_user. rewrite Htest, Hconn.
    unfold Manager.remove_user_and_scheduler. rewrite H1, H2. reflexivity.
  - rewrite Hw4, Hw3, <- app_assoc. reflexivity.
Qed.

Lemma revoke_is_tolerant_witness :
  let w := Spec.world (Spec.reachable ++
             [Some ["!done"; "!trap"; "=message=no such item"; EmptyString; "!done"]]) in
  let r := Manager.revoke_temporary_user Spec.manager "192.0.2.1" "temp-1" w in
  fst (fst (Api._send_command "/user/remove" [("numbers", "temp-1")]
              (Spec.session ["!trap"; "=message=no such item"; EmptyString; "!done"]) w))
  = Py.Raise "Command execution failed: Command failed: no such item" /\
  fst r = Manager.Revoked "User temp-1 revoked successfully" /\
  exists before,
    Api.wire (snd r)
    = (before ++ ["/user/remove"; "=numbers=temp-1"; EmptyString]
              ++ ["/system/scheduler/remove"; "=numbers=cleanup-temp-1"; EmptyString])%list.
Proof.
  cbv zeta. split; [vm_compute; reflexivity |].
  edestruct (revoke_is_tolerant Spec.manager "192.0.2.1" "temp-1"
               (Spec.world (Spec.reachable ++
                  [Some ["!done"; "!trap"; "=message=no such item"; EmptyString;
                         "!done"]])))
    as (removal & api1 & w3 & cleanup & api2 & w4 & _ & _ & Hres & Hwire).
  - vm_compute. reflexivity.
  - vm_compute. reflexivity.
  - rewrite Hres. split; [reflexivity |]. eexists. exact Hwire.
Defined.

Section IdentityFacts.
Import Py Api Manager Spec.

Lemma truthy_or_else (a b : option string) :
  truthy_opt (or_else a b) = truthy_opt a || truthy_opt b.
Proof.
  destruct a as [s |]; simpl; [| reflexivity].
  destruct (truthy s) eqn:Hs; simpl; [exact Hs | reflexivity].
Qed.

(** No identity in a response: it is empty, or its first record has
    neither a non-empty [name] nor a non-empty [identity]. *)
Lemma has_identity_false (ident_resp : list dict) :
  has_identity ident_resp = false <->
  ident_resp = [] \/
  exists first rest, ident_resp = first :: rest /\
                     truthy_opt (first !! "name") = false /\
                     truthy_opt (first !! "identity") = false.
Proof.
  destruct ident_resp as [| first rest]; simpl.
  - split; [left; reflexivity | reflexivity].
  - rewrite truthy_or_else, orb_false_iff. split.
    + intros [H1 H2]. right. exists first, rest. auto.
    + intros [H | (f & r & Heq & H1 & H2)]; [discriminate |].
      injection Heq as <- <-. auto.
Qed.

(** [test_connection] runs the lookup once on the client it connects, and
    reports its result when that is a non-empty string. *)
Lemma test_connection_reads_identity (self : MikroTikManager) (ip_address : string)
    (w w1 w2 : World) (api : MikroTikAPI) :
  connect_to_device self ip_address w = (true, w1) ->
  connect (new ip_address (service_user self) (service_pass self) (api_port self)
               (mgr_use_tls self)) w1 = (true, api, w2) ->
  exists ident message,
    test_connection self ip_address w
    = (ConnOk ident message, snd (read_identity api w2)) /\
    ident = match fst (fst (read_identity api w2)) with
            | Ok (Some name) => if truthy name then Some name else None
            | _ => None
            end.
Proof.
  intros Hprobe Hconn. unfold test_connection. rewrite Hprobe, Hconn.
  destruct (read_identity api w2) as [[[[name |] | e] api'] w'];
    cbn [fst snd truthy_opt negb].
  - destruct (truthy name); cbn [negb]; eauto.
  - eauto.
  - eauto.
Qed.

End IdentityFacts.

(** C8. The identity lookup on a connected client.  The print restricted
    to [.proplist=name] is sent first.  When it raises, or returns a
    response with an identity, nothing more is sent.  When it returns a
    response without one (an empty list, or a first record with neither
    a non-empty [name] nor a non-empty [identity]), the full print is
    sent, once, and its response is the one that counts.  The value
    returned is the [name] of the first record of that response, or its
    [identity] when the name is missing or empty, and [None] for an
    empty response. *)
Theorem identity_lookup_falls_back_once (api : Api.MikroTikAPI) (w : Api.World) :
  Api.connected api = true ->
  (exists ws, Api.socket api = Some ws) ->
  (exists first api1 w1,
      Api._send_command "/system/identity/print" [(".proplist", "name")] api w
      = (first, api1, w1) /\
      Api.wire w1
      = (Api.wire w ++ ["/system/identity/print"; "=.proplist=name"; EmptyString])%list /\
      match first with
      | Py.Raise e => Manager.read_identity api w = (Py.Raise e, api1, w1)
      | Py.Ok ident_resp =>
          if Manager.has_identity ident_resp then
            Manager.read_identity api w
            = (Py.Ok (Manager.identity_of ident_resp), api1, w1)
          else
            exists second api2 w2,
              Api._send_command "/system/identity/print" [] api1 w1
              = (second, api2, w2) /\
              Api.wire w2
              = (Api.wire w1 ++ ["/system/identity/print"; EmptyString])%list /\
              Manager.read_identity api w
              = (match second with
                 | Py.Ok full_resp => Py.Ok (Manager.identity_of full_resp)
                 | Py.Raise e => Py.Raise e
                 end, api2, w2)
      end) /\
  (forall ident_resp,
      Manager.has_identity ident_resp = false <->
      ident_resp = [] \/
      exists first rest, ident_resp = first :: rest /\
                         Py.truthy_opt (first !! "name") = false /\
                         Py.truthy_opt (first !! "identity") = false) /\
  Manager.identity_of [] = None /\
  (forall (first : Py.dict) rest,
      Manager.identity_of (first :: rest)
      = if Py.truthy_opt (first !! "name") then first !! "name" else first !! "identity").
Proof.
  intros Hc Hs.
  split; [| split; [exact has_identity_false | split; [reflexivity |]]].
  - destruct (Api._send_command "/system/identity/print" [(".proplist", "name")] api w)
      as [[first api1] w1] eqn:H1.
    destruct (send_command_result _ _ _ _ _ _ _ Hc Hs H1) as (Hc1 & Hs1 & Hw1).
    exists first, api1, w1. split; [reflexivity |]. split; [exact Hw1 |].
    unfold Manager.read_identity. rewrite H1.
    destruct first as [ident_resp | e]; [| reflexivity].
    destruct (Manager.has_identity ident_resp); cbn [negb]; [reflexivity |].
    destruct (Api._send_command "/system/identity/print" [] api1 w1)
      as [[second api2] w2] eqn:H2.
    destruct (send_command_result _ _ _ _ _ _ _ Hc1 Hs1 H2) as (_ & _ & Hw2).
    exists second, api2, w2. split; [reflexivity |]. split; [exact Hw2 |].
    destruct second; reflexivity.
  - intros first rest. simpl. unfold Py.or_else, Py.truthy_opt.
    destruct (first !! "name") as [s |]; reflexivity.
Qed.

Lemma identity_lookup_falls_back_once_witness :
  let w := Spec.world [] in
  (* the restricted print finds the name: one command *)
  Manager.read_identity
    (Spec.session ["!re"; "=name=R1"; EmptyString; "!done"; "!re"; "=name=other"]) w
  = (Py.Ok (Some "R1"), Spec.session ["!re"; "=name=other"],
     Spec.written ["/system/identity/print"; "=.proplist=name"; EmptyString] w) /\
  (* it finds nothing: the full print follows, once *)
  Manager.read_identity
    (Spec.session ["!done"; "!re"; "=identity=R2"; EmptyString; "!done"; "!done"]) w
  = (Py.Ok (Some "R2"), Spec.session ["!done"],
     Spec.written ["/system/identity/print"; "=.proplist=name"; EmptyString;
                   "/system/identity/print"; EmptyString] w) /\
  (* both find nothing *)
  fst (fst (Manager.read_identity (Spec.session ["!done"; "!done"; "!done"]) w)) = Py.Ok None.
Proof.
  cbv zeta.
  destruct (identity_lookup_falls_back_once
              (Spec.session ["!re"; "=name=R1"; EmptyString; "!done"; "!re"; "=name=other"])
              (Spec.world []) eq_refl (ex_intro _ _ eq_refl))
    as [(first & api1 & w1 & H1 & _ & Hlookup) _].
  vm_compute in H1. injection H1 as <- <- <-.
  change (Manager.has_identity _) with true in Hlookup. cbv iota in Hlookup.
  split; [rewrite Hlookup; vm_compute; reflexivity |].
  split; vm_compute; reflexivity.
Defined.

Section CountFacts.
Import Py Api Manager Spec.

(** The final step: [total_users] becomes [temp_users + 1] when it is
    zero with temporary users present or smaller than their number,
    and is kept otherwise; it ends at least [temp_users]. *)
Lemma sanity_total_spec (total_users temp_users : Z) :
  temp_users <= sanity_total total_users temp_users /\
  ((total_users = 0 /\ 0 < temp_users) \/ total_users < temp_users ->
   sanity_total total_users temp_users = temp_users + 1) /\
  (~ ((total_users = 0 /\ 0 < temp_users) \/ total_users < temp_users) ->
   sanity_total total_users temp_users = total_users).
Proof.
  unfold sanity_total.
  destruct (Z.eqb_spec total_users 0), (Z.ltb_spec 0 temp_users),
    (Z.ltb_spec total_users temp_users); cbn [andb]; lia.
Qed.

(** The fallback changes [temp_users] only from zero, to the count of
    the database. *)
Lemma backfill_from_db_spec (total_users temp_users : Z) (w : World) :
  backfill_from_db total_users temp_users w <> temp_users ->
  temp_users = 0 /\ db_active w = Ok (backfill_from_db total_users temp_users w).
Proof.
  unfold backfill_from_db.
  destruct ((total_users <=? 1) || (temp_users =? 0)); [| congruence].
  destruct (db_active w) as [db_count |]; [| congruence].
  destruct (Z.eqb_spec temp_users 0); cbn [andb]; [| congruence].
  destruct (negb (db_count =? 0)); [auto | congruence].
Qed.

End CountFacts.

(** C10. A success record of [get_device_info] reports at least as many
    users in total as temporary ones.  The two numbers come from the
    users printed by the device: the temporary count is the number of
    comments with the marker, replaced by the count of the database
    only when it is zero; the total is the number of users that are
    not disabled, replaced by the temporary count plus one when it is
    zero with temporary users present or smaller than their number. *)
Theorem device_info_total_covers_temporary
    (lower : string -> string)
    (self : Manager.MikroTikManager) (ip_address : string) (w w' : Api.World)
    (device_name : option string) (total_users temporary_users : Z) :
  Manager.get_device_info lower self ip_address w
  = (Manager.Info device_name total_users temporary_users, w') ->
  temporary_users <= total_users /\
  exists users : list Py.dict,
    let raw := Manager.count_enabled users in
    let marked :=
      Manager.count_temporary lower (default "Temporary user" (Api.marker_env w'))
                              users in
    temporary_users = Manager.backfill_from_db raw marked w' /\
    total_users = Manager.sanity_total raw temporary_users /\
    ((raw = 0 /\ 0 < temporary_users) \/ raw < temporary_users ->
     total_users = temporary_users + 1) /\
    (~ ((raw = 0 /\ 0 < temporary_users) \/ raw < temporary_users) ->
     total_users = raw) /\
    (temporary_users <> marked ->
     marked = 0 /\ Api.db_active w' = Py.Ok temporary_users).
Proof.
  intros H. unfold Manager.get_device_info in H.
  destruct (Manager.test_connection self ip_address w) as [[error | ident message] w1];
    [discriminate |].
  destruct (Api.connect _ w1) as [[[|] api] w2]; [| discriminate].
  destruct (match Manager.read_identity api w2 with
            | (Py.Ok name, api0, w0) =>
                (if Py.truthy_opt name then name else None, api0, w0)
            | (Py.Raise _, api0, w0) => (None, api0, w0)
            end) as [[name api3] w3].
  destruct (Api._send_command "/user/print" [] api3 w3) as [[[users | e] api4] w4];
    [| discriminate].
  injection H as <- <- <- <-.
  set (raw := Manager.count_enabled users).
  set (marked := Manager.count_temporary lower _ users).
  set (temp := Manager.backfill_from_db raw marked w4).
  destruct (sanity_total_spec raw temp) as (Hle & Hset & Hkeep).
  split; [exact Hle |].
  exists users. cbv zeta. fold raw marked temp.
  split; [reflexivity |]. split; [reflexivity |].
  split; [exact Hset |]. split; [exact Hkeep |].
  intros Hne. apply (backfill_from_db_spec raw marked w4). exact Hne.
Qed.

Lemma device_info_total_covers_temporary_witness :
  let w := Api.mkWorld
             (Spec.reachable ++
                [Some ["!done"; "!re"; "=name=R1"; EmptyString; "!done"; "!done"]])
             [] 1762214400 (fun n => n) O None (Py.Ok 3) in
  fst (Manager.get_device_info Py.ascii_lower Spec.manager "192.0.2.1" w)
  = Manager.Info (Some "R1") 4 3 /\
  3 <= 4.
Proof.
  cbv zeta.
  assert (H : exists w',
             Manager.get_device_info Py.ascii_lower Spec.manager "192.0.2.1"
               (Api.mkWorld
                  (Spec.reachable ++
                     [Some ["!done"; "!re"; "=name=R1"; EmptyString; "!done"; "!done"]])
                  [] 1762214400 (fun n => n) O None (Py.Ok 3))
             = (Manager.Info (Some "R1") 4 3, w'))
    by (eexists; vm_compute; reflexivity).
  destruct H as [w' H].
  split; [rewrite H; reflexivity |].
  exact (proj1 (device_info_total_covers_temporary _ _ _ _ _ _ _ _ H)).
Defined.

Section FormatFacts.
Import Py Api Manager Spec.

Lemma fmt_02d_two_digits (n : Z) :
  0 <= n < 100 -> fmt_02d n = two_digits n.
Proof.
  intros Hn.
  assert (Hall : forallb (fun k => String.eqb (fmt_02d (Z.of_nat k))
                                              (two_digits (Z.of_nat k)))
                         (seq 0 100) = true) by (vm_compute; reflexivity).
  rewrite forallb_forall in Hall.
  specialize (Hall (Z.to_nat n)). rewrite Z2Nat.id in Hall by lia.
  apply String.eqb_eq, Hall, in_seq. lia.
Qed.

End FormatFacts.

Section WireGrowth.
Import Py Api Manager Spec Notions.

Lemma grown_refl (w : World) : grown w w.
Proof. exists []. rewrite app_nil_r. reflexivity. Qed.

Lemma grown_trans (w1 w2 w3 : World) : grown w1 w2 -> grown w2 w3 -> grown w1 w3.
Proof.
  intros [a Ha] [b Hb]. exists (a ++ b)%list. rewrite Hb, Ha, app_assoc. reflexivity.
Qed.

Lemma send_words_grows (words : list string) (self : MikroTikAPI) :
  forall w, grown w (snd (send_words words self w)).
Proof.
  induction words as [| word words IH]; intros w; cbn [send_words snd].
  - apply grown_refl.
  - unfold _send_word. destruct (socket self); cbn [snd]; [| apply grown_refl].
    apply (grown_trans _ (put_word word w)); [| apply IH].
    exists [word]. reflexivity.
Qed.

Lemma send_command_grows command arguments (self : MikroTikAPI) (w : World) :
  grown w (snd (_send_command command arguments self w)).
Proof.
  unfold _send_command. destruct (connected self); cbn [negb snd]; [| apply grown_refl].
  pose proof (send_words_grows (command_words command arguments) self w) as H.
  destruct (send_words _ self w) as [[[] | e] w1]; cbn [snd] in *; [| exact H].
  destruct (socket self) as [ws |]; [| exact H].
  destruct (read_sentences ws) as [[response | e] ws']; exact H.
Qed.

Lemma connect_grows (self : MikroTikAPI) (w : World) :
  grown w (snd (connect self w)).
Proof.
  unfold connect, take_connection.
  destruct (net w) as [| [ws |] later]; cbn [snd];
    try (exists []; cbn [wire]; rewrite app_nil_r; reflexivity).
  match goal with
  | |- context [_login ?c ?w1] =>
      assert (H : grown w (snd (_login c w1)));
      [| destruct (_login c w1) as [[[|] c'] w']; exact H]
  end.
  unfold _login.
  match goal with
  | |- context [send_words ?l ?c ?w1] =>
      pose proof (send_words_grows l c w1) as H; destruct (send_words l c w1) as [[[] | e] w2]
  end; cbn [snd socket with_socket] in *; [| exact H].
  destruct (_read_word ws) as [[response | e] ws']; [| exact H].
  destruct (String.eqb response "!done"); [exact H |].
  destruct (String.eqb response "!trap"); exact H.
Qed.

Lemma read_identity_grows (api : MikroTikAPI) (w : World) :
  grown w (snd (read_identity api w)).
Proof.
  unfold read_identity.
  pose proof (send_command_grows "/system/identity/print" [(".proplist", "name")] api w)
    as H1.
  destruct (_send_command "/system/identity/print" [(".proplist", "name")] api w)
    as [[[ident_resp | e] api1] w1]; cbn [snd] in *; [| exact H1].
  destruct (negb (has_identity ident_resp)); [| exact H1].
  pose proof (send_command_grows "/system/identity/print" [] api1 w1) as H2.
  destruct (_send_command "/system/identity/print" [] api1 w1)
    as [[[ident_resp2 | e] api2] w2]; cbn [snd] in *;
    exact (grown_trans _ _ _ H1 H2).
Qed.

Lemma identity_with_temp_user_grows (self : MikroTikManager) (ip_address : string)
    (known : option string) (temp_username temp_password : string) (w : World) :
  grown w (snd (identity_with_temp_user self ip_address known temp_username
                                        temp_password w)).
Proof.
  unfold identity_with_temp_user.
  destruct (negb (truthy_opt known)); [| apply grown_refl].
  match goal with
  | |- context [connect ?c w] =>
      pose proof (connect_grows c w) as H1;
      destruct (connect c w) as [[[|] api1] w1]
  end; cbn [snd] in *; [| exact H1].
  pose proof (read_identity_grows api1 w1) as H2.
  destruct (read_identity api1 w1) as [[[device_identity | e] api2] w2]; cbn [snd] in *;
    exact (grown_trans _ _ _ H1 H2).
Qed.

(** The words of the two scheduler commands. *)
Lemma manager_scheduler_words (temp_username : string) (duration_minutes : Z) :
  command_words "/system/scheduler/add" (scheduler_add_args temp_username duration_minutes)
  = ["/system/scheduler/add"; "=name=cleanup-" +:+ temp_username;
     "=interval=" +:+ interval_str duration_minutes;
     "=on-event=" +:+ cleanup_script temp_username ("cleanup-" +:+ temp_username);
     "=comment=Auto cleanup for " +:+ temp_username; EmptyString].
Proof. reflexivity. Qed.

Lemma client_scheduler_words (username : string) (duration_minutes : Z) :
  command_words "/system/scheduler/add" (Client.scheduler_args username duration_minutes)
  = ["/system/scheduler/add"; "=name=cleanup_" +:+ username; "=start-time=startup";
     "=interval=00:00:" +:+ fmt_02d duration_minutes;
     "=on-event=" +:+ default EmptyString
        (argument "on-event" (Client.scheduler_args username duration_minutes));
     "=comment=Auto-cleanup for temporary user " +:+ username; EmptyString].
Proof. reflexivity. Qed.

End WireGrowth.

(** C3. The interval that the create operation passes to
    [/system/scheduler/add], read on the wire.
    [MikroTikManager.create_temporary_user], once the connection test,
    the login and [/user/add] have succeeded, writes the scheduler
    command with [=interval=HH:MM:00], whatever the device answers to
    it: [HH] is [duration_minutes div 60] and [MM] is
    [duration_minutes mod 60], each in decimal and padded with a zero to
    two digits ([MM] always has two; [HH] has two up to 99 hours and
    its own digits beyond).  [MikroTikAPI.create_temporary_user], at the
    same point, writes [=interval=00:00:] followed by the minutes
    themselves, which is [HH:MM:SS] for no duration but zero. *)
Theorem scheduler_interval_is_hh_mm_00
    (self : Manager.MikroTikManager) (ip_address : string) (duration_minutes : Z)
    (username_prefix : string) (group : option string) (w : Api.World)
    (ident : option string) (message : string) (w1 : Api.World)
    (temp_username temp_password : string) (w2 : Api.World)
    (api : Api.MikroTikAPI) (w3 : Api.World)
    (added : list Py.dict) (api1 : Api.MikroTikAPI) (w4 : Api.World) :
  0 <= duration_minutes ->
  Manager.test_connection self ip_address w = (Manager.ConnOk ident message, w1) ->
  Manager.generate_temp_credentials username_prefix w1
  = ((temp_username, temp_password), w2) ->
  Api.connect (Api.new ip_address (Manager.service_user self) (Manager.service_pass self)
                       (Manager.api_port self) (Manager.mgr_use_tls self)) w2
  = (true, api, w3) ->
  Api._send_command "/user/add"
    (Manager.user_add_args temp_username temp_password
       (if Py.truthy_opt group then default "read" group else "read") duration_minutes)
    api w3 = (Py.Ok added, api1, w4) ->
  let hh := duration_minutes / 60 in
  let mm := duration_minutes mod 60 in
  duration_minutes = 60 * hh + mm /\ 0 <= hh /\ 0 <= mm < 60 /\
  (hh < 100 -> Py.fmt_02d hh = Spec.two_digits hh) /\
  (100 <= hh -> Py.fmt_02d hh = Py.str_int hh) /\
  (exists after,
     Api.wire (snd (Manager.create_temporary_user self ip_address duration_minutes
                                                  username_prefix group w))
     = (Api.wire w4
        ++ ["/system/scheduler/add"; "=name=cleanup-" +:+ temp_username;
            "=interval=" +:+ (Py.fmt_02d hh +:+ ":" +:+ Spec.two_digits mm +:+ ":00");
            "=on-event="
              +:+ Manager.cleanup_script temp_username ("cleanup-" +:+ temp_username);
            "=comment=Auto cleanup for " +:+ temp_username; EmptyString]
        ++ after)%list) /\
  (forall (username password : string) (client client1 client2 : Api.MikroTikAPI)
          (cw cw1 cw2 : Api.World) (client_added : list Py.dict),
      Api.connect client cw = (true, client1, cw1) ->
      Api._send_command "/user/add" (Client.user_args username password duration_minutes)
                        client1 cw1 = (Py.Ok client_added, client2, cw2) ->
      exists on_event after,
        Api.wire (snd (Client.create_temporary_user username password duration_minutes
                                                    client cw))
        = (Api.wire cw2
           ++ ["/system/scheduler/add"; "=name=cleanup_" +:+ username;
               "=start-time=startup";
               "=interval=00:00:" +:+ Py.fmt_02d duration_minutes;
               "=on-event=" +:+ on_event;
               "=comment=Auto-cleanup for temporary user " +:+ username; EmptyString]
           ++ after)%list).
Proof.
  intros Hd Htest Hgen Hconn Hadd hh mm.
  assert (Hmm : 0 <= mm < 60) by (subst mm; apply Z.mod_pos_bound; lia).
  assert (Hhh : 0 <= hh) by (subst hh; apply Z.div_pos; lia).
  split; [subst hh mm; apply Z.div_mod; lia |].
  split; [exact Hhh |]. split; [exact Hmm |].
  split; [intros H; apply fmt_02d_two_digits; lia |].
  split.
  { intros H. unfold Py.fmt_02d.
    replace (hh <? 10) with false by (symmetry; apply Z.ltb_ge; lia).
    rewrite andb_false_r. reflexivity. }
  split.
  - destruct (connect_true _ _ _ _ Hconn) as [Hc Hs].
    destruct (send_command_result _ _ _ _ _ _ _ Hc Hs Hadd) as (Hc1 & Hs1 & _).
    unfold Manager.create_temporary_user. rewrite Htest, Hgen, Hconn.
    unfold Manager.provision. rewrite Hadd.
    destruct (Api._send_command "/system/scheduler/add"
                (Manager.scheduler_add_args temp_username duration_minutes) api1 w4)
      as [[sched api2] w5] eqn:Hsched.
    destruct (send_command_result _ _ _ _ _ _ _ Hc1 Hs1 Hsched) as (_ & _ & Hw5).
    rewrite manager_scheduler_words in Hw5. unfold Manager.interval_str in Hw5.
    fold hh mm in Hw5. rewrite (fmt_02d_two_digits mm) in Hw5 by lia.
    assert (Hafter : exists after,
               Api.wire (snd (match sched with
                 | Py.Raise e =>
                     let '(_, _, w) :=
                       Api._send_command "/user/remove" [("numbers", temp_username)]
                                         api2 w5 in
                     (Manager.CreateFailed ("Failed to create cleanup scheduler: " +:+ e), w)
                 | Py.Ok _ =>
                     let '(device_identity, w) :=
                       Manager.identity_with_temp_user self ip_address ident temp_username
                                                       temp_password w5 in
                     (Manager.Created temp_username temp_password duration_minutes
                                      device_identity, w)
                 end)) = (Api.wire w5 ++ after)%list).
    { destruct sched as [scheduled | e].
      - pose proof (identity_with_temp_user_grows self ip_address ident temp_username
                      temp_password w5) as H.
        destruct (Manager.identity_with_temp_user self ip_address ident temp_username
                    temp_password w5) as [device w6]. exact H.
      - pose proof (send_command_grows "/user/remove" [("numbers", temp_username)]
                      api2 w5) as H.
        destruct (Api._send_command "/user/remove" [("numbers", temp_username)] api2 w5)
          as [[rollback api3] w6]. exact H. }
    destruct Hafter as [after Hafter]. exists after.
    rewrite Hafter, Hw5, <- app_assoc. reflexivity.
  - intros username password client client1 client2 cw cw1 cw2 client_added Hcc Hca.
    destruct (connect_true _ _ _ _ Hcc) as [Hc Hs].
    destruct (send_command_result _ _ _ _ _ _ _ Hc Hs Hca) as (Hc1 & Hs1 & _).
    unfold Client.create_temporary_user. rewrite Hcc, Hca.
    destruct (Api._send_command "/system/scheduler/add"
                (Client.scheduler_args username duration_minutes) client2 cw2)
      as [[sched client3] cw3] eqn:Hsched.
    destruct (send_command_result _ _ _ _ _ _ _ Hc1 Hs1 Hsched) as (_ & _ & Hw3).
    rewrite client_scheduler_words in Hw3.
    eexists.
    destruct sched as [scheduled | e].
    + exists []. cbn [snd]. rewrite Hw3, app_nil_r. reflexivity.
    + pose proof (send_command_grows "/user/remove" [("numbers", username)] client3 cw3)
        as [after Hafter].
      destruct (Api._send_command "/user/remove" [("numbers", username)] client3 cw3)
        as [[rollback client4] cw4].
      exists after. cbn [snd] in *. rewrite Hafter, Hw3, <- app_assoc. reflexivity.
Qed.

Lemma scheduler_interval_is_hh_mm_00_witness :
  let device := (Spec.reachable ++ [Some ["!done"; "!done"; "!done"]])%list in
  let r := Manager.create_temporary_user Spec.manager "192.0.2.1" 90 "temp-" None
             (Spec.world device) in
  let c := Client.create_temporary_user "temp_1" "pw" 90
             (Api.new "192.0.2.1" "svc" "secret" 8728 false)
             (Spec.world [Some ["!done"; "!done"; "!done"]]) in
  In "=interval=01:30:00" (Api.wire (snd r)) /\
  In "=interval=00:00:90" (Api.wire (snd c)) /\
  ~ In "=interval=01:30:00" (Api.wire (snd c)).
Proof.
  cbv zeta.
  edestruct (scheduler_interval_is_hh_mm_00 Spec.manager "192.0.2.1" 90 "temp-" None
               (Spec.world (Spec.reachable ++ [Some ["!done"; "!done"; "!done"]])))
    as (_ & _ & _ & _ & _ & [after Hm] & Hclient).
  - lia.
  - vm_compute. reflexivity.
  - vm_compute. reflexivity.
  - vm_compute. reflexivity.
  - vm_compute. reflexivity.
  - split; [| split].
    + rewrite Hm. apply in_or_app. right. apply in_or_app. left.
      right. right. left. reflexivity.
    + edestruct Hclient
        with (username := "temp_1") (password := "pw")
             (client := Api.new "192.0.2.1" "svc" "secret" 8728 false)
             (cw := Spec.world [Some ["!done"; "!done"; "!done"]])
        as (on_event & cafter & Hc);
        [vm_compute; reflexivity | vm_compute; reflexivity |].
      rewrite Hc. apply in_or_app. right. apply in_or_app. left.
      right. right. right. left. reflexivity.
    + vm_compute. intros H.
      repeat (destruct H as [H | H]; [discriminate H |]). exact H.
Defined.

(* ===================================================================== *)
(** ** Generated credentials                                              *)
(* ===================================================================== *)

Section CredentialFacts.
Import Py Api Manager Spec.

Lemma get_in (s : string) :
  forall n c, String.get n s = Some c -> In c (list_ascii_of_string s).
Proof.
  induction s as [| a s IH]; intros n c H; simpl in *; [discriminate |].
  destruct n as [| n]; [injection H as ->; left; reflexivity |].
  right. apply (IH n), H.
Qed.

Lemma get_below (s : string) :
  forall n, (n < String.length s)%nat -> exists c, String.get n s = Some c.
Proof.
  induction s as [| a s IH]; intros n H; simpl in *; [lia |].
  destruct n as [| n]; [eauto |]. apply IH. lia.
Qed.

(** A draw is a character of the alphabet, and takes one value of the
    generator. *)
Lemma choice_spec (alphabet : string) (w : World) :
  (0 < String.length alphabet)%nat ->
  In (fst (choice alphabet w)) (list_ascii_of_string alphabet) /\
  drawn (snd (choice alphabet w)) = S (drawn w) /\
  clock (snd (choice alphabet w)) = clock w.
Proof.
  intros Hlen. unfold choice. cbn [fst snd drawn clock].
  split; [| split; reflexivity].
  destruct (get_below alphabet (entropy w (drawn w) mod String.length alphabet)%nat)
    as [c Hc].
  - apply Nat.mod_upper_bound. lia.
  - rewrite Hc. simpl. apply (get_in _ _ _ Hc).
Qed.

Lemma choices_spec (n : nat) (alphabet : string) :
  (0 < String.length alphabet)%nat ->
  forall w,
    String.length (fst (choices n alphabet w)) = n /\
    drawn_from alphabet (fst (choices n alphabet w)) /\
    drawn (snd (choices n alphabet w)) = (drawn w + n)%nat /\
    clock (snd (choices n alphabet w)) = clock w.
Proof.
  intros Hlen. induction n as [| n IH]; intros w.
  - cbn. repeat split; [constructor | lia].
  - cbn [choices].
    destruct (choice_spec alphabet w Hlen) as (Hin & Hd & Hk).
    destruct (choice alphabet w) as [c w1]. cbn [fst snd] in Hin, Hd, Hk.
    destruct (IH w1) as (Hl & Hf & Hd' & Hk').
    destruct (choices n alphabet w1) as [r w2]. cbn [fst snd] in *.
    split; [simpl; lia |]. split; [constructor; assumption |].
    split; [lia | congruence].
Qed.

(** The characters of a string of draws are those that the values of
    the generator select, taken in order. *)
Lemma choices_get (n : nat) (alphabet : string) :
  forall w,
    entropy (snd (choices n alphabet w)) = entropy w /\
    forall i, (i < n)%nat ->
      String.get i (fst (choices n alphabet w))
      = Some (Notions.draw alphabet w (drawn w + i)).
Proof.
  induction n as [| n IH]; intros w.
  - cbn. split; [reflexivity | intros i Hi; lia].
  - cbn [choices].
    set (w1 := mkWorld (net w) (wire w) (clock w) (entropy w) (S (drawn w))
                       (marker_env w) (db_active w)).
    change (choice alphabet w) with (Notions.draw alphabet w (drawn w), w1).
    destruct (IH w1) as [He Hg].
    destruct (choices n alphabet w1) as [r w2]. cbn [fst snd] in *.
    split; [exact He |].
    intros [| i] Hi; cbn [String.get].
    + rewrite Nat.add_0_r. reflexivity.
    + rewrite Hg by lia. unfold Notions.draw. cbn [entropy drawn w1].
      replace (S (drawn w) + i)%nat with (drawn w + S i)%nat by lia. reflexivity.
Qed.

(** The decimal digits of a number of [k + 1] digits. *)
Lemma pretty_N_char_digit (x : N) :
  In (pretty_N_char x) (list_ascii_of_string digits).
Proof.
  unfold pretty_N_char. repeat case_match; simpl; tauto.
Qed.

Lemma pretty_N_go_digits (k : nat) :
  forall (x : N) (s : string),
    (10 ^ N.of_nat k <= x < 10 ^ N.of_nat (S k))%N ->
    drawn_from digits s ->
    String.length (pretty_N_go x s) = (S k + String.length s)%nat /\
    drawn_from digits (pretty_N_go x s).
Proof.
  induction k as [| k IH]; intros x s Hx Hs.
  - change (10 ^ N.of_nat 0)%N with 1%N in Hx.
    change (10 ^ N.of_nat 1)%N with 10%N in Hx.
    rewrite pretty_N_go_step by lia.
    replace (x `div` 10)%N with 0%N by (symmetry; apply N.div_small; lia).
    rewrite pretty_N_go_0. split; [reflexivity |].
    constructor; [apply pretty_N_char_digit | exact Hs].
  - assert (Hpow : forall n : nat, (10 ^ N.of_nat (S n) = 10 * 10 ^ N.of_nat n)%N).
    { intros n. rewrite Nat2N.inj_succ, N.pow_succ_r'. reflexivity. }
    rewrite (Hpow (S k)) in Hx. rewrite (Hpow k) in Hx.
    assert (Hpos : (0 < 10 ^ N.of_nat k)%N) by (apply N.neq_0_lt_0, N.pow_nonzero; lia).
    rewrite pretty_N_go_step by lia.
    destruct (IH (x `div` 10)%N (String (pretty_N_char (x `mod` 10)) s)) as [Hl Hf].
    + rewrite (Hpow k). split.
      * apply N.div_le_lower_bound; lia.
      * apply N.Div0.div_lt_upper_bound; lia.
    + constructor; [apply pretty_N_char_digit | exact Hs].
    + split; [rewrite Hl; simpl; lia | exact Hf].
Qed.

(** [str] of a timestamp of the years 2001 to 2286 is ten digits. *)
Lemma str_int_ten_digits (t : Z) :
  10 ^ 9 <= t < 10 ^ 10 ->
  String.length (str_int t) = 10%nat /\ drawn_from digits (str_int t).
Proof.
  intros Ht. destruct t as [| p | p]; [lia | | lia].
  unfold str_int. change (pretty (Z.pos p)) with (pretty (N.pos p)).
  unfold pretty, pretty_N. destruct (decide (N.pos p = 0%N)) as [H0 | _]; [discriminate |].
  destruct (pretty_N_go_digits 9 (N.pos p) EmptyString) as [Hl Hf].
  - change (10 ^ N.of_nat 9)%N with (Z.to_N (10 ^ 9)).
    change (10 ^ N.of_nat 10)%N with (Z.to_N (10 ^ 10)). lia.
  - constructor.
  - split; [exact Hl | exact Hf].
Qed.

End CredentialFacts.

(** C7. [MikroTikManager.generate_temp_credentials] returns the
    username [<prefix><timestamp>-<suffix>]: the timestamp is the clock
    in whole seconds written in decimal, which is ten digits for the
    clocks from 2001-09-09 to 2286-11-20 ([10^9 <= t < 10^10]) and not
    otherwise; the suffix is four characters out of the lowercase
    letters and the digits.  The password is twelve characters out of
    the letters, the digits and [!@#$%^&*].  Each of the sixteen
    characters is the one that the next value of the [secrets]
    generator selects in its alphabet, the four of the suffix first.
    [generate_temp_credentials] of [mikrotik_api.py] returns the prefix
    followed by the last six characters of the timestamp, without a
    suffix, and a password of twelve letters and digits selected in the
    same way. *)
Theorem temp_credentials_form (prefix : string) (w : Api.World) :
  let username := fst (fst (Manager.generate_temp_credentials prefix w)) in
  let password := snd (fst (Manager.generate_temp_credentials prefix w)) in
  let timestamp := Py.str_int (Api.clock w) in
  let lower_alnum := "abcdefghijklmnopqrstuvwxyz0123456789" in
  let alphabet :=
    "abcdefghijklmnopqrstuvwxyzABCDEFGHIJKLMNOPQRSTUVWXYZ0123456789!@#$%^&*" in
  let alnum := "abcdefghijklmnopqrstuvwxyzABCDEFGHIJKLMNOPQRSTUVWXYZ0123456789" in
  (exists suffix,
      username = prefix +:+ timestamp +:+ "-" +:+ suffix /\
      String.length suffix = 4%nat /\
      Spec.drawn_from lower_alnum suffix /\
      forall i, (i < 4)%nat ->
        String.get i suffix = Some (Notions.draw lower_alnum w (Api.drawn w + i))) /\
  (10 ^ 9 <= Api.clock w < 10 ^ 10 ->
   String.length timestamp = 10%nat /\ Spec.drawn_from "0123456789" timestamp) /\
  String.length password = 12%nat /\
  Spec.drawn_from alphabet password /\
  (forall i, (i < 12)%nat ->
     String.get i password = Some (Notions.draw alphabet w (Api.drawn w + 4 + i))) /\
  Api.drawn (snd (Manager.generate_temp_credentials prefix w)) = (Api.drawn w + 16)%nat /\
  fst (fst (Manager.api_generate_temp_credentials prefix w))
  = prefix +:+ Py.slice_from (String.length timestamp - 6) timestamp /\
  String.length (snd (fst (Manager.api_generate_temp_credentials prefix w))) = 12%nat /\
  Spec.drawn_from alnum (snd (fst (Manager.api_generate_temp_credentials prefix w))) /\
  (forall i, (i < 12)%nat ->
     String.get i (snd (fst (Manager.api_generate_temp_credentials prefix w)))
     = Some (Notions.draw alnum w (Api.drawn w + i))).
Proof.
  cbv zeta. unfold Manager.generate_temp_credentials, Manager.api_generate_temp_credentials.
  assert (Hlen4 : (0 < String.length (Manager.ascii_lowercase +:+ Manager.digits))%nat)
    by (vm_compute; lia).
  assert (Hlen12 : (0 < String.length (Manager.ascii_letters +:+ Manager.digits
                                         +:+ "!@#$%^&*"))%nat)
    by (vm_compute; lia).
  assert (Hlen62 : (0 < String.length (Manager.ascii_letters +:+ Manager.digits))%nat)
    by (vm_compute; lia).
  pose proof (choices_spec 12 (Manager.ascii_letters +:+ Manager.digits) Hlen62 w)
    as (Hla & Hfa & _ & _).
  pose proof (choices_get 12 (Manager.ascii_letters +:+ Manager.digits) w) as [_ Hga].
  destruct (Manager.choices 12 (Manager.ascii_letters +:+ Manager.digits) w)
    as [api_password wa].
  pose proof (choices_spec 4 (Manager.ascii_lowercase +:+ Manager.digits) Hlen4 w)
    as (Hl4 & Hf4 & Hd4 & Hk4).
  pose proof (choices_get 4 (Manager.ascii_lowercase +:+ Manager.digits) w) as [He4 Hg4].
  destruct (Manager.choices 4 (Manager.ascii_lowercase +:+ Manager.digits) w)
    as [rand_suffix w1].
  pose proof (choices_spec 12
                (Manager.ascii_letters +:+ Manager.digits +:+ "!@#$%^&*")
                Hlen12 w1) as (Hl12 & Hf12 & Hd12 & _).
  pose proof (choices_get 12 (Manager.ascii_letters +:+ Manager.digits +:+ "!@#$%^&*") w1)
    as [_ Hg12].
  destruct (Manager.choices 12 _ w1) as [password w2].
  cbn [fst snd] in *.
  split; [exists rand_suffix; repeat split; assumption |].
  split; [apply str_int_ten_digits |].
  split; [exact Hl12 |]. split; [exact Hf12 |].
  split.
  { intros i Hi. rewrite (Hg12 i Hi), Hd4. unfold Notions.draw. rewrite He4. reflexivity. }
  split; [lia |].
  split; [reflexivity |]. split; [exact Hla |]. split; [exact Hfa | exact Hga].
Qed.

Lemma temp_credentials_form_witness :
  let w := Spec.world [] in
  10 ^ 9 <= Api.clock w < 10 ^ 10 /\
  fst (Manager.generate_temp_credentials "temp-" w)
  = ("temp-1762214400-dkry", "FMT07%dkryFM") /\
  String.length (Py.str_int (Api.clock w)) = 10%nat.
Proof.
  cbv zeta.
  assert (Hclock : 10 ^ 9 <= Api.clock (Spec.world []) < 10 ^ 10) by (cbn; lia).
  split; [exact Hclock |]. split; [vm_compute; reflexivity |].
  exact (proj1 (proj1 (proj2 (temp_credentials_form "temp-" (Spec.world []))) Hclock)).
Defined.

(** The username is not always of the form the specification gives:
    at the last second of nine digits the timestamp has nine, and the
    helper of [mikrotik_api.py] gives six digits and no suffix at any
    time. *)
Lemma username_is_not_always_ten_digits_and_suffix :
  let early := Api.mkWorld [] [] 999999999 (fun n => (7 * n + 3)%nat) O None (Py.Ok 0) in
  fst (fst (Manager.generate_temp_credentials "temp-" early)) = "temp-999999999-dkry" /\
  ~ Notions.claimed_username "temp-"
      (fst (fst (Manager.generate_temp_credentials "temp-" early))) /\
  fst (fst (Manager.api_generate_temp_credentials "temp_" (Spec.world [])))
  = "temp_214400" /\
  ~ Notions.claimed_username "temp_"
      (fst (fst (Manager.api_generate_temp_credentials "temp_" (Spec.world [])))).
Proof.
  cbv zeta. split; [vm_compute; reflexivity |]. split; [| split; [vm_compute; reflexivity |]].
  - intros (ts & suffix & Heq & Hlen & _ & _ & _).
    vm_compute in Heq. simpl in Heq. injection Heq as Heq.
    do 10 (destruct ts as [| ? ts]; [discriminate Hlen |];
           simpl in Hlen; injection Hlen as Hlen).
    destruct ts; [| discriminate Hlen]. simpl in Heq. congruence.
  - intros (ts & suffix & Heq & Hlen & _ & _ & _).
    vm_compute in Heq. simpl in Heq. injection Heq as Heq.
    do 10 (destruct ts as [| ? ts]; [discriminate Hlen |];
           simpl in Hlen; injection Hlen as Hlen).
    destruct ts; [| discriminate Hlen]. simpl in Heq. congruence.
Qed.

(* ===================================================================== *)
(** ** The helpers of the client module that the manager does not use     *)
(* ===================================================================== *)

(** [create_temporary_user] of the manager reads the identity with the new
    credentials only when the connection test had none, and then through
    the same lookup. *)
Lemma create_reads_identity_when_unknown
    (self : Manager.MikroTikManager) (ip_address : string) (known : option string)
    (temp_username temp_password : string) (w : Api.World) :
  (Py.truthy_opt known = true ->
   Manager.identity_with_temp_user self ip_address known temp_username temp_password w
   = (known, w)) /\
  (Py.truthy_opt known = false ->
   forall api w1,
     Api.connect (Api.new ip_address temp_username temp_password
                          (Manager.api_port self) (Manager.mgr_use_tls self)) w
     = (true, api, w1) ->
     Manager.identity_with_temp_user self ip_address known temp_username temp_password w
     = (match fst (fst (Manager.read_identity api w1)) with
        | Py.Ok device_identity => device_identity
        | Py.Raise _ => None
        end, snd (Manager.read_identity api w1))).
Proof.
  split; intros Hk; unfold Manager.identity_with_temp_user; rewrite Hk; cbn [negb].
  - reflexivity.
  - intros api w1 Hconn. rewrite Hconn.
    destruct (Manager.read_identity api w1) as [[[device_identity | e] api'] w'];
      reflexivity.
Qed.

(** The module [mikrotik_api] has helpers of its own, which the manager
    never calls; they do not follow the formats above. *)
Remark client_helpers_differ :
  Manager.api_cleanup_time 90 = "00:00:90" /\
  Manager.interval_str 90 = "01:30:00" /\
  fst (fst (Manager.api_generate_temp_credentials "temp_" (Spec.world [])))
  = "temp_214400" /\
  fst (fst (Manager.generate_temp_credentials "temp_" (Spec.world [])))
  = "temp_1762214400-dkry".
Proof. repeat split; vm_compute; reflexivity. Qed.

(* ===================================================================== *)
(** * Further properties of the wire codec                                *)
(* ===================================================================== *)

(** X1. A word is a [str] that can be encoded as UTF-8 (no surrogate)
    into fewer than [2^32] bytes.  [_send_word] writes the prefix of
    that number of bytes and then the bytes the system takes at the one
    [send]: all of them when it takes the whole buffer.  From the bytes
    written in full, [_read_word] returns the word and leaves the
    stream at what follows it when the whole word has arrived at the
    one [recv]; when only [arrived] bytes have, it decodes those alone,
    returning a cut word or raising, and the other bytes of the word
    stay on the stream, where the next read takes them for a length. *)
Theorem word_written_is_read_back
    (word word_bytes rest out : list Z) :
  Wire.encode_utf8 word = Some word_bytes ->
  Z.of_nat (length word_bytes) < 2 ^ 32 ->
  exists prefix : list Z,
    Wire.encode_length (Z.of_nat (length word_bytes)) = Some prefix /\
    (forall accepted,
       Wire._send_word accepted word (Wire.Sock [] [])
       = Some (Wire.Sock [] (prefix ++ take accepted word_bytes))) /\
    (forall accepted, (length word_bytes <= accepted)%nat ->
       Wire._send_word accepted word (Wire.Sock [] [])
       = Some (Wire.Sock [] (prefix ++ word_bytes))) /\
    (forall arrived, (length word_bytes <= arrived)%nat ->
       Wire._read_word arrived (Wire.Sock ((prefix ++ word_bytes) ++ rest) out)
       = Some (word, Wire.Sock rest out)) /\
    (forall arrived, (0 < arrived < length word_bytes)%nat ->
       Wire._read_word arrived (Wire.Sock ((prefix ++ word_bytes) ++ rest) out)
       = (fun cut => (cut, Wire.Sock (drop arrived word_bytes ++ rest) out))
           <$> Wire.decode_utf8 (take arrived word_bytes)).
Proof.
  intros Hw Hlen.
  destruct (prefix_roundtrip (Z.of_nat (length word_bytes))) as (prefix & Henc & Hdec);
    [lia |].
  exists prefix. split; [exact Henc |].
  split; [intros accepted; apply send_word_writes; assumption |].
  split.
  { intros accepted Ha. rewrite (send_word_writes accepted word word_bytes prefix Hw Henc).
    rewrite take_ge by exact Ha. reflexivity. }
  split.
  - intros arrived Ha.
    destruct word_bytes as [| b word_bytes].
    + apply encode_empty in Hw. subst word.
      unfold Wire._read_word. rewrite app_nil_r, Hdec. reflexivity.
    + rewrite (read_word_reads arrived (b :: word_bytes) prefix rest out Hdec)
        by discriminate.
      replace (Nat.min (length (b :: word_bytes)) (Nat.max 1 arrived))
        with (length (b :: word_bytes)) by lia.
      rewrite take_ge, drop_ge by lia.
      rewrite (decode_encode word _ Hw). reflexivity.
  - intros arrived Ha.
    rewrite (read_word_reads arrived word_bytes prefix rest out Hdec)
      by (destruct word_bytes; [simpl in Ha; lia | discriminate]).
    replace (Nat.min (length word_bytes) (Nat.max 1 arrived)) with arrived by lia.
    reflexivity.
Qed.

Lemma word_written_is_read_back_witness :
  Wire._send_word 3 [233; 33] (Wire.Sock [] []) = Some (Wire.Sock [] [3; 195; 169; 33]) /\
  Wire._read_word 3 (Wire.Sock [3; 195; 169; 33; 0] []) = Some ([233; 33], Wire.Sock [0] []) /\
  Wire._read_word 1 (Wire.Sock [3; 195; 169; 33; 0] []) = None /\
  Wire._read_word 2 (Wire.Sock [3; 195; 169; 33; 0] []) = Some ([233], Wire.Sock [33; 0] []).
Proof.
  destruct (word_written_is_read_back [233; 33] [195; 169; 33] [0] [])
    as (prefix & Hp & _ & Hsend & Hread & Hcut); [reflexivity | simpl; lia |].
  assert (prefix = [3]) by (vm_compute in Hp; congruence). subst prefix.
  split; [apply Hsend; simpl; lia |].
  split; [apply Hread; simpl; lia |].
  split; [apply (Hcut 1%nat); simpl; lia | apply (Hcut 2%nat); simpl; lia].
Defined.

(** Bytes that are not UTF-8 make [_read_word] raise, and a word with
    a surrogate is refused before anything is written. *)
Remark words_are_utf8 :
  Wire._read_word 1 (Wire.Sock [1; 255] []) = None /\
  Wire._read_word 2 (Wire.Sock [2; 192; 128] []) = None /\
  Wire._send_word 3 [0xD800] (Wire.Sock [] []) = None.
Proof. repeat split; vm_compute; reflexivity. Qed.

(** X2. A negative length is refused: [_send_length] raises (the
    [bytes([length])] of its first branch) and nothing is written. *)
Theorem negative_length_is_refused (L : Z) (s : Wire.sock) :
  L < 0 -> Wire._send_length L s = None /\ Wire.encode_length L = None.
Proof.
  intros HL.
  assert (H : forall s0, Wire._send_length L s0 = None).
  { intros s0. unfold Wire._send_length.
    replace (L <? 128) with true by (symmetry; apply Z.ltb_lt; lia).
    unfold Wire.send, Wire.py_bytes. cbn [forallb].
    replace (0 <=? L) with false by (symmetry; apply Z.leb_gt; lia).
    reflexivity. }
  split; [apply H |]. unfold Wire.encode_length. rewrite H. reflexivity.
Qed.

Lemma negative_length_is_refused_witness :
  Wire._send_length (-1) (Wire.Sock [] [7]) = None.
Proof. apply (negative_length_is_refused (-1) (Wire.Sock [] [7])). lia. Defined.

(** X3. From [0x10000000] on, the prefix is [0xF0] and the four low
    bytes of the length, with no check of the range: it is read back as
    the length modulo [2^32], so a length of [2^32] or more comes back
    as a different number. *)
Theorem long_length_wraps (L : Z) :
  0x10000000 <= L ->
  exists bs : list Z,
    Wire.encode_length L = Some bs /\ length bs = 5%nat /\
    (forall rest out,
        Wire._read_length (Wire.Sock (bs ++ rest) out)
        = Some (L mod 2 ^ 32, Wire.Sock rest out)) /\
    (2 ^ 32 <= L -> L mod 2 ^ 32 <> L).
Proof.
  intros HL.
  assert (Hm3 : 0 <= L / 2 ^ 24 mod 256 < 256) by (apply Z.mod_pos_bound; lia).
  assert (Hm2 : 0 <= L / 2 ^ 16 mod 256 < 256) by (apply Z.mod_pos_bound; lia).
  assert (Hm1 : 0 <= L / 2 ^ 8 mod 256 < 256) by (apply Z.mod_pos_bound; lia).
  assert (Hl : 0 <= L mod 256 < 256) by (apply Z.mod_pos_bound; lia).
  exists [0xF0; L / 2 ^ 24 mod 256; L / 2 ^ 16 mod 256; L / 2 ^ 8 mod 256; L mod 256].
  split; [| split; [reflexivity | split]].
  - unfold Wire.encode_length, Wire._send_length. pick_branch.
    rewrite ?land_byte, ?Z.shiftr_div_pow2 by lia.
    apply send_fresh. repeat constructor; lia.
  - intros rest out. unfold Wire._read_length, Wire.recv1. simpl.
    rewrite ?Z.shiftl_mul_pow2 by lia.
    do 2 f_equal. Z.div_mod_to_equations; lia.
  - intros Hbig. pose proof (Z.mod_pos_bound L (2 ^ 32) ltac:(lia)). lia.
Qed.

Lemma long_length_wraps_witness :
  Wire.encode_length (2 ^ 32 + 5) = Some [0xF0; 0; 0; 0; 5] /\
  Wire.decode_length [0xF0; 0; 0; 0; 5] = Some 5.
Proof.
  destruct (long_length_wraps (2 ^ 32 + 5)) as (bs & Henc & _ & Hdec & _); [lia |].
  assert (Hbs : bs = [0xF0; 0; 0; 0; 5]) by (vm_compute in Henc; congruence).
  subst bs. split; [exact Henc |].
  unfold Wire.decode_length. specialize (Hdec [] []). simpl app in Hdec.
  rewrite Hdec. reflexivity.
Defined.

Section TruncatedPrefix.
Import Wire.

(** Reading a length from a stream that ends inside the prefix. *)
Lemma cut_2 (b0 b1 : Z) (out : list Z) (k : nat) :
  0x80 <= b0 < 0xC0 -> (k < 2)%nat ->
  _read_length (Sock (take k [b0; b1]) out) = None.
Proof.
  intros Hb Hk. destruct k as [| [| k]]; [reflexivity | | lia].
  unfold _read_length, recv1. simpl. pick_branch. reflexivity.
Qed.

Lemma cut_3 (b0 b1 b2 : Z) (out : list Z) (k : nat) :
  0xC0 <= b0 < 0xE0 -> (k < 3)%nat ->
  _read_length (Sock (take k [b0; b1; b2]) out) = None.
Proof.
  intros Hb Hk. destruct k as [| [| [| k]]]; [reflexivity | | | lia];
    unfold _read_length, recv1; simpl; pick_branch; reflexivity.
Qed.

Lemma cut_4 (b0 b1 b2 b3 : Z) (out : list Z) (k : nat) :
  0xE0 <= b0 < 0xF0 -> (k < 4)%nat ->
  _read_length (Sock (take k [b0; b1; b2; b3]) out) = None.
Proof.
  intros Hb Hk. destruct k as [| [| [| [| k]]]]; [reflexivity | | | | lia];
    unfold _read_length, recv1; simpl; pick_branch; reflexivity.
Qed.

Lemma cut_5 (b1 b2 b3 b4 : Z) (out : list Z) (k : nat) :
  (k < 5)%nat ->
  _read_length (Sock (take k [0xF0; b1; b2; b3; b4]) out) = None.
Proof.
  intros Hk. destruct k as [| [| [| [| [| k]]]]]; [reflexivity | | | | | lia];
    unfold _read_length, recv1; simpl; reflexivity.
Qed.

End TruncatedPrefix.

(** X4. A length prefix that is cut short is not read as some other
    length: on a stream that ends after only part of the prefix of [L],
    [_read_length] raises. *)
Theorem truncated_prefix_raises (L : Z) (bs out : list Z) (k : nat) :
  0 <= L < 2 ^ 32 ->
  Wire.encode_length L = Some bs ->
  (k < length bs)%nat ->
  Wire._read_length (Wire.Sock (take k bs) out) = None.
Proof.
  intros HL Henc Hk.
  assert (Hcases : 0 <= L < 0x80 \/ 0x80 <= L < 0x4000 \/ 0x4000 <= L < 0x200000 \/
                   0x200000 <= L < 0x10000000 \/ 0x10000000 <= L < 2 ^ 32) by lia.
  destruct Hcases as [H | [H | [H | [H | H]]]].
  - destruct (roundtrip_1 L [] [] H) as [He _]. rewrite He in Henc.
    injection Henc as <-. simpl in Hk. destruct k; [reflexivity | lia].
  - destruct (roundtrip_2 L [] [] H) as [He _]. cbv zeta in He. rewrite He in Henc.
    injection Henc as <-. apply cut_2; [| exact Hk].
    assert (0 <= L / 2 ^ 8 < 0x40) by (Z.div_mod_to_equations; lia). lia.
  - destruct (roundtrip_3 L [] [] H) as [He _]. cbv zeta in He. rewrite He in Henc.
    injection Henc as <-. apply cut_3; [| exact Hk].
    assert (0 <= L / 2 ^ 16 < 0x20) by (Z.div_mod_to_equations; lia). lia.
  - destruct (roundtrip_4 L [] [] H) as [He _]. cbv zeta in He. rewrite He in Henc.
    injection Henc as <-. apply cut_4; [| exact Hk].
    assert (0 <= L / 2 ^ 24 < 0x10) by (Z.div_mod_to_equations; lia). lia.
  - destruct (roundtrip_5 L [] [] H) as [He _]. cbv zeta in He. rewrite He in Henc.
    injection Henc as <-. apply cut_5. exact Hk.
Qed.

Lemma truncated_prefix_raises_witness :
  Wire.encode_length 0x4000 = Some [0xC0; 0x40; 0x00] /\
  Wire._read_length (Wire.Sock [0xC0; 0x40] []) = None.
Proof.
  split; [vm_compute; reflexivity |].
  apply (truncated_prefix_raises 0x4000 [0xC0; 0x40; 0x00] [] 2);
    [lia | vm_compute; reflexivity | simpl; lia].
Defined.

(* ===================================================================== *)
(** * Further properties of the client                                    *)
(* ===================================================================== *)

(** The cases of [_login] on an open socket. *)
Lemma login_cases (self : Api.MikroTikAPI) (w : Api.World) (ws : list string) :
  Api.socket self = Some ws ->
  Api.wire (snd (Api._login self w)) = (Api.wire w ++ Notions.login_words self)%list /\
  (fst (fst (Api._login self w)) = true <-> exists rest, ws = "!done" :: rest) /\
  (forall rest, ws = "!done" :: rest ->
                Api.socket (snd (fst (Api._login self w))) = Some rest).
Proof.
  intros Hs. unfold Api._login.
  rewrite (send_words_open _ self ws Hs), Hs.
  assert (Hw : Api.wire (Spec.written
                 ["/login"; "=name=" +:+ Api.username self;
                  "=password=" +:+ Api.password self; EmptyString] w)
               = (Api.wire w ++ Notions.login_words self)%list)
    by apply wire_written.
  destruct ws as [| response rest]; cbn [Api._read_word].
  - split; [exact Hw |]. split; [split; [discriminate | intros [r Hr]; discriminate] |].
    intros r Hr. discriminate.
  - destruct (String.eqb_spec response "!done") as [-> | Hne].
    + split; [exact Hw |]. split; [split; [eauto | reflexivity] |].
      intros r Hr. injection Hr as <-. reflexivity.
    + assert (Hno : forall r, response :: rest <> "!done" :: r) by congruence.
      destruct (String.eqb response "!trap");
        (split; [exact Hw |]; split;
         [split; [discriminate | intros [r Hr]; destruct (Hno r Hr)] |
          intros r Hr; destruct (Hno r Hr)]).
Qed.

(** X5. [_login] on an open socket writes the four words of the login
    and succeeds exactly when the first word read back is [!done]
    itself (a longer word that begins with [!done] is refused here,
    unlike in the response loop).  On success only that one word has
    been read: what follows it, the empty word of the reply included,
    stays on the stream. *)
Theorem login_needs_done (self : Api.MikroTikAPI) (w : Api.World) (ws : list string) :
  Api.socket self = Some ws ->
  Api.wire (snd (Api._login self w)) = (Api.wire w ++ Notions.login_words self)%list /\
  (fst (fst (Api._login self w)) = true <-> exists rest, ws = "!done" :: rest) /\
  (forall rest, ws = "!done" :: rest ->
                Api.socket (snd (fst (Api._login self w))) = Some rest).
Proof.
  intros Hs. destruct (login_cases self w ws Hs) as (Hwire & Hiff & Hrest).
  split; [exact Hwire |]. split; [exact Hiff | exact Hrest].
Qed.

Lemma login_needs_done_witness :
  fst (fst (Api._login (Spec.session ["!done"; EmptyString]) (Spec.world []))) = true /\
  fst (fst (Api._login (Spec.session ["!done.tag"; EmptyString]) (Spec.world []))) = false.
Proof.
  split.
  - apply (login_needs_done (Spec.session ["!done"; EmptyString]) (Spec.world []) _ eq_refl).
    eexists. reflexivity.
  - destruct (fst (fst (Api._login (Spec.session ["!done.tag"; EmptyString])
                                   (Spec.world [])))) eqn:H; [| reflexivity].
    apply (login_needs_done (Spec.session ["!done.tag"; EmptyString]) (Spec.world []) _
                            eq_refl) in H.
    destruct H as [r Hr]. discriminate Hr.
Defined.

Section SessionFacts.
Import Py Api Spec.

Lemma net_written (words : list string) :
  forall w, net (written words w) = net w.
Proof.
  unfold written. induction words as [| word words IH]; intros w; simpl;
    [reflexivity | rewrite IH; reflexivity].
Qed.

Lemma send_words_keeps_net (words : list string) (self : MikroTikAPI) :
  forall w, net (snd (send_words words self w)) = net w.
Proof.
  induction words as [| word words IH]; intros w; simpl; [reflexivity |].
  unfold _send_word. destruct (socket self); [| reflexivity].
  rewrite IH. reflexivity.
Qed.

Lemma login_keeps_net (self : MikroTikAPI) (w : World) :
  net (snd (_login self w)) = net w.
Proof.
  unfold _login.
  pose proof (send_words_keeps_net
                ["/login"; "=name=" +:+ username self; "=password=" +:+ password self;
                 EmptyString] self w) as H.
  destruct (send_words _ self w) as [[[] | e] w1]; cbn [snd] in H; [| exact H].
  destruct (socket self) as [ws |]; [| exact H].
  destruct (_read_word ws) as [[response | e] ws']; [| exact H].
  destruct (String.eqb response "!done"); [exact H |].
  destruct (String.eqb response "!trap"); exact H.
Qed.

End SessionFacts.

(** The cases of [connect]. *)
Lemma connect_cases (self : Api.MikroTikAPI) (w : Api.World) :
  (fst (fst (Api.connect self w)) = true <->
   exists rest later, Api.net w = Some ("!done" :: rest) :: later) /\
  (forall rest later,
      Api.net w = Some ("!done" :: rest) :: later ->
      Api.connected (snd (fst (Api.connect self w))) = true /\
      Api.socket (snd (fst (Api.connect self w))) = Some rest /\
      Api.wire (snd (Api.connect self w))
      = (Api.wire w ++ Notions.login_words self)%list) /\
  (fst (fst (Api.connect self w)) = false ->
   Api.connected (snd (fst (Api.connect self w))) = false /\
   Api.socket (snd (fst (Api.connect self w))) = None) /\
  Api.net (snd (Api.connect self w)) = tail (Api.net w).
Proof.
  unfold Api.connect, Api.take_connection.
  destruct (Api.net w) as [| [ws |] later] eqn:Hnet.
  - cbn [fst snd].
    split; [split; [intros H; discriminate H | intros (r & l & H); discriminate H] |].
    split; [intros r l H; discriminate H |].
    split; [intros _; split; reflexivity | exact Hnet].
  - set (w1 := Api.mkWorld later (Api.wire w) (Api.clock w) (Api.entropy w)
                           (Api.drawn w) (Api.marker_env w) (Api.db_active w)).
    set (self1 := Api.with_socket self (Some ws) (Api.connected self)).
    destruct (login_cases self1 w1 ws eq_refl) as (Hwire & Hok & Hrest).
    pose proof (login_keeps_net self1 w1) as Hkeep.
    destruct (Api._login self1 w1) as [[ok self2] w2] eqn:Hl.
    cbn [fst snd] in Hwire, Hok, Hrest, Hkeep.
    destruct ok; cbn [fst snd Api.net].
    + destruct (proj1 Hok eq_refl) as [rest ->].
      split; [split; [eauto | reflexivity] |].
      split; [| split; [intros H; discriminate H | exact Hkeep]].
      intros r l H. injection H as <- <-.
      cbn [Api.connected Api.socket Api.with_socket].
      split; [reflexivity |]. split; [apply Hrest; reflexivity | exact Hwire].
    + assert (Hno : forall r, ws <> "!done" :: r).
      { intros r ->. assert (false = true) by (apply Hok; eauto). discriminate. }
      split; [split; [intros H; discriminate H | intros (r & l & H); injection H as H _;
                                     destruct (Hno r H)] |].
      split; [intros r l H; injection H as H _; destruct (Hno r H) |].
      split; [intros _; split; reflexivity | exact Hkeep].
  - cbn [fst snd].
    split; [split; [intros H; discriminate H | intros (r & l & H); discriminate H] |].
    split; [intros r l H; discriminate H |].
    split; [intros _; split; reflexivity | reflexivity].
Qed.

(** X6. [connect] takes the next connection of the environment and
    succeeds exactly when that connection is established and its first
    word is [!done].  A successful [connect] leaves the client connected
    on the words after [!done]; a failed one leaves it disconnected,
    without a socket. *)
Theorem connect_outcome (self : Api.MikroTikAPI) (w : Api.World) :
  (fst (fst (Api.connect self w)) = true <->
   exists rest later, Api.net w = Some ("!done" :: rest) :: later) /\
  (forall rest later,
      Api.net w = Some ("!done" :: rest) :: later ->
      Api.connected (snd (fst (Api.connect self w))) = true /\
      Api.socket (snd (fst (Api.connect self w))) = Some rest /\
      Api.wire (snd (Api.connect self w))
      = (Api.wire w ++ Notions.login_words self)%list) /\
  (fst (fst (Api.connect self w)) = false ->
   Api.connected (snd (fst (Api.connect self w))) = false /\
   Api.socket (snd (fst (Api.connect self w))) = None) /\
  Api.net (snd (Api.connect self w)) = tail (Api.net w).
Proof.
  destruct (connect_cases self w) as (Hiff & Hon & Hoff & Hnet).
  split; [exact Hiff |]. split; [exact Hon |]. split; [exact Hoff | exact Hnet].
Qed.

Lemma connect_outcome_witness :
  fst (fst (Api.connect (Api.new "192.0.2.1" "svc" "secret" 8728 false)
                        (Spec.world [Some ["!done"; EmptyString]]))) = true /\
  fst (fst (Api.connect (Api.new "192.0.2.1" "svc" "secret" 8728 false)
                        (Spec.world [Some ["!trap"; "=message=bad"; EmptyString]]))) = false.
Proof.
  split.
  - apply (connect_outcome (Api.new "192.0.2.1" "svc" "secret" 8728 false)
                           (Spec.world [Some ["!done"; EmptyString]])).
    eexists _, _. reflexivity.
  - vm_compute. reflexivity.
Defined.

(** X7. A client that is not connected sends nothing: after
    [disconnect], and after a [connect] that failed, every
    [_send_command] raises [Not connected to MikroTik device] and leaves
    the client and the wire as they are.  [disconnect] may be repeated. *)
Theorem no_command_when_disconnected
    (command : string) (arguments : list (string * string))
    (self : Api.MikroTikAPI) (w : Api.World) :
  Api._send_command command arguments (Api.disconnect self) w
  = (Py.Raise "Not connected to MikroTik device", Api.disconnect self, w) /\
  Api.disconnect (Api.disconnect self) = Api.disconnect self /\
  (fst (fst (Api.connect self w)) = false ->
   Api._send_command command arguments (snd (fst (Api.connect self w)))
                     (snd (Api.connect self w))
   = (Py.Raise "Not connected to MikroTik device", snd (fst (Api.connect self w)),
      snd (Api.connect self w))).
Proof.
  split; [reflexivity |]. split; [reflexivity |].
  intros Hfail.
  destruct (connect_cases self w) as (_ & _ & Hoff & _).
  destruct (Hoff Hfail) as [Hc _].
  unfold Api._send_command. rewrite Hc. reflexivity.
Qed.

Lemma no_command_when_disconnected_witness :
  let refused := Api.connect (Api.new "192.0.2.1" "svc" "wrong" 8728 false)
                             (Spec.world [Some ["!trap"; "=message=bad"; EmptyString]]) in
  fst (fst refused) = false /\
  Api.wire (snd (Api._send_command "/user/print" [] (snd (fst refused)) (snd refused)))
  = Api.wire (snd refused).
Proof.
  cbv zeta.
  assert (Hfail : fst (fst (Api.connect (Api.new "192.0.2.1" "svc" "wrong" 8728 false)
                              (Spec.world [Some ["!trap"; "=message=bad"; EmptyString]])))
                  = false) by (vm_compute; reflexivity).
  split; [exact Hfail |].
  destruct (no_command_when_disconnected "/user/print" []
              (Api.new "192.0.2.1" "svc" "wrong" 8728 false)
              (Spec.world [Some ["!trap"; "=message=bad"; EmptyString]]))
    as (_ & _ & H).
  rewrite (H Hfail). reflexivity.
Defined.

(** X8. On a connected client every command is written in full before
    its response is read: the command word, one [=key=value] word per
    argument in the order given, and the empty word; this holds whatever
    the device answers, an error or a stream that ends included, and
    nothing else of the environment changes. *)
Theorem command_is_written_in_full
    (command : string) (arguments : list (string * string))
    (self : Api.MikroTikAPI) (w : Api.World) (ws : list string) :
  Api.connected self = true ->
  Api.socket self = Some ws ->
  Api.wire (snd (Api._send_command command arguments self w))
  = (Api.wire w ++ command :: map Notions.argument_word arguments ++ [EmptyString])%list /\
  Api.net (snd (Api._send_command command arguments self w)) = Api.net w /\
  Api.connected (snd (fst (Api._send_command command arguments self w))) = true.
Proof.
  intros Hc Hs. rewrite (send_command_connected _ _ _ _ ws Hc Hs). cbn [fst snd].
  split; [| split; [apply net_written | reflexivity]].
  rewrite wire_written. unfold Api.command_words. do 3 f_equal.
  apply map_ext. intros [k v]. reflexivity.
Qed.

Lemma command_is_written_in_full_witness :
  Api.wire (snd (Api._send_command "/user/add" [("name", "t1"); ("group", "read")]
                   (Spec.session []) (Spec.world [])))
  = ["/user/add"; "=name=t1"; "=group=read"; EmptyString].
Proof.
  apply (command_is_written_in_full "/user/add" [("name", "t1"); ("group", "read")]
           (Spec.session []) (Spec.world []) [] eq_refl eq_refl).
Defined.

Section ResponseFacts.
Import Py Api Spec Notions.

(** One complete reply sentence at the head of the stream. *)
Lemma read_from_reply (attrs ws : list string) (response : list dict) :
  Forall inner_word attrs ->
  read_from None (reply_words attrs ++ ws) response
  = read_from None ws (response ++ [record_of attrs]).
Proof.
  intros Hattrs. unfold reply_words. rewrite <- app_assoc. cbn [app].
  rewrite (read_from_unfold None). cbn [_read_word truthy negb].
  change (String.eqb "!re" "!re" || startswith "!re" "!re") with true. cbv iota.
  rewrite (read_reply_until_empty attrs _ Hattrs ∅). reflexivity.
Qed.

Lemma read_from_replies (sentences : list (list string)) :
  Forall (Forall inner_word) sentences ->
  forall ws response,
    read_from None (replies sentences ++ ws) response
    = read_from None ws (response ++ map record_of sentences).
Proof.
  intros Hall. induction Hall as [| attrs sentences Hattrs _ IH]; intros ws response.
  - cbn. rewrite app_nil_r. reflexivity.
  - unfold replies. cbn [map concat]. rewrite <- app_assoc.
    rewrite (read_from_reply attrs _ _ Hattrs). fold (replies sentences).
    rewrite IH. rewrite <- app_assoc. reflexivity.
Qed.

(** A word that begins with [!done] ends the command. *)
Lemma read_from_done (word : string) (ws : list string) (response : list dict) :
  startswith "!done" word = true ->
  read_from None (word :: ws) response = (Ok response, ws).
Proof.
  intros Hdone. rewrite (read_from_unfold None). cbn [_read_word].
  destruct (done_word word Hdone) as [Ht Hre]. rewrite Ht, Hre, Hdone. reflexivity.
Qed.

End ResponseFacts.

(** X9. A response made of any number of complete reply sentences and
    then a word that begins with [!done] is returned as the list of their
    records, in the order received, and the command stops right after
    that word: what follows it on the stream is left unread. *)
Theorem replies_are_returned_in_order
    (command : string) (arguments : list (string * string))
    (self : Api.MikroTikAPI) (w : Api.World)
    (sentences : list (list string)) (last_word : string) (rest : list string) :
  Api.connected self = true ->
  Api.socket self = Some (Notions.replies sentences ++ last_word :: rest)%list ->
  Forall (Forall Spec.inner_word) sentences ->
  Py.startswith "!done" last_word = true ->
  fst (fst (Api._send_command command arguments self w))
  = Py.Ok (map Spec.record_of sentences) /\
  Api.socket (snd (fst (Api._send_command command arguments self w))) = Some rest.
Proof.
  intros Hc Hs Hall Hdone.
  rewrite (send_command_connected _ _ _ _ _ Hc Hs). cbn [fst snd Api.socket Api.with_socket].
  unfold Api.read_sentences. rewrite (read_from_replies sentences Hall).
  rewrite (read_from_done last_word rest _ Hdone).
  split; reflexivity.
Qed.

Lemma replies_are_returned_in_order_witness :
  let answer :=
    Api._send_command "/user/print" []
      (Spec.session ["!re"; "=name=admin"; EmptyString; "!re"; "=name=t1"; "=group=read";
                     EmptyString; "!done"; EmptyString]) (Spec.world []) in
  fst (fst answer)
  = Py.Ok [({[ "name" := "admin" ]} : Py.dict); {[ "name" := "t1"; "group" := "read" ]}] /\
  Api.socket (snd (fst answer)) = Some [EmptyString].
Proof.
  cbv zeta.
  pose proof (replies_are_returned_in_order "/user/print" []
                (Spec.session ["!re"; "=name=admin"; EmptyString; "!re"; "=name=t1";
                               "=group=read"; EmptyString; "!done"; EmptyString])
                (Spec.world []) [["=name=admin"]; ["=name=t1"; "=group=read"]] "!done"
                [EmptyString] eq_refl eq_refl
                ltac:(repeat constructor) eq_refl) as [Hr Hs].
  split; [rewrite Hr; vm_compute; reflexivity | exact Hs].
Defined.

Section ResponseEndFacts.
Import Py Api Spec Notions.





End ResponseEndFacts.



Section ArgumentFacts.
Import Py Api Spec Notions.

Lemma partition_eq_at_first (key value : string) :
  has_char "=" key = false ->
  partition_eq (key +:+ "=" +:+ value) = (key, value).
Proof.
  induction key as [| c key IH]; intros H; simpl in *; [reflexivity |].
  apply orb_false_elim in H. destruct H as [Hc Hk].
  rewrite Hc, (IH Hk). reflexivity.
Qed.

Lemma argument_word_inner (kv : string * string) : inner_word (argument_word kv).
Proof. split; reflexivity. Qed.

Lemma add_argument_word (data : dict) (kv : string * string) :
  has_char "=" (fst kv) = false ->
  add_attribute data (argument_word kv) = <[fst kv := snd kv]> data.
Proof.
  intros H. unfold add_attribute, argument_word.
  replace (startswith "=" ("=" +:+ fst kv +:+ "=" +:+ snd kv)) with true
    by (unfold startswith; simpl; destruct (fst kv +:+ "=" +:+ snd kv); reflexivity).
  change (slice_from 1 ("=" +:+ fst kv +:+ "=" +:+ snd kv))
    with (fst kv +:+ "=" +:+ snd kv).
  rewrite (partition_eq_at_first _ _ H). reflexivity.
Qed.

Lemma fold_argument_words (arguments : list (string * string)) :
  Forall (fun kv => has_char "=" (fst kv) = false) arguments ->
  forall data,
    fold_left add_attribute (map argument_word arguments) data
    = fold_left (fun d kv => <[fst kv := snd kv]> d) arguments data.
Proof.
  intros Hall. induction Hall as [| kv arguments Hkv _ IH]; intros data; simpl;
    [reflexivity |].
  rewrite (add_argument_word data kv Hkv). apply IH.
Qed.

Lemma assigned_other (arguments : list (string * string)) (key : string) :
  ~ In key (map fst arguments) ->
  forall data : dict,
    fold_left (fun d kv => <[fst kv := snd kv]> d) arguments data !! key = data !! key.
Proof.
  induction arguments as [| [k v] arguments IH]; intros Hnot data; simpl in *;
    [reflexivity |].
  rewrite IH by tauto. apply lookup_insert_ne. tauto.
Qed.

Lemma assigned_lookup (arguments : list (string * string)) (key value : string) :
  NoDup (map fst arguments) -> In (key, value) arguments ->
  forall data : dict,
    fold_left (fun d kv => <[fst kv := snd kv]> d) arguments data !! key = Some value.
Proof.
  induction arguments as [| [k v] arguments IH]; intros Hnd Hin data; simpl in *;
    [destruct Hin |].
  apply NoDup_cons in Hnd. destruct Hnd as [Hnotin Hnd].
  destruct Hin as [Heq | Hin].
  - injection Heq as -> ->. rewrite assigned_other.
    + apply lookup_insert_eq.
    + rewrite <- list_elem_of_In. exact Hnotin.
  - apply IH; assumption.
Qed.

End ArgumentFacts.

(** X11. The words that carry the arguments of a command are read back
    by the reply parser as the same pairs: when no key contains [=], a
    reply sentence made of the words [=key=value] of [arguments] yields
    the record in which each key has its value (the later one when a
    key occurs twice).  A value may contain [=]: the word is split at the
    first [=] after the key only. *)
Theorem arguments_are_read_back
    (arguments : list (string * string)) (rest : list string) :
  Forall (fun kv => Notions.has_char "=" (fst kv) = false) arguments ->
  Api.read_sentences
    (Notions.reply_words (map Notions.argument_word arguments) ++ "!done" :: rest)
  = (Py.Ok [Notions.assigned arguments], rest) /\
  (forall key value,
      NoDup (map fst arguments) -> In (key, value) arguments ->
      Notions.assigned arguments !! key = Some value).
Proof.
  intros Hall. split.
  - unfold Api.read_sentences.
    rewrite read_from_reply
      by (apply Forall_forall; intros a Ha; apply list_elem_of_In, in_map_iff in Ha;
          destruct Ha as (kv & <- & _); apply argument_word_inner).
    rewrite (read_from_done "!done" rest _ eq_refl).
    unfold Spec.record_of. rewrite (fold_argument_words arguments Hall). reflexivity.
  - intros key value Hnd Hin. apply assigned_lookup; assumption.
Qed.

Lemma arguments_are_read_back_witness :
  Api.read_sentences ["!re"; "=name=t1"; "=comment=a=b"; EmptyString; "!done"]
  = (Py.Ok [({[ "name" := "t1"; "comment" := "a=b" ]} : Py.dict)], []).
Proof.
  destruct (arguments_are_read_back [("name", "t1"); ("comment", "a=b")] [])
    as [H _]; [repeat constructor |].
  vm_compute in H. vm_compute. exact H.
Defined.

(** X12. [_login] reads only the word [!done] of the reply to the login.
    When that reply ends with the empty word, as a sentence does, the
    empty word is still on the stream after [connect], and the first
    command takes it for its whole response: it returns the empty list
    and leaves on the stream everything the device sends after it. *)
Theorem login_terminator_answers_first_command
    (command : string) (arguments : list (string * string))
    (self : Api.MikroTikAPI) (w : Api.World)
    (rest : list string) (later : list (option (list string))) :
  Api.net w = Some ("!done" :: EmptyString :: rest) :: later ->
  let client := snd (fst (Api.connect self w)) in
  let w1 := snd (Api.connect self w) in
  fst (fst (Api.connect self w)) = true /\
  fst (fst (Api._send_command command arguments client w1)) = Py.Ok [] /\
  Api.socket (snd (fst (Api._send_command command arguments client w1))) = Some rest.
Proof.
  intros Hnet client w1.
  destruct (connect_cases self w) as (Hiff & Hon & _ & _).
  destruct (Hon _ _ Hnet) as (Hc & Hs & _).
  split; [apply Hiff; eauto |].
  subst client w1.
  rewrite (send_command_connected _ _ _ _ _ Hc Hs). cbn [fst snd Api.socket Api.with_socket].
  unfold Api.read_sentences. rewrite (read_from_unfold None). split; reflexivity.
Qed.

Lemma login_terminator_answers_first_command_witness :
  let w := Spec.world [Some ["!done"; EmptyString;
                             "!re"; "=name=R1"; EmptyString; "!done"; EmptyString]] in
  let connected := Api.connect (Api.new "192.0.2.1" "svc" "secret" 8728 false) w in
  fst (fst (Api._send_command "/system/identity/print" [] (snd (fst connected))
              (snd connected))) = Py.Ok [] /\
  Api.socket (snd (fst (Api._send_command "/system/identity/print" []
                          (snd (fst connected)) (snd connected))))
  = Some ["!re"; "=name=R1"; EmptyString; "!done"; EmptyString].
Proof.
  cbv zeta.
  destruct (login_terminator_answers_first_command "/system/identity/print" []
              (Api.new "192.0.2.1" "svc" "secret" 8728 false)
              (Spec.world [Some ["!done"; EmptyString;
                                 "!re"; "=name=R1"; EmptyString; "!done"; EmptyString]])
              ["!re"; "=name=R1"; EmptyString; "!done"; EmptyString] [] eq_refl)
    as (_ & Hr & Hs).
  split; [exact Hr | exact Hs].
Defined.

(* ===================================================================== *)
(** * The operations of the client class                                  *)
(* ===================================================================== *)

(** X13. [MikroTikAPI.revoke_temporary_user] is strict about the user:
    when the login succeeds and [/user/print] for the name returns no
    record, the result is the failure [User not found] and nothing is
    removed ([/user/print] is the last command written); when
    [/user/remove] raises, the result is a failure and the scheduler is
    not touched. *)
Theorem client_revoke_needs_the_user
    (username : string) (self api : Api.MikroTikAPI) (w w1 : Api.World) :
  Api.connect self w = (true, api, w1) ->
  (forall api2 w2,
      Api._send_command "/user/print" [("name", username)] api w1 = (Py.Ok [], api2, w2) ->
      Client.revoke_temporary_user username self w
      = (Client.RevokeFailed "User not found", Api.disconnect api2, w2) /\
      Api.wire w2 = (Api.wire w1 ++ ["/user/print"; "=name=" +:+ username; EmptyString])%list) /\
  (forall found api2 w2 e api3 w3,
      Api._send_command "/user/print" [("name", username)] api w1
      = (Py.Ok found, api2, w2) ->
      found <> [] ->
      Api._send_command "/user/remove" [("numbers", username)] api2 w2
      = (Py.Raise e, api3, w3) ->
      Client.revoke_temporary_user username self w
      = (Client.RevokeFailed ("Failed to remove user: " +:+ e), Api.disconnect api3, w3) /\
      Api.wire w3
      = (Api.wire w2 ++ ["/user/remove"; "=numbers=" +:+ username; EmptyString])%list).
Proof.
  intros Hconn. destruct (connect_true _ _ _ _ Hconn) as [Hc Hs]. split.
  - intros api2 w2 Hprint.
    destruct (send_command_result _ _ _ _ _ _ _ Hc Hs Hprint) as (_ & _ & Hw).
    split; [| exact Hw].
    unfold Client.revoke_temporary_user. rewrite Hconn, Hprint. reflexivity.
  - intros found api2 w2 e api3 w3 Hprint Hfound Hremove.
    destruct (send_command_result _ _ _ _ _ _ _ Hc Hs Hprint) as (Hc2 & Hs2 & _).
    destruct (send_command_result _ _ _ _ _ _ _ Hc2 Hs2 Hremove) as (_ & _ & Hw).
    split; [| exact Hw].
    unfold Client.revoke_temporary_user. rewrite Hconn, Hprint.
    destruct found as [| u found]; [congruence |]. rewrite Hremove. reflexivity.
Qed.

Lemma client_revoke_needs_the_user_witness :
  let w := Spec.world [Some ["!done"; "!done"; "!done"]] in
  let r := Client.revoke_temporary_user "temp_1"
             (Api.new "192.0.2.1" "svc" "secret" 8728 false) w in
  fst (fst r) = Client.RevokeFailed "User not found" /\
  Api.wire (snd r)
  = ["/login"; "=name=svc"; "=password=secret"; EmptyString;
     "/user/print"; "=name=temp_1"; EmptyString].
Proof.
  cbv zeta.
  edestruct client_revoke_needs_the_user
    with (username := "temp_1") (self := Api.new "192.0.2.1" "svc" "secret" 8728 false)
         (w := Spec.world [Some ["!done"; "!done"; "!done"]])
    as [Hnone _]; [vm_compute; reflexivity |].
  edestruct Hnone as [Hr Hw]; [vm_compute; reflexivity |].
  rewrite Hr. split; [reflexivity |]. cbn [snd]. rewrite Hw. vm_compute. reflexivity.
Defined.

(** X14. [MikroTikAPI.revoke_temporary_user] does not depend on the
    scheduler: once the user has been found and removed, the result is
    the success record whether the scheduler is found or not and
    whatever its lookup and its removal return or raise; the scheduler
    is removed only when the lookup returns a record. *)
Theorem client_revoke_ignores_the_scheduler
    (username : string) (self api : Api.MikroTikAPI) (w w1 : Api.World)
    (found : list Py.dict) (api2 : Api.MikroTikAPI) (w2 : Api.World)
    (removed : list Py.dict) (api3 : Api.MikroTikAPI) (w3 : Api.World) :
  Api.connect self w = (true, api, w1) ->
  Api._send_command "/user/print" [("name", username)] api w1 = (Py.Ok found, api2, w2) ->
  found <> [] ->
  Api._send_command "/user/remove" [("numbers", username)] api2 w2
  = (Py.Ok removed, api3, w3) ->
  fst (fst (Client.revoke_temporary_user username self w))
  = Client.Revoked ("User " +:+ username +:+ " revoked successfully") /\
  exists lookup api4 w4,
    Api._send_command "/system/scheduler/print" [("name", "cleanup_" +:+ username)] api3 w3
    = (lookup, api4, w4) /\
    Api.wire (snd (Client.revoke_temporary_user username self w))
    = (Api.wire w4 ++
       match lookup with
       | Py.Ok (_ :: _) =>
           ["/system/scheduler/remove"; "=numbers=cleanup_" +:+ username; EmptyString]
       | _ => []
       end)%list.
Proof.
  intros Hconn Hprint Hfound Hremove.
  destruct (connect_true _ _ _ _ Hconn) as [Hc Hs].
  destruct (send_command_result _ _ _ _ _ _ _ Hc Hs Hprint) as (Hc2 & Hs2 & _).
  destruct (send_command_result _ _ _ _ _ _ _ Hc2 Hs2 Hremove) as (Hc3 & Hs3 & _).
  destruct (Api._send_command "/system/scheduler/print"
              [("name", "cleanup_" +:+ username)] api3 w3) as [[lookup api4] w4] eqn:Hlook.
  destruct (send_command_result _ _ _ _ _ _ _ Hc3 Hs3 Hlook) as (Hc4 & Hs4 & _).
  unfold Client.revoke_temporary_user. rewrite Hconn, Hprint.
  destruct found as [| u found]; [congruence |]. rewrite Hremove.
  unfold Client.remove_scheduler. rewrite Hlook.
  destruct lookup as [[| s schedulers] | e].
  - split; [reflexivity |]. exists (Py.Ok []), api4, w4.
    split; [reflexivity |]. cbn [snd]. rewrite app_nil_r. reflexivity.
  - destruct (Api._send_command "/system/scheduler/remove"
                [("numbers", "cleanup_" +:+ username)] api4 w4)
      as [[r5 api5] w5] eqn:Hrm.
    destruct (send_command_result _ _ _ _ _ _ _ Hc4 Hs4 Hrm) as (_ & _ & Hw5).
    split; [reflexivity |]. exists (Py.Ok (s :: schedulers)), api4, w4.
    split; [reflexivity |]. cbn [snd]. exact Hw5.
  - split; [reflexivity |]. exists (Py.Raise e), api4, w4.
    split; [reflexivity |]. cbn [snd]. rewrite app_nil_r. reflexivity.
Qed.

Lemma client_revoke_ignores_the_scheduler_witness :
  let w := Spec.world [Some ["!done"; "!re"; "=name=temp_1"; EmptyString; "!done";
                             "!done"; "!trap"; "=message=no such command"; EmptyString]] in
  fst (fst (Client.revoke_temporary_user "temp_1"
              (Api.new "192.0.2.1" "svc" "secret" 8728 false) w))
  = Client.Revoked "User temp_1 revoked successfully".
Proof.
  cbv zeta.
  edestruct client_revoke_ignores_the_scheduler
    with (username := "temp_1") (self := Api.new "192.0.2.1" "svc" "secret" 8728 false)
         (w := Spec.world [Some ["!done"; "!re"; "=name=temp_1"; EmptyString; "!done";
                                 "!done"; "!trap"; "=message=no such command";
                                 EmptyString]])
    as [Hr _].
  - vm_compute. reflexivity.
  - vm_compute. reflexivity.
  - discriminate.
  - vm_compute. reflexivity.
  - exact Hr.
Defined.

(** X15. [MikroTikAPI.create_temporary_user] undoes a half-made
    account: when [/user/add] succeeds and [/system/scheduler/add]
    raises [e], [/user/remove] for the same name is the last command
    written, and the result is the failure that carries [e] whatever
    that removal does.  When [/user/add] itself raises, nothing is
    written after it. *)
Theorem client_create_rolls_back
    (username password : string) (duration_minutes : Z)
    (self api : Api.MikroTikAPI) (w w1 : Api.World) :
  Api.connect self w = (true, api, w1) ->
  (forall e api2 w2,
      Api._send_command "/user/add" (Client.user_args username password duration_minutes)
                        api w1 = (Py.Raise e, api2, w2) ->
      Client.create_temporary_user username password duration_minutes self w
      = (Client.CreateFailed ("Failed to create user: " +:+ e), Api.disconnect api2, w2) /\
      Api.wire w2
      = (Api.wire w1 ++ Api.command_words "/user/add"
                          (Client.user_args username password duration_minutes))%list) /\
  (forall added api2 w2 e api3 w3,
      Api._send_command "/user/add" (Client.user_args username password duration_minutes)
                        api w1 = (Py.Ok added, api2, w2) ->
      Api._send_command "/system/scheduler/add"
                        (Client.scheduler_args username duration_minutes) api2 w2
      = (Py.Raise e, api3, w3) ->
      fst (fst (Client.create_temporary_user username password duration_minutes self w))
      = Client.CreateFailed ("Failed to create cleanup scheduler: " +:+ e) /\
      Api.wire (snd (Client.create_temporary_user username password duration_minutes
                                                  self w))
      = (Api.wire w3 ++ ["/user/remove"; "=numbers=" +:+ username; EmptyString])%list).
Proof.
  intros Hconn. destruct (connect_true _ _ _ _ Hconn) as [Hc Hs]. split.
  - intros e api2 w2 Hadd.
    destruct (send_command_result _ _ _ _ _ _ _ Hc Hs Hadd) as (_ & _ & Hw).
    split; [| exact Hw].
    unfold Client.create_temporary_user. rewrite Hconn, Hadd. reflexivity.
  - intros added api2 w2 e api3 w3 Hadd Hsched.
    destruct (send_command_result _ _ _ _ _ _ _ Hc Hs Hadd) as (Hc2 & Hs2 & _).
    destruct (send_command_result _ _ _ _ _ _ _ Hc2 Hs2 Hsched) as (Hc3 & Hs3 & _).
    destruct (Api._send_command "/user/remove" [("numbers", username)] api3 w3)
      as [[rollback api4] w4] eqn:Hrb.
    destruct (send_command_result _ _ _ _ _ _ _ Hc3 Hs3 Hrb) as (_ & _ & Hw4).
    unfold Client.create_temporary_user. rewrite Hconn, Hadd, Hsched, Hrb.
    split; [reflexivity | exact Hw4].
Qed.

Lemma client_create_rolls_back_witness :
  let w := Spec.world [Some ["!done"; "!done"; "!trap"; "=message=bad interval";
                             EmptyString; "!done"]] in
  let r := Client.create_temporary_user "temp_1" "pw" 90
             (Api.new "192.0.2.1" "svc" "secret" 8728 false) w in
  fst (fst r)
  = Client.CreateFailed
      "Failed to create cleanup scheduler: Command execution failed: Command failed: bad interval" /\
  exists before,
    Api.wire (snd r) = (before ++ ["/user/remove"; "=numbers=temp_1"; EmptyString])%list.
Proof.
  cbv zeta.
  edestruct client_create_rolls_back
    with (username := "temp_1") (password := "pw") (duration_minutes := 90)
         (self := Api.new "192.0.2.1" "svc" "secret" 8728 false)
         (w := Spec.world [Some ["!done"; "!done"; "!trap"; "=message=bad interval";
                                 EmptyString; "!done"]])
    as [_ Hroll]; [vm_compute; reflexivity |].
  edestruct Hroll as [Hr Hw]; [vm_compute; reflexivity | vm_compute; reflexivity |].
  split; [rewrite Hr; reflexivity | eexists; exact Hw].
Defined.

Section ClientListFacts.
Import Py Api Client.

Lemma temp_entries_names (users : list dict) :
  map tu_username (temp_entries users)
  = List.filter (startswith "temp_")
                (map (fun user => default EmptyString (user !! "name")) users).
Proof.
  induction users as [| user users IH]; simpl; [reflexivity |].
  unfold is_temp. destruct (startswith "temp_" (default EmptyString (user !! "name")));
    simpl; rewrite IH; reflexivity.
Qed.

Lemma temp_entries_all_temp (users : list dict) :
  Forall (fun entry => startswith "temp_" (tu_username entry) = true) (temp_entries users).
Proof.
  induction users as [| user users IH]; simpl; [constructor |].
  destruct (is_temp user) eqn:Hu; [constructor; [exact Hu | exact IH] | exact IH].
Qed.

Lemma temp_entries_length (users : list dict) :
  (length (temp_entries users) <= length users)%nat.
Proof.
  induction users as [| user users IH]; simpl; [lia |].
  destruct (is_temp user); simpl; lia.
Qed.

Lemma count_temp_from (users : list dict) :
  forall n, fold_left (fun n user => if is_temp user then n + 1 else n) users n
            = n + Z.of_nat (length (temp_entries users)).
Proof.
  induction users as [| user users IH]; intros n; simpl; [lia |].
  rewrite IH. destruct (is_temp user); simpl length; lia.
Qed.

End ClientListFacts.

(** X16. [MikroTikAPI.list_temporary_users] lists, in the order of the
    device, exactly the users whose name begins with [temp_]: every
    entry has such a name, the names are those of [/user/print] that
    pass the test, [count] is the number of entries and is at most the
    number of users printed; the client is disconnected afterwards. *)
Theorem client_list_is_the_temp_users
    (self self' : Api.MikroTikAPI) (w w' : Api.World)
    (entries : list Client.temp_user) (count : Z) :
  Client.list_temporary_users self w = (Client.Listed entries count, self', w') ->
  count = Z.of_nat (length entries) /\
  Forall (fun entry => Py.startswith "temp_" (Client.tu_username entry) = true) entries /\
  Api.connected self' = false /\
  exists (api api2 : Api.MikroTikAPI) (w1 w2 : Api.World) (users : list Py.dict),
    Api.connect self w = (true, api, w1) /\
    Api._send_command "/user/print" [] api w1 = (Py.Ok users, api2, w2) /\
    map Client.tu_username entries
    = List.filter (Py.startswith "temp_")
                  (map (fun user => default EmptyString (user !! "name")) users) /\
    count <= Z.of_nat (length users).
Proof.
  unfold Client.list_temporary_users. intros H.
  destruct (Api.connect self w) as [[[|] api] w1] eqn:Hconn; [| discriminate].
  destruct (Api._send_command "/user/print" [] api w1) as [[[users | e] api2] w2] eqn:Hp;
    [| discriminate].
  injection H as <- <- <- <-.
  split; [reflexivity |]. split; [apply temp_entries_all_temp |]. split; [reflexivity |].
  exists api, api2, w1, w2, users. split; [reflexivity |]. split; [exact Hp |].
  split; [apply temp_entries_names |].
  pose proof (temp_entries_length users). lia.
Qed.

Lemma client_list_is_the_temp_users_witness :
  let w := Spec.world [Some ["!done"; "!re"; "=name=admin"; EmptyString;
                             "!re"; "=name=temp_7"; "=group=read"; EmptyString;
                             "!re"; "=name=Temp_8"; EmptyString; "!done"]] in
  fst (fst (Client.list_temporary_users (Api.new "192.0.2.1" "svc" "secret" 8728 false) w))
  = Client.Listed [Client.mkTempUser "temp_7" "read" EmptyString "never"] 1 /\
  1 = Z.of_nat (length [Client.mkTempUser "temp_7" "read" EmptyString "never"]).
Proof.
  cbv zeta.
  assert (H : exists self' w',
             Client.list_temporary_users (Api.new "192.0.2.1" "svc" "secret" 8728 false)
               (Spec.world [Some ["!done"; "!re"; "=name=admin"; EmptyString;
                                  "!re"; "=name=temp_7"; "=group=read"; EmptyString;
                                  "!re"; "=name=Temp_8"; EmptyString; "!done"]])
             = (Client.Listed [Client.mkTempUser "temp_7" "read" EmptyString "never"] 1,
                self', w'))
    by (eexists _, _; vm_compute; reflexivity).
  destruct H as (self' & w' & H).
  split; [rewrite H; reflexivity |].
  exact (proj1 (client_list_is_the_temp_users _ _ _ _ _ _ H)).
Defined.

(** X17. [MikroTikAPI.test_connection] reports success as soon as the
    login succeeds, whatever its two commands return or raise; both are
    written, [/system/identity/print] then [/user/print]; the number of
    temporary users it reports is between zero and the total. *)
Theorem client_test_counts
    (self api : Api.MikroTikAPI) (w w1 : Api.World) :
  Api.connect self w = (true, api, w1) ->
  exists device_name total_users temporary_users,
    fst (fst (Client.test_connection self w))
    = Client.Tested device_name total_users temporary_users /\
    0 <= temporary_users <= total_users /\
    Api.wire (snd (Client.test_connection self w))
    = (Api.wire w1 ++ ["/system/identity/print"; EmptyString]
                   ++ ["/user/print"; EmptyString])%list /\
    Api.connected (snd (fst (Client.test_connection self w))) = false.
Proof.
  intros Hconn. destruct (connect_true _ _ _ _ Hconn) as [Hc Hs].
  unfold Client.test_connection. rewrite Hconn.
  destruct (Api._send_command "/system/identity/print" [] api w1)
    as [[r1 api2] w2] eqn:H1.
  destruct (send_command_result _ _ _ _ _ _ _ Hc Hs H1) as (Hc2 & Hs2 & Hw2).
  assert (Hfirst : exists name,
             (match r1 with
              | Py.Ok identity_response =>
                  (match identity_response with
                   | [] => "Unknown"
                   | first :: _ => default "Unknown" (first !! "name")
                   end, api2, w2)
              | Py.Raise _ => ("Unknown", api2, w2)
              end) = (name, api2, w2)).
  { destruct r1 as [[| first rest] | e]; eexists; reflexivity. }
  destruct Hfirst as [name ->].
  destruct (Api._send_command "/user/print" [] api2 w2) as [[r2 api3] w3] eqn:H2.
  destruct (send_command_result _ _ _ _ _ _ _ Hc2 Hs2 H2) as (_ & _ & Hw3).
  assert (Hwire : Api.wire w3
                  = (Api.wire w1 ++ ["/system/identity/print"; EmptyString]
                                 ++ ["/user/print"; EmptyString])%list)
    by (rewrite Hw3, Hw2, <- app_assoc; reflexivity).
  destruct r2 as [users | e]; cbn [fst snd].
  - exists name, (Z.of_nat (length users)), (Client.count_temp users).
    split; [reflexivity |]. split; [| split; [exact Hwire | reflexivity]].
    unfold Client.count_temp. rewrite count_temp_from.
    pose proof (temp_entries_length users). lia.
  - exists name, 0, 0. split; [reflexivity |]. split; [lia |].
    split; [exact Hwire | reflexivity].
Qed.

Lemma client_test_counts_witness :
  let w := Spec.world [Some ["!done"; "!trap"; "=message=no permission"; EmptyString;
                             "!re"; "=name=admin"; EmptyString;
                             "!re"; "=name=temp_7"; EmptyString; "!done"]] in
  fst (fst (Client.test_connection (Api.new "192.0.2.1" "svc" "secret" 8728 false) w))
  = Client.Tested "Unknown" 2 1 /\ 0 <= 1 <= 2.
Proof.
  cbv zeta.
  edestruct client_test_counts
    with (self := Api.new "192.0.2.1" "svc" "secret" 8728 false)
         (w := Spec.world [Some ["!done"; "!trap"; "=message=no permission"; EmptyString;
                                 "!re"; "=name=admin"; EmptyString;
                                 "!re"; "=name=temp_7"; EmptyString; "!done"]])
    as (name & total & temp & Hr & Hb & _); [vm_compute; reflexivity |].
  vm_compute in Hr. injection Hr as <- <- <-.
  split; [vm_compute; reflexivity | exact Hb].
Defined.

(* ===================================================================== *)
(** * Further properties of the manager                                   *)
(* ===================================================================== *)

(** X18. [map_role_to_group] gives [full] exactly to the roles [admin]
    and [full_access], [write] exactly to [write_access], and [read] to
    every other role, known or not. *)
Theorem role_groups (role : string) :
  (Manager.map_role_to_group role = "full" <-> role = "admin" \/ role = "full_access") /\
  (Manager.map_role_to_group role = "write" <-> role = "write_access") /\
  (role <> "admin" -> role <> "full_access" -> role <> "write_access" ->
   Manager.map_role_to_group role = "read").
Proof.
  unfold Manager.map_role_to_group.
  rewrite !lookup_insert, lookup_singleton.
  repeat case_decide; subst; cbn [default];
    (split; [split; [intros Hg; try discriminate Hg; auto
                    | intros [Hg | Hg]; try discriminate Hg; try congruence; reflexivity]
            | split; [split; [intros Hg; try discriminate Hg; auto
                             | intros Hg; try discriminate Hg; try congruence; reflexivity]
                     | intros; try congruence; reflexivity]]).
Qed.

Section ReachFacts.
Import Py Api Manager Spec Notions.

Lemma probe_fails (self : MikroTikManager) (ip_address : string) (w : World) :
  next_established w = false ->
  fst (connect_to_device self ip_address w) = false /\
  wire (snd (connect_to_device self ip_address w)) = wire w /\
  drawn (snd (connect_to_device self ip_address w)) = drawn w.
Proof.
  unfold next_established, connect_to_device, take_connection.
  destruct (net w) as [| [ws |] later]; intros H; try discriminate H;
    repeat split; reflexivity.
Qed.

Lemma probe_succeeds (self : MikroTikManager) (ip_address : string) (w : World) :
  next_established w = true ->
  fst (connect_to_device self ip_address w) = true.
Proof.
  unfold next_established, connect_to_device, take_connection.
  destruct (net w) as [| [ws |] later]; intros H; try discriminate H; reflexivity.
Qed.

Lemma test_connection_unreachable (self : MikroTikManager) (ip_address : string)
    (w : World) :
  next_established w = false ->
  fst (test_connection self ip_address w)
  = ConnFailed ("Cannot reach port " +:+ str_int (api_port self)) /\
  wire (snd (test_connection self ip_address w)) = wire w /\
  drawn (snd (test_connection self ip_address w)) = drawn w.
Proof.
  intros H. destruct (probe_fails self ip_address w H) as (Hf & Hw & Hd).
  unfold test_connection.
  destruct (connect_to_device self ip_address w) as [[|] w1]; cbn [fst snd] in *;
    [discriminate |].
  repeat split; assumption.
Qed.

Lemma test_connection_reachable (self : MikroTikManager) (ip_address : string)
    (w : World) :
  next_established w = true ->
  exists ident message,
    fst (test_connection self ip_address w) = ConnOk ident message /\
    ident <> Some EmptyString /\
    (ident = None <-> message = "Connected, identity not readable") /\
    (ident <> None <-> message = "Connection successful").
Proof.
  intros H. pose proof (probe_succeeds self ip_address w H) as Hp.
  unfold test_connection.
  destruct (connect_to_device self ip_address w) as [[|] w1]; cbn [fst] in Hp;
    [| discriminate].
  match goal with
  | |- context [let '(i, w0) := ?e in _] => destruct e as [ident w2]
  end.
  destruct ident as [[| c s] |]; cbn [truthy_opt truthy negb fst].
  - exists None, "Connected, identity not readable". repeat split; congruence.
  - exists (Some (String c s)), "Connection successful". repeat split; congruence.
  - exists None, "Connected, identity not readable". repeat split; congruence.
Qed.

End ReachFacts.

(** X19. Nothing is sent to a device that cannot be reached.  When the
    TCP connection to the API port is not established,
    [test_connection], [create_temporary_user], [revoke_temporary_user]
    and [get_device_info] all return a failure that names the port, no
    word has been written to any socket, and no credential has been
    drawn. *)
Theorem unreachable_device_gets_nothing
    (lower : string -> string)
    (self : Manager.MikroTikManager) (ip_address username prefix : string)
    (group : option string) (duration_minutes : Z) (w : Api.World) :
  Notions.next_established w = false ->
  let port_error := "Cannot reach port " +:+ Py.str_int (Manager.api_port self) in
  fst (Manager.test_connection self ip_address w) = Manager.ConnFailed port_error /\
  fst (Manager.create_temporary_user self ip_address duration_minutes prefix group w)
  = Manager.CreateFailed ("Cannot connect to device: " +:+ port_error) /\
  fst (Manager.revoke_temporary_user self ip_address username w)
  = Manager.RevokeFailed ("Cannot connect to device: " +:+ port_error) /\
  fst (Manager.get_device_info lower self ip_address w) = Manager.InfoFailed port_error /\
  Api.wire (snd (Manager.create_temporary_user self ip_address duration_minutes prefix
                                               group w)) = Api.wire w /\
  Api.drawn (snd (Manager.create_temporary_user self ip_address duration_minutes prefix
                                                group w)) = Api.drawn w /\
  Api.wire (snd (Manager.revoke_temporary_user self ip_address username w)) = Api.wire w /\
  Api.wire (snd (Manager.get_device_info lower self ip_address w)) = Api.wire w.
Proof.
  intros H port_error.
  destruct (test_connection_unreachable self ip_address w H) as (Hf & Hw & Hd).
  unfold Manager.create_temporary_user, Manager.revoke_temporary_user,
    Manager.get_device_info.
  destruct (Manager.test_connection self ip_address w) as [[error | ident message] w1];
    cbn [fst snd] in *; [| discriminate].
  injection Hf as ->. repeat split; assumption.
Qed.

Lemma unreachable_device_gets_nothing_witness :
  fst (Manager.create_temporary_user Spec.manager "192.0.2.1" 30 "temp-" None
         (Spec.world [None]))
  = Manager.CreateFailed "Cannot connect to device: Cannot reach port 8728".
Proof.
  apply (unreachable_device_gets_nothing Py.ascii_lower Spec.manager "192.0.2.1" "temp-1"
           "temp-" None 30
           (Spec.world [None]) eq_refl).
Defined.

(** X20. [test_connection] of the manager succeeds exactly when the TCP
    connection to the API port is established: a login that is refused,
    or an identity that cannot be read, does not make it fail.  The
    identity it reports is never an empty string: it is a non-empty name
    with the message [Connection successful], or [None] with the message
    [Connected, identity not readable]. *)
Theorem test_connection_needs_only_the_port
    (self : Manager.MikroTikManager) (ip_address : string) (w : Api.World) :
  (Notions.next_established w = true <->
   exists ident message,
     fst (Manager.test_connection self ip_address w) = Manager.ConnOk ident message) /\
  (forall ident message,
      fst (Manager.test_connection self ip_address w) = Manager.ConnOk ident message ->
      ident <> Some EmptyString /\
      (ident = None <-> message = "Connected, identity not readable") /\
      (ident <> None <-> message = "Connection successful")).
Proof.
  destruct (Notions.next_established w) eqn:Hn.
  - destruct (test_connection_reachable self ip_address w Hn) as (i & m & Hr & Hprops).
    split.
    + split; [intros _; eauto | reflexivity].
    + intros ident message H. rewrite Hr in H. injection H as <- <-. exact Hprops.
  - destruct (test_connection_unreachable self ip_address w Hn) as (Hf & _).
    split.
    + split; [intros H; discriminate H |].
      intros (i & m & H). rewrite Hf in H. discriminate H.
    + intros ident message H. rewrite Hf in H. discriminate H.
Qed.

(** X21. [create_temporary_user] of the manager stops at the first step
    that fails before the scheduler.  A login that is refused gives
    [API login failed] and no command is sent; a [/user/add] that raises
    [e] gives [Failed to create user: e], and [/user/add] is the last
    command written: no scheduler is added and no removal is tried. *)
Theorem create_stops_before_the_scheduler
    (self : Manager.MikroTikManager) (ip_address : string) (duration_minutes : Z)
    (username_prefix : string) (group : option string) (w : Api.World)
    (ident : option string) (message : string) (w1 : Api.World)
    (temp_username temp_password : string) (w2 : Api.World) :
  Manager.test_connection self ip_address w = (Manager.ConnOk ident message, w1) ->
  Manager.generate_temp_credentials username_prefix w1
  = ((temp_username, temp_password), w2) ->
  let client := Api.new ip_address (Manager.service_user self) (Manager.service_pass self)
                        (Manager.api_port self) (Manager.mgr_use_tls self) in
  let user_add :=
    Manager.user_add_args temp_username temp_password
      (if Py.truthy_opt group then default "read" group else "read") duration_minutes in
  (forall api w3,
      Api.connect client w2 = (false, api, w3) ->
      Manager.create_temporary_user self ip_address duration_minutes username_prefix
                                    group w
      = (Manager.CreateFailed "API login failed", w3)) /\
  (forall api w3 e api1 w4,
      Api.connect client w2 = (true, api, w3) ->
      Api._send_command "/user/add" user_add api w3 = (Py.Raise e, api1, w4) ->
      Manager.create_temporary_user self ip_address duration_minutes username_prefix
                                    group w
      = (Manager.CreateFailed ("Failed to create user: " +:+ e), w4) /\
      Api.wire w4 = (Api.wire w3 ++ Api.command_words "/user/add" user_add)%list).
Proof.
  intros Htest Hgen client user_add. split.
  - intros api w3 Hconn. unfold Manager.create_temporary_user.
    rewrite Htest, Hgen. fold client. rewrite Hconn. reflexivity.
  - intros api w3 e api1 w4 Hconn Hadd.
    destruct (connect_true _ _ _ _ Hconn) as [Hc Hs].
    destruct (send_command_result _ _ _ _ _ _ _ Hc Hs Hadd) as (_ & _ & Hw).
    split; [| exact Hw].
    unfold Manager.create_temporary_user. rewrite Htest, Hgen. fold client.
    rewrite Hconn. unfold Manager.provision. fold user_add. rewrite Hadd. reflexivity.
Qed.

Lemma create_stops_before_the_scheduler_witness :
  let w := Spec.world (Spec.reachable ++
             [Some ["!done"; "!trap"; "=message=failure: user exists"; EmptyString]]) in
  let r := Manager.create_temporary_user Spec.manager "192.0.2.1" 30 "temp-" None w in
  fst r = Manager.CreateFailed
            "Failed to create user: Command execution failed: Command failed: failure: user exists" /\
  last (Api.wire (snd r)) = Some EmptyString /\
  In "/user/add" (Api.wire (snd r)) /\ ~ In "/system/scheduler/add" (Api.wire (snd r)).
Proof.
  cbv zeta.
  edestruct create_stops_before_the_scheduler
    with (self := Spec.manager) (ip_address := "192.0.2.1") (duration_minutes := 30)
         (username_prefix := "temp-") (group := @None string)
         (w := Spec.world (Spec.reachable ++
                 [Some ["!done"; "!trap"; "=message=failure: user exists"; EmptyString]]))
    as [_ Hadd]; [vm_compute; reflexivity | vm_compute; reflexivity |].
  edestruct Hadd as [Hr _]; [vm_compute; reflexivity | vm_compute; reflexivity |].
  rewrite Hr. cbn [fst snd]. split; [reflexivity |].
  split; [vm_compute; reflexivity |]. split; [vm_compute; tauto |].
  vm_compute. intros H. repeat (destruct H as [H | H]; [discriminate H |]). exact H.
Defined.

(** X22. When both [/user/add] and [/system/scheduler/add] succeed,
    [create_temporary_user] returns the generated username and password
    with the duration asked for; the two commands are written in that
    order, and the scheduler is named [cleanup-] followed by the
    username, which is the name that [revoke_temporary_user] removes for
    that username.  When the connection test has read the identity, it
    is returned as it is and the device is not contacted again. *)
Theorem create_returns_the_generated_account
    (self : Manager.MikroTikManager) (ip_address : string) (duration_minutes : Z)
    (username_prefix : string) (group : option string) (w : Api.World)
    (ident : option string) (message : string) (w1 : Api.World)
    (temp_username temp_password : string) (w2 : Api.World)
    (api : Api.MikroTikAPI) (w3 : Api.World)
    (added : list Py.dict) (api1 : Api.MikroTikAPI) (w4 : Api.World)
    (scheduled : list Py.dict) (api2 : Api.MikroTikAPI) (w5 : Api.World) :
  Manager.test_connection self ip_address w = (Manager.ConnOk ident message, w1) ->
  Manager.generate_temp_credentials username_prefix w1
  = ((temp_username, temp_password), w2) ->
  Api.connect (Api.new ip_address (Manager.service_user self) (Manager.service_pass self)
                       (Manager.api_port self) (Manager.mgr_use_tls self)) w2
  = (true, api, w3) ->
  Api._send_command "/user/add"
    (Manager.user_add_args temp_username temp_password
       (if Py.truthy_opt group then default "read" group else "read") duration_minutes)
    api w3 = (Py.Ok added, api1, w4) ->
  Api._send_command "/system/scheduler/add"
    (Manager.scheduler_add_args temp_username duration_minutes) api1 w4
  = (Py.Ok scheduled, api2, w5) ->
  (exists device_identity w6,
      Manager.create_temporary_user self ip_address duration_minutes username_prefix
                                    group w
      = (Manager.Created temp_username temp_password duration_minutes device_identity,
         w6) /\
      (Py.truthy_opt ident = true -> device_identity = ident /\ w6 = w5)) /\
  Api.wire w5
  = (Api.wire w3
     ++ Api.command_words "/user/add"
          (Manager.user_add_args temp_username temp_password
             (if Py.truthy_opt group then default "read" group else "read")
             duration_minutes)
     ++ Api.command_words "/system/scheduler/add"
          (Manager.scheduler_add_args temp_username duration_minutes))%list /\
  Spec.argument "name" (Manager.scheduler_add_args temp_username duration_minutes)
  = Some ("cleanup-" +:+ temp_username) /\
  (forall client w7,
      Api.connected client = true -> (exists ws, Api.socket client = Some ws) ->
      exists before,
        Api.wire (snd (Manager.remove_user_and_scheduler temp_username client w7))
        = (before ++ ["/system/scheduler/remove";
                      "=numbers=" +:+ ("cleanup-" +:+ temp_username); EmptyString])%list).
Proof.
  intros Htest Hgen Hconn Hadd Hsched.
  destruct (connect_true _ _ _ _ Hconn) as [Hc Hs].
  destruct (send_command_result _ _ _ _ _ _ _ Hc Hs Hadd) as (Hc1 & Hs1 & Hw4).
  destruct (send_command_result _ _ _ _ _ _ _ Hc1 Hs1 Hsched) as (_ & _ & Hw5).
  split; [| split; [| split; [reflexivity |]]].
  - destruct (Manager.identity_with_temp_user self ip_address ident temp_username
                                              temp_password w5) as [device w6] eqn:Hid.
    exists device, w6. split.
    + unfold Manager.create_temporary_user. rewrite Htest, Hgen, Hconn.
      unfold Manager.provision. rewrite Hadd, Hsched, Hid. reflexivity.
    + intros Hknown. unfold Manager.identity_with_temp_user in Hid.
      rewrite Hknown in Hid. cbn [negb] in Hid. injection Hid as <- <-. auto.
  - rewrite Hw5, Hw4, <- app_assoc. reflexivity.
  - intros client w7 Hcc Hcs. unfold Manager.remove_user_and_scheduler.
    destruct (Api._send_command "/user/remove" [("numbers", temp_username)] client w7)
      as [[r1 c1] w8] eqn:H1.
    destruct (send_command_result _ _ _ _ _ _ _ Hcc Hcs H1) as (Hc8 & Hs8 & _).
    destruct (Api._send_command "/system/scheduler/remove"
                [("numbers", "cleanup-" +:+ temp_username)] c1 w8)
      as [[r2 c2] w9] eqn:H2.
    destruct (send_command_result _ _ _ _ _ _ _ Hc8 Hs8 H2) as (_ & _ & Hw9).
    exists (Api.wire w8). cbn [snd]. exact Hw9.
Qed.

Lemma create_returns_the_generated_account_witness :
  let w := Spec.world (Spec.reachable ++ [Some ["!done"; "!done"; "!done"]]) in
  Manager.create_temporary_user Spec.manager "192.0.2.1" 45 "temp-" (Some "write") w
  = (Manager.Created "temp-1762214400-dkry" "FMT07%dkryFM" 45 (Some "R1"),
     snd (Manager.create_temporary_user Spec.manager "192.0.2.1" 45 "temp-"
                                        (Some "write") w)).
Proof.
  cbv zeta.
  edestruct create_returns_the_generated_account
    with (self := Spec.manager) (ip_address := "192.0.2.1") (duration_minutes := 45)
         (username_prefix := "temp-") (group := Some "write")
         (w := Spec.world (Spec.reachable ++ [Some ["!done"; "!done"; "!done"]]))
    as [(device & w6 & Hr & Hknown) _];
    [vm_compute; reflexivity | vm_compute; reflexivity | vm_compute; reflexivity
    | vm_compute; reflexivity | vm_compute; reflexivity |].
  destruct (Hknown eq_refl) as [-> ->]. rewrite Hr. reflexivity.
Defined.

Section UsernameFacts.
Import Py Api Manager.

Lemma length_append (a b : string) :
  String.length (a +:+ b) = (String.length a + String.length b)%nat.
Proof. induction a as [| c a IH]; simpl; [reflexivity | rewrite IH; reflexivity]. Qed.

Lemma append_same_prefix (p a b : string) : p +:+ a = p +:+ b -> a = b.
Proof.
  induction p as [| c p IH]; simpl; intros H; [exact H |].
  injection H as H. apply IH, H.
Qed.

(** Two strings that end in tails of the same length and are equal have
    equal heads. *)
Lemma append_same_tail_length (a b x y : string) :
  String.length x = String.length y -> a +:+ x = b +:+ y -> a = b.
Proof.
  revert b. induction a as [| c a IH]; intros [| d b] Hlen H; simpl in H.
  - reflexivity.
  - apply (f_equal String.length) in H. rewrite !length_append in H. simpl in H.
    rewrite ?length_append in H. lia.
  - apply (f_equal String.length) in H. rewrite !length_append in H. simpl in H.
    rewrite ?length_append in H. lia.
  - injection H as -> H. f_equal. apply (IH b Hlen H).
Qed.

Lemma temp_credentials_parts (prefix : string) (w : World) :
  exists suffix,
    fst (fst (generate_temp_credentials prefix w))
    = prefix +:+ str_int (clock w) +:+ "-" +:+ suffix /\
    String.length suffix = 4%nat.
Proof.
  unfold generate_temp_credentials.
  assert (Hlen : (0 < String.length (ascii_lowercase +:+ digits))%nat)
    by (vm_compute; lia).
  pose proof (choices_spec 4 (ascii_lowercase +:+ digits) Hlen w) as (Hl & _).
  destruct (choices 4 (ascii_lowercase +:+ digits) w) as [rand_suffix w1].
  destruct (choices 12 _ w1) as [password w2].
  exists rand_suffix. split; [reflexivity | exact Hl].
Qed.

End UsernameFacts.

(** X23. Usernames generated at different seconds differ: for the same
    prefix, two calls of [generate_temp_credentials] whose clocks read
    different whole seconds return different usernames, whatever the
    random draws are. *)
Theorem usernames_differ_across_seconds (prefix : string) (w1 w2 : Api.World) :
  Api.clock w1 <> Api.clock w2 ->
  fst (fst (Manager.generate_temp_credentials prefix w1))
  <> fst (fst (Manager.generate_temp_credentials prefix w2)).
Proof.
  intros Hclock Heq.
  destruct (temp_credentials_parts prefix w1) as (s1 & H1 & Hl1).
  destruct (temp_credentials_parts prefix w2) as (s2 & H2 & Hl2).
  rewrite H1, H2 in Heq.
  apply append_same_prefix in Heq.
  apply (append_same_tail_length _ _ ("-" +:+ s1) ("-" +:+ s2)) in Heq;
    [| rewrite !length_append, Hl1, Hl2; reflexivity].
  apply Hclock. unfold Py.str_int in Heq. apply (inj pretty) in Heq. exact Heq.
Qed.

Lemma usernames_differ_across_seconds_witness :
  fst (fst (Manager.generate_temp_credentials "temp-" (Spec.world [])))
  <> fst (fst (Manager.generate_temp_credentials "temp-"
                 (Api.mkWorld [] [] 1762214401 (fun n => (7 * n + 3)%nat) O None (Py.Ok 0)))).
Proof.
  apply (usernames_differ_across_seconds "temp-" (Spec.world [])
           (Api.mkWorld [] [] 1762214401 (fun n => (7 * n + 3)%nat) O None (Py.Ok 0))).
  cbn. lia.
Defined.

(** X24. [get_device_info] needs the list of users but not the
    identity.  With the connection test passed and the login done,
    whatever the identity lookup returns or raises, a [/user/print] that
    raises [e] makes the result the failure [e], and a [/user/print]
    that returns makes it a success record; its [device_name] is the
    identity found when that is a non-empty string, and [None]
    otherwise. *)
Theorem device_info_needs_the_user_list
    (lower : string -> string)
    (self : Manager.MikroTikManager) (ip_address : string) (w : Api.World)
    (ident : option string) (message : string) (w1 : Api.World)
    (api : Api.MikroTikAPI) (w2 : Api.World)
    (looked_up : Py.outcome (option string)) (api3 : Api.MikroTikAPI) (w3 : Api.World) :
  Manager.test_connection self ip_address w = (Manager.ConnOk ident message, w1) ->
  Api.connect (Api.new ip_address (Manager.service_user self) (Manager.service_pass self)
                       (Manager.api_port self) (Manager.mgr_use_tls self)) w1
  = (true, api, w2) ->
  Manager.read_identity api w2 = (looked_up, api3, w3) ->
  (forall e api4 w4,
      Api._send_command "/user/print" [] api3 w3 = (Py.Raise e, api4, w4) ->
      Manager.get_device_info lower self ip_address w = (Manager.InfoFailed e, w4)) /\
  (forall users api4 w4,
      Api._send_command "/user/print" [] api3 w3 = (Py.Ok users, api4, w4) ->
      exists total_users temporary_users,
        Manager.get_device_info lower self ip_address w
        = (Manager.Info
             (match looked_up with
              | Py.Ok (Some name) => if Py.truthy name then Some name else None
              | _ => None
              end) total_users temporary_users, w4)).
Proof.
  intros Htest Hconn Hid. split.
  - intros e api4 w4 Hp. unfold Manager.get_device_info.
    rewrite Htest, Hconn, Hid.
    destruct looked_up as [name | e0]; rewrite Hp; reflexivity.
  - intros users api4 w4 Hp. unfold Manager.get_device_info.
    rewrite Htest, Hconn, Hid.
    destruct looked_up as [[name |] | e0]; rewrite Hp; cbn [Py.truthy_opt];
      eexists _, _; reflexivity.
Qed.

Lemma device_info_needs_the_user_list_witness :
  let w := Spec.world (Spec.reachable ++
             [Some ["!done"; "!re"; "=name=R1"; EmptyString; "!done";
                    "!trap"; "=message=not permitted"; EmptyString]]) in
  fst (Manager.get_device_info Py.ascii_lower Spec.manager "192.0.2.1" w)
  = Manager.InfoFailed "Command execution failed: Command failed: not permitted".
Proof.
  cbv zeta.
  edestruct device_info_needs_the_user_list
    with (lower := Py.ascii_lower) (self := Spec.manager) (ip_address := "192.0.2.1")
         (w := Spec.world (Spec.reachable ++
                 [Some ["!done"; "!re"; "=name=R1"; EmptyString; "!done";
                        "!trap"; "=message=not permitted"; EmptyString]]))
    as [Hfail _];
    [vm_compute; reflexivity | vm_compute; reflexivity | vm_compute; reflexivity |].
  erewrite Hfail; [reflexivity | vm_compute; reflexivity].
Defined.

Section CountLoopFacts.
Import Py Api Manager Notions.





End CountLoopFacts.


(* ===================================================================== *)
(** * The identity responses kept for debugging                           *)
(* ===================================================================== *)

(** X26. [fetch_identity_debug] when its login succeeds.  It logs in
    once, with the user name and the password given when they are
    non-empty strings and with those of the service account when they
    are missing or empty; then both identity prints are written, the
    restricted one first and the full one whatever the first answered,
    and nothing else.  Both responses are kept; the parsed name comes
    from the first record of the restricted response whenever that
    response is a non-empty list, also when the record has neither
    field, and from the full response only when the restricted one is
    empty or an error. *)
Theorem debug_identity_asks_twice
    (self : Manager.MikroTikManager) (ip_address : string)
    (username password : option string) (w : Api.World) :
  let r := Debug.fetch_identity_debug self ip_address username password w in
  Debug.connect_ok (fst r) = true ->
  Debug.login_ok (fst r) = true /\
  Debug.error (fst r) = None /\
  (exists user pwd,
     (Py.truthy_opt username = false -> user = Manager.service_user self) /\
     (forall u, username = Some u -> Py.truthy u = true -> user = u) /\
     (Py.truthy_opt password = false -> pwd = Manager.service_pass self) /\
     (forall p, password = Some p -> Py.truthy p = true -> pwd = p) /\
     Api.wire (snd r)
     = (Api.wire w
        ++ ["/login"; "=name=" +:+ user; "=password=" +:+ pwd; EmptyString;
            "/system/identity/print"; "=.proplist=name"; EmptyString;
            "/system/identity/print"; EmptyString])%list) /\
  Api.net (snd r) = tail (Api.net w) /\
  (exists r1 r2,
     Debug.identity_proplist (fst r) = Some r1 /\
     Debug.identity_full (fst r) = Some r2 /\
     (forall first rest, r1 = Py.Ok (first :: rest) ->
        Debug.parsed (fst r) = Py.or_else (first !! "name") (first !! "identity")) /\
     (r1 = Py.Ok [] \/ (exists e, r1 = Py.Raise e) ->
        forall first rest, r2 = Py.Ok (first :: rest) ->
        Debug.parsed (fst r) = Py.or_else (first !! "name") (first !! "identity")) /\
     (r1 = Py.Ok [] \/ (exists e, r1 = Py.Raise e) ->
        r2 = Py.Ok [] \/ (exists e, r2 = Py.Raise e) ->
        Debug.parsed (fst r) = None)).
Proof.
  intros r. subst r. unfold Debug.fetch_identity_debug.
  set (user := if Py.truthy_opt username then default EmptyString username
               else Manager.service_user self).
  set (pwd := if Py.truthy_opt password then default EmptyString password
              else Manager.service_pass self).
  set (client := Api.new ip_address user pwd (Manager.api_port self)
                         (Manager.mgr_use_tls self)).
  destruct (connect_cases client w) as (Hiff & Hok & _ & Hnet).
  destruct (Api.connect client w) as [[[|] api] w1] eqn:Hconn;
    [| intros H; discriminate H].
  intros _. cbn [fst snd] in Hiff, Hok, Hnet.
  destruct (proj1 Hiff eq_refl) as (rest & later & Hscript).
  destruct (Hok rest later Hscript) as (Hc & Hs & Hw1).
  rewrite (send_command_connected _ _ _ _ rest Hc Hs).
  set (api1 := Api.with_socket api (Some (snd (Api.read_sentences rest))) true).
  rewrite (send_command_connected _ _ api1 _ (snd (Api.read_sentences rest))
             eq_refl eq_refl).
  cbn [fst snd Debug.connect_ok Debug.login_ok Debug.error Debug.identity_proplist
       Debug.identity_full Debug.parsed].
  split; [reflexivity |]. split; [reflexivity |].
  split.
  { exists user, pwd.
    split; [intros Hu; subst user; rewrite Hu; reflexivity |].
    split; [intros u -> Hu; subst user; cbn [Py.truthy_opt]; rewrite Hu; reflexivity |].
    split; [intros Hp; subst pwd; rewrite Hp; reflexivity |].
    split; [intros p -> Hp; subst pwd; cbn [Py.truthy_opt]; rewrite Hp; reflexivity |].
    rewrite !wire_written, Hw1, <- !app_assoc. reflexivity. }
  split; [rewrite !net_written; exact Hnet |].
  eexists. eexists. split; [reflexivity |]. split; [reflexivity |].
  split; [| split].
  - intros first rest' ->. reflexivity.
  - intros [-> | [e ->]] first rest' ->; reflexivity.
  - intros [-> | [e ->]] [-> | [e' ->]]; reflexivity.
Qed.

Lemma debug_identity_asks_twice_witness :
  let w := Spec.world [Some ["!done"; "!re"; "=comment=x"; EmptyString; "!done";
                             "!re"; "=name=gw"; EmptyString; "!done"]] in
  let r := Debug.fetch_identity_debug Spec.manager "10.0.0.1" (Some EmptyString)
                                      (Some "other") w in
  Debug.parsed (fst r) = None /\
  Api.wire (snd r)
  = ["/login"; "=name=svc"; "=password=other"; EmptyString;
     "/system/identity/print"; "=.proplist=name"; EmptyString;
     "/system/identity/print"; EmptyString].
Proof.
  intros w r.
  destruct (debug_identity_asks_twice Spec.manager "10.0.0.1" (Some EmptyString)
              (Some "other") w eq_refl)
    as (_ & _ & (user & pwd & Hu & _ & _ & Hp & Hw) & _ & (r1 & r2 & H1 & _ & Hparsed & _)).
  split.
  - vm_compute in H1. injection H1 as <-. exact (Hparsed _ _ eq_refl).
  - rewrite (Hu eq_refl), (Hp "other" eq_refl eq_refl) in Hw. exact Hw.
Defined.
